(** * ANALYTICS-SUITE: column resolver and analysis engine

    A shallow embedding of [src/src/data_loader.py] (the column resolver
    [DataLoader.get_column_mapping]), [src/config/settings.py] (the keyword
    table [AnalysisConfig.COMMON_SALES_COLS]) and [src/src/data_analyzer.py]
    (the class [DataAnalyzer] and the module-level rotation function).

    Conventions of the embedding:
    - a Python [str] is a [string]; [str.lower] is modelled on the ASCII
      letters (the keyword tables and the column names of the data sets are
      ASCII);
    - a pandas column is a [series] tagged with its dtype ([int64],
      [float64], [object]); the values of a column are exact rationals, a
      missing value (NaN / None) is [None]; an [int64] sum wraps around, and
      the [float64] statistics of a column are kept as the reduction applied
      to its values;
    - a raised exception is the left injection of [result]. *)

From Stdlib Require Import ZArith QArith Qminmax Sorting Permutation Lia Lqa Bool Ascii.
From Stdlib Require Import String.
From stdpp Require Import base option list strings gmap.

Local Open Scope string_scope.
Local Open Scope list_scope.

(** ** Exceptions and the error monad *)

Inductive exn : Type :=
| AttributeError (name : string)
| TypeError
| KeyError (key : string)
| KeyErrorNotInIndex (labels : list string).

Definition result (A : Type) : Type := (exn + A)%type.

Definition Ok {A} (a : A) : result A := inr a.
Definition Raise {A} (e : exn) : result A := inl e.

Definition rbind {A B} (m : result A) (k : A -> result B) : result B :=
  match m with
  | inl e => inl e
  | inr a => k a
  end.

Notation "'let*' x ':=' m 'in' k" := (rbind m (fun x => k))
  (at level 10, x name, m at level 100, k at level 200).

(** ** Strings: [str.lower] and the substring test [needle in haystack] *)

Module Str.

Definition lower_ascii (c : ascii) : ascii :=
  let n := nat_of_ascii c in
  if (65 <=? n)%nat && (n <=? 90)%nat then ascii_of_nat (n + 32) else c.

Fixpoint lower (s : string) : string :=
  match s with
  | EmptyString => EmptyString
  | String c s' => String (lower_ascii c) (lower s')
  end.

(** [contains needle hay] is Python's [needle in hay]. *)
Fixpoint contains (needle hay : string) : bool :=
  String.prefix needle hay
  || match hay with
     | EmptyString => false
     | String _ hay' => contains needle hay'
     end.

End Str.

(** ** The keyword table, [AnalysisConfig.COMMON_SALES_COLS] *)

Definition COMMON_SALES_COLS : list (string * list string) :=
  [ ("sales",    ["ventas"; "sales"; "vendas"; "cajas vend"; "unidades vendidas"]);
    ("product",  ["producto"; "product"; "produto"; "item"; "sku"]);
    ("category", ["categoria"; "category"; "rubro"; "departamento"; "laboratorio"]);
    ("stock",    ["stock"; "inventario"; "cajas stock"; "inventory"]);
    ("price",    ["precio"; "price"; "costo"; "pvp"]) ].

(** ** The column resolver, [DataLoader.get_column_mapping] *)

Module DataLoader.

(** [[col for col in self.df.columns if possible in col.lower()]] *)
Definition matching_cols (possible : string) (columns : list string) : list string :=
  List.filter (fun col => Str.contains possible (Str.lower col)) columns.

(** The inner [for possible in possible_names] loop with its [break]:
    the first keyword with a non-empty [matching_cols] decides. *)
Fixpoint resolve (possible_names : list string) (columns : list string)
  : option string :=
  match possible_names with
  | [] => None
  | possible :: rest =>
      match matching_cols possible columns with
      | c :: _ => Some c
      | [] => resolve rest columns
      end
  end.

(** The outer loop over the items of the configuration dictionary; a role
    is bound in [mapping] only when one of its keywords matched. *)
Definition get_column_mapping_with (config : list (string * list string))
    (columns : list string) : gmap string string :=
  fold_left
    (fun mapping '(standard_name, possible_names) =>
       match resolve possible_names columns with
       | Some c => <[standard_name := c]> mapping
       | None => mapping
       end)
    config ∅.

Definition get_column_mapping (columns : list string) : gmap string string :=
  get_column_mapping_with COMMON_SALES_COLS columns.

End DataLoader.

(** ** Tables: pandas series and data frames *)

(** A column with its dtype.  [None] is NaN in a [float64] column and a
    missing value (None / NaN) in an [object] column; an [int64] column has
    no missing values. *)
Inductive series : Type :=
| Int64 (values : list Z)
| Float64 (values : list (option Q))
| Object (values : list (option string)).

(** A cell as the generic operations see it. *)
Inductive cell : Type :=
| Num (q : Q)
| Text (s : string)
| NA.

Definition cells (s : series) : list cell :=
  match s with
  | Int64 l => map (fun z => Num (inject_Z z)) l
  | Float64 l => map (fun x => match x with Some q => Num q | None => NA end) l
  | Object l => map (fun x => match x with Some t => Text t | None => NA end) l
  end.

Definition series_len (s : series) : nat :=
  match s with
  | Int64 l => length l
  | Float64 l => length l
  | Object l => length l
  end.

(** Positional selection, [l.take(ps)]; positions out of range are dropped. *)
Definition take_list {A} (ps : list nat) (l : list A) : list A :=
  omap (fun p => l !! p) ps.

Definition take_series (ps : list nat) (s : series) : series :=
  match s with
  | Int64 l => Int64 (take_list ps l)
  | Float64 l => Float64 (take_list ps l)
  | Object l => Object (take_list ps l)
  end.

(** A data frame: the row labels ([index]) and the named columns in their
    left-to-right order. *)
Record DataFrame : Type := mkDataFrame {
  index : list nat;
  data : list (string * series)
}.

Definition columns (df : DataFrame) : list string := map fst (data df).

(** [len(df)] *)
Definition len (df : DataFrame) : nat := length (index df).

(** The ingestion contract: equal-length columns with distinct names. *)
Definition well_formed (df : DataFrame) : Prop :=
  Forall (fun c => series_len (snd c) = len df) (data df)
  /\ NoDup (columns df).

(** [pd.DataFrame()] *)
Definition empty_frame : DataFrame := mkDataFrame [] [].

(** [df[col]]; an absent label raises [KeyError]. *)
Definition getitem (df : DataFrame) (col : string) : result series :=
  match List.find (fun c => String.eqb (fst c) col) (data df) with
  | Some c => Ok (snd c)
  | None => Raise (KeyError col)
  end.

Definition take_rows (ps : list nat) (df : DataFrame) : DataFrame :=
  mkDataFrame (take_list ps (index df))
              (map (fun c => (fst c, take_series ps (snd c))) (data df)).

(** Positions at which a boolean mask holds. *)
Fixpoint mask_positions_from (i : nat) (mask : list bool) : list nat :=
  match mask with
  | [] => []
  | b :: mask' =>
      (if b then [i] else []) ++ mask_positions_from (S i) mask'
  end.

Definition mask_positions (mask : list bool) : list nat :=
  mask_positions_from 0 mask.

(** [df[mask]] for a boolean mask of the frame's length. *)
Definition boolean_index (df : DataFrame) (mask : list bool) : DataFrame :=
  take_rows (mask_positions mask) df.

(** [m1 & m2] *)
Definition mask_and (m1 m2 : list bool) : list bool :=
  map (fun p => fst p && snd p) (combine m1 m2).

(** Comparison of a series with an integer scalar.  On an [object] column
    a missing cell compares [False]; an ordering comparison of a [str]
    cell with an [int] raises [TypeError], an equality test is [False]. *)
Definition is_missing {A} (x : option A) : bool :=
  match x with None => true | Some _ => false end.

Definition compare_scalar (op : Q -> Q -> bool) (s : series) (v : Z)
  : result (list bool) :=
  match s with
  | Int64 l => Ok (map (fun x => op (inject_Z x) (inject_Z v)) l)
  | Float64 l =>
      Ok (map (fun x => match x with
                        | Some q => op q (inject_Z v)
                        | None => false
                        end) l)
  | Object l =>
      if forallb is_missing l then Ok (map (fun _ => false) l)
      else Raise TypeError
  end.

(** [s <= v] and [s >= v] *)
Definition le_scalar (s : series) (v : Z) : result (list bool) :=
  compare_scalar Qle_bool s v.
Definition ge_scalar (s : series) (v : Z) : result (list bool) :=
  compare_scalar (fun a b => Qle_bool b a) s v.

(** [s == v] *)
Definition eq_scalar (s : series) (v : Z) : list bool :=
  map (fun c => match c with
                | Num q => Qeq_bool q (inject_Z v)
                | _ => false
                end) (cells s).

(** [mask.sum()] *)
Definition count_true (mask : list bool) : nat :=
  length (List.filter (fun b => b) mask).

(** [s.isnull().sum()] and [df.isnull().sum().sum()] *)
Definition isnull_sum (s : series) : nat :=
  length (List.filter (fun c => match c with NA => true | _ => false end)
                      (cells s)).

Definition missing_total (df : DataFrame) : nat :=
  list_sum (map (fun c => isnull_sum (snd c)) (data df)).

(** *** [DataFrame.sort_values(col)]

    Ascending, missing keys last.  Rows are kept in a list of
    (key, position) pairs and sorted by insertion; the order of rows with
    equal keys is the one insertion produces and is not relied upon. *)
Definition key_leb (a b : cell) : bool :=
  match a, b with
  | _, NA => true
  | NA, _ => false
  | Num x, Num y => Qle_bool x y
  | Text x, Text y => String.leb x y
  | Num _, Text _ => true
  | Text _, Num _ => false
  end.

Fixpoint insert_by_key (x : cell * nat) (l : list (cell * nat))
  : list (cell * nat) :=
  match l with
  | [] => [x]
  | y :: l' =>
      if key_leb (fst x) (fst y) then x :: y :: l'
      else y :: insert_by_key x l'
  end.

Fixpoint sort_by_key (l : list (cell * nat)) : list (cell * nat) :=
  match l with
  | [] => []
  | x :: l' => insert_by_key x (sort_by_key l')
  end.

Definition argsort (s : series) : list nat :=
  map snd (sort_by_key (combine (cells s) (seq 0 (series_len s)))).

Definition sort_values (df : DataFrame) (col : string) : result DataFrame :=
  let* s := getitem df col in
  Ok (take_rows (argsort s) df).

(** ** Binary64 arithmetic of the rotation threshold

    [len(self.df) * 0.3] is a product of Python floats.  A non-negative
    finite double is the pair [(m, e)] standing for [m * 2^e]; a product is
    rounded to 53 significant bits, ties to even.  The exponent range is
    not modelled: the operands here are a row count and the literal [0.3],
    far from overflow and underflow. *)

Module Binary64.

Local Open Scope Z_scope.

Record float : Type := mkFloat { mant : Z; expo : Z }.

(** Round [m * 2^e] ([0 <= m]) to 53 significant bits, ties to even. *)
Definition round (m e : Z) : float :=
  if m <? 2 ^ 53 then mkFloat m e
  else
    let s := Z.log2 m - 52 in
    let q := m / 2 ^ s in
    let r := m mod 2 ^ s in
    let half := 2 ^ (s - 1) in
    let q' := if (half <? r) || ((r =? half) && Z.odd q) then q + 1 else q in
    mkFloat q' (e + s).

(** [float(n)] for a non-negative Python [int]. *)
Definition of_int (n : Z) : float := round n 0.

(** The literal [0.3]: the double nearest to 3/10. *)
Definition lit_0_3 : float := mkFloat 5404319552844595 (-54).

Definition mul (a b : float) : float :=
  round (mant a * mant b) (expo a + expo b).

(** [a < b], exact. *)
Definition ltb (a b : float) : bool :=
  let e := Z.min (expo a) (expo b) in
  mant a * 2 ^ (expo a - e) <? mant b * 2 ^ (expo b - e).

End Binary64.

(** [zero_sales > len(self.df) * 0.3] *)
Definition exceeds_30_percent (zero_sales rows : nat) : bool :=
  Binary64.ltb
    (Binary64.mul (Binary64.of_int (Z.of_nat rows)) Binary64.lit_0_3)
    (Binary64.of_int (Z.of_nat zero_sales)).

(** ** Descriptive statistics of a numeric series (missing values skipped) *)

Module Stats.

Local Open Scope Q_scope.

(** The non-missing values of a numeric series, [s.dropna()]. *)
Definition dropna (s : series) : list Q :=
  omap (fun c => match c with Num q => Some q | _ => None end) (cells s).

(** *** Integer results

    An [int64] result is reduced to the two's-complement range. *)
Definition wrap64 (z : Z) : Z := ((z + 2 ^ 63) mod 2 ^ 64 - 2 ^ 63)%Z.

(** [Series.sum()] of an [int64] column: the additions are done in [int64]
    and wrap around, so the result is the wrapped sum whatever their
    order. *)
Definition sum_int64 (l : list Z) : Z := wrap64 (fold_right Z.add 0%Z l).

(** *** Floating-point results

    A [float64] reduction is not recomputed: its rounding is that of the
    numeric library.  The result is kept as the reduction together with its
    operands, the non-missing values of the column; [FNaN] is the NaN that
    pandas returns where there are too few values. *)
Inductive float_result : Type :=
| FSum (xs : list Q)
| FMean (xs : list Q)
| FMedian (xs : list Q)
| FStd (ddof : nat) (xs : list Q)
| FNaN.

Inductive number : Type :=
| IntValue (z : Z)
| FloatValue (r : float_result).

(** [Series.sum()]: an [int64] for an [int64] column, a [float64]
    otherwise. *)
Definition total (s : series) : number :=
  match s with
  | Int64 l => IntValue (sum_int64 l)
  | _ => FloatValue (FSum (dropna s))
  end.

(** [Series.mean()] and [Series.median()]: NaN without values. *)
Definition mean (xs : list Q) : float_result :=
  match xs with
  | [] => FNaN
  | _ => FMean xs
  end.

Definition median (xs : list Q) : float_result :=
  match xs with
  | [] => FNaN
  | _ => FMedian xs
  end.

(** [Series.std(ddof=ddof)]: NaN unless there are more than [ddof]
    values. *)
Definition std_ddof (ddof : nat) (xs : list Q) : float_result :=
  if (length xs <=? ddof)%nat then FNaN else FStd ddof xs.

(** [Series.std()], pandas' default [ddof=1]. *)
Definition std (xs : list Q) : float_result := std_ddof 1 xs.

(** [Series.max()] and [Series.min()] return one of the values. *)
Definition max (xs : list Q) : option Q :=
  match xs with
  | [] => None
  | x :: xs' => Some (fold_left Qmax xs' x)
  end.

Definition min (xs : list Q) : option Q :=
  match xs with
  | [] => None
  | x :: xs' => Some (fold_left Qmin xs' x)
  end.

End Stats.

(** ** The analysis engine, class [DataAnalyzer] *)

Module DataAnalyzer.

(** The methods that the class body defines (lines 12-140).  The
    functions from line 142 on are written at module level and are not
    attributes of the class. *)
Definition methods : list string :=
  [ "__init__"; "comprehensive_analysis"; "_get_basic_statistics";
    "_analyze_sales"; "_analyze_inventory"; "_identify_low_stock";
    "_detect_anomalies"; "_generate_recommendations" ].

Definition is_method (name : string) : bool :=
  existsb (String.eqb name) methods.

(** [self.<name>(...)]: attribute lookup comes first and raises
    [AttributeError] for a name the class does not define. *)
Definition call {A} (name : string) (body : result A) : result A :=
  if is_method name then body else Raise (AttributeError name).

(** The value of a call whose method is defined nowhere: no value is ever
    produced, the body only marks the call site. *)
Definition undefined : result unit := Ok tt.

(** *** [_get_basic_statistics] (the memory footprint is not modelled) *)

Record basic_stats : Type := mkBasicStats {
  total_rows : nat;
  total_columns : nat;
  missing_values : nat;
  duplicate_rows : nat;
  numeric_columns : nat;
  categorical_columns : nat
}.

Definition cell_eqb (a b : cell) : bool :=
  match a, b with
  | Num x, Num y => Qeq_bool x y
  | Text x, Text y => String.eqb x y
  | NA, NA => true
  | _, _ => false
  end.

Fixpoint row_eqb (r1 r2 : list cell) : bool :=
  match r1, r2 with
  | [], [] => true
  | a :: r1', b :: r2' => cell_eqb a b && row_eqb r1' r2'
  | _, _ => false
  end.

Definition rows (df : DataFrame) : list (list cell) :=
  map (fun i => map (fun c => default NA (cells (snd c) !! i)) (data df))
      (seq 0 (len df)).

(** [df.duplicated().sum()]: rows equal to an earlier row. *)
Fixpoint count_duplicated (seen rs : list (list cell)) : nat :=
  match rs with
  | [] => 0
  | r :: rs' =>
      (if existsb (row_eqb r) seen then 1 else 0)
      + count_duplicated (r :: seen) rs'
  end.

Definition is_number (s : series) : bool :=
  match s with Int64 _ | Float64 _ => true | Object _ => false end.

Definition is_object (s : series) : bool :=
  match s with Object _ => true | _ => false end.

Definition _get_basic_statistics (df : DataFrame) : basic_stats :=
  mkBasicStats
    (len df)
    (length (columns df))
    (missing_total df)
    (count_duplicated [] (rows df))
    (length (List.filter (fun c => is_number (snd c)) (data df)))
    (length (List.filter (fun c => is_object (snd c)) (data df))).

(** *** [_analyze_sales] *)

Record sales_entry (T : Type) : Type := mkSalesEntry {
  total : Stats.number;
  mean : Stats.float_result;
  median : Stats.float_result;
  std : Stats.float_result;
  max : option Q;
  min : option Q;
  zero_sales : nat;
  top_products : T
}.
Arguments mkSalesEntry {T}.
Arguments total {T}.
Arguments mean {T}.
Arguments median {T}.
Arguments std {T}.
Arguments max {T}.
Arguments min {T}.
Arguments zero_sales {T}.
Arguments top_products {T}.

(** The dictionary returned: either the single ['error'] entry or one
    entry per analysed column. *)
Inductive sales_analysis (T : Type) : Type :=
| SalesError (message : string)
| SalesByColumn (entries : gmap string (sales_entry T)).
Arguments SalesError {T}.
Arguments SalesByColumn {T}.

(** ['vent' in col.lower() or 'sales' in col.lower()] *)
Definition is_sales_col (col : string) : bool :=
  Str.contains "vent" (Str.lower col) || Str.contains "sales" (Str.lower col).

(** [self.df[col].dtype in [np.int64, np.float64]] *)
Definition is_int64_or_float64 (s : series) : bool :=
  match s with Int64 _ | Float64 _ => true | Object _ => false end.

Section AnalyzeSales.

Context {T : Type}.
(** The callee [self._get_top_products(sales_data)]. *)
Variable get_top_products : series -> result T.

(** The dictionary display of lines 58-67, evaluated top to bottom. *)
Definition sales_entry_of (sales_data : series) : result (sales_entry T) :=
  let xs := Stats.dropna sales_data in
  let total := Stats.total sales_data in
  let mean := Stats.mean xs in
  let median := Stats.median xs in
  let std := Stats.std xs in
  let max := Stats.max xs in
  let min := Stats.min xs in
  let zero_sales := count_true (eq_scalar sales_data 0) in
  let* top := get_top_products sales_data in
  Ok (mkSalesEntry total mean median std max min zero_sales top).

Fixpoint sales_loop (df : DataFrame) (sales_cols : list string)
    (sales_analysis : gmap string (sales_entry T))
  : result (gmap string (sales_entry T)) :=
  match sales_cols with
  | [] => Ok sales_analysis
  | col :: rest =>
      let* s := getitem df col in
      if is_int64_or_float64 s then
        let* entry := sales_entry_of s in
        sales_loop df rest (<[col := entry]> sales_analysis)
      else sales_loop df rest sales_analysis
  end.

Definition _analyze_sales_with (df : DataFrame) : result (sales_analysis T) :=
  let sales_cols := List.filter is_sales_col (columns df) in
  match sales_cols with
  | [] => Ok (SalesError "No se encontraron columnas de ventas")
  | _ =>
      let* entries := sales_loop df sales_cols ∅ in
      Ok (SalesByColumn entries)
  end.

End AnalyzeSales.

(** The method as the class has it: [_get_top_products] is not defined. *)
Definition _analyze_sales (df : DataFrame) : result (sales_analysis unit) :=
  _analyze_sales_with
    (fun _ => call "_get_top_products" undefined) df.

(** *** [_identify_low_stock] *)

Definition is_stock_col (col : string) : bool :=
  Str.contains "stock" (Str.lower col).

Definition stock_cols (df : DataFrame) : list string :=
  List.filter is_stock_col (columns df).

Definition _identify_low_stock (df : DataFrame) (threshold : Z)
  : result DataFrame :=
  match stock_cols df with
  | [] => Ok empty_frame
  | c :: _ =>
      let* s := getitem df c in
      let* m1 := le_scalar s threshold in
      let* m2 := ge_scalar s 0 in
      let low_stock_mask := mask_and m1 m2 in
      sort_values (boolean_index df low_stock_mask) c
  end.

(** *** [_analyze_inventory] *)

Record inventory_analysis : Type := mkInventory {
  low_stock_items : DataFrame;
  overstock_items : unit;
  stock_turnover : unit;
  abc_analysis : unit
}.

Definition _analyze_inventory (df : DataFrame) : result inventory_analysis :=
  let* low := call "_identify_low_stock" (_identify_low_stock df 5) in
  let* over := call "_identify_overstock" undefined in
  let* turnover := call "_calculate_turnover" undefined in
  let* abc := call "_perform_abc_analysis" undefined in
  Ok (mkInventory low over turnover abc).

(** *** [_generate_recommendations]

    The three f-strings are kept as constructors carrying the number
    they print. *)
Inductive recommendation : Type :=
| Restock (n : nat)            (* "N productos necesitan reposicion urgente" *)
| Rotation (n : nat)           (* "N productos sin ventas - considerar rotacion" *)
| MissingValues (n : nat).     (* "N valores faltantes detectados" *)

Definition is_vent_col (col : string) : bool :=
  Str.contains "vent" (Str.lower col).

Definition _generate_recommendations (df : DataFrame)
  : result (list recommendation) :=
  let recommendations := [] in
  let* low_stock := call "_identify_low_stock" (_identify_low_stock df 5) in
  let recommendations :=
    if (0 <? len low_stock)%nat
    then recommendations ++ [Restock (len low_stock)]
    else recommendations in
  let sales_cols := List.filter is_vent_col (columns df) in
  let* recommendations :=
    match sales_cols with
    | [] => Ok recommendations
    | c :: _ =>
        let* s := getitem df c in
        let zero_sales := count_true (eq_scalar s 0) in
        if exceeds_30_percent zero_sales (len df)
        then Ok (recommendations ++ [Rotation zero_sales])
        else Ok recommendations
    end in
  let missing_total := missing_total df in
  let recommendations :=
    if (0 <? missing_total)%nat
    then recommendations ++ [MissingValues missing_total]
    else recommendations in
  Ok recommendations.

(** *** [comprehensive_analysis] *)

Section Comprehensive.

(** [_detect_anomalies] rests on [scipy.stats.zscore] and
    [Series.quantile]; it is taken as given. *)
Context {Anomalies : Type}.
Variable _detect_anomalies : DataFrame -> result Anomalies.

Record analysis : Type := mkAnalysis {
  basic_stats_of : basic_stats;
  sales_analysis_of : sales_analysis unit;
  inventory_analysis_of : inventory_analysis;
  trends : unit;
  anomalies : Anomalies;
  recommendations : list recommendation
}.

Definition comprehensive_analysis (df : DataFrame) : result analysis :=
  let* basic := call "_get_basic_statistics" (Ok (_get_basic_statistics df)) in
  let* sales := call "_analyze_sales" (_analyze_sales df) in
  let* inventory := call "_analyze_inventory" (_analyze_inventory df) in
  let* trends := call "_detect_trends" undefined in
  let* anomalies := call "_detect_anomalies" (_detect_anomalies df) in
  let* recs := call "_generate_recommendations" (_generate_recommendations df) in
  Ok (mkAnalysis basic sales inventory trends anomalies recs).

End Comprehensive.

End DataAnalyzer.

(** ** Product rotation, the module-level [_analyze_product_rotation] *)

Module Rotation.

Local Open Scope Q_scope.

(** A computed [float64] value: finite, infinite or NaN. *)
Inductive fvalue : Type :=
| Fin (q : Q)
| PInf
| NInf
| NaN.

(** [s.replace(0, 1)] on one cell. *)
Definition replace_0_1 (c : cell) : cell :=
  match c with
  | Num q => if Qeq_bool q 0 then Num 1 else Num q
  | other => other
  end.

(** True division of two cells.  A missing operand gives NaN; a [str]
    operand raises [TypeError]; a zero divisor gives an infinity or NaN. *)
Definition truediv (a b : cell) : result fvalue :=
  match a, b with
  | NA, _ | _, NA => Ok NaN
  | Text _, _ | _, Text _ => Raise TypeError
  | Num x, Num y =>
      if Qeq_bool y 0 then
        if Qlt_le_dec 0 x then Ok PInf
        else if Qeq_bool x 0 then Ok NaN else Ok NInf
      else Ok (Fin (x / y))
  end.

Fixpoint truediv_cells (l1 l2 : list cell) : result (list fvalue) :=
  match l1, l2 with
  | a :: l1', b :: l2' =>
      let* v := truediv a b in
      let* vs := truediv_cells l1' l2' in
      Ok (v :: vs)
  | _, _ => Ok []
  end.

(** [pd.cut(x, bins=[-1, 0.1, 0.5, 1, 5, inf], labels=...)]: intervals open
    on the left and closed on the right; outside every interval, no label. *)
Definition cut (v : fvalue) : option string :=
  match v with
  | NaN | NInf => None
  | PInf => Some "Muy Alta"
  | Fin q =>
      if Qle_bool q (-1) then None
      else if Qle_bool q (1 # 10) then Some "Sin ventas"
      else if Qle_bool q (1 # 2) then Some "Baja"
      else if Qle_bool q 1 then Some "Media"
      else if Qle_bool q 5 then Some "Alta"
      else Some "Muy Alta"
  end.

(** [Index.unique()]: each label once, in the order of first occurrence. *)
Fixpoint unique (l : list string) : list string :=
  match l with
  | [] => []
  | x :: l' => x :: List.filter (fun y => negb (String.eqb x y)) (unique l')
  end.

(** The requested labels that are not columns of the table, each once, in
    the order of the request. *)
Definition missing_labels (df : DataFrame) (names : list string) : list string :=
  unique (List.filter (fun n => negb (existsb (String.eqb n) (columns df))) names).

Fixpoint lookup_columns (df : DataFrame) (names : list string)
  : result (list (string * series)) :=
  match names with
  | [] => Ok []
  | n :: names' =>
      let* s := getitem df n in
      let* rest := lookup_columns df names' in
      Ok ((n, s) :: rest)
  end.

(** [df[[name; ...]]]: the listed columns; when labels are absent, one
    [KeyError] that names all of them.  (The function selects its two
    computed columns as well; they are always present, so the labels of
    the request are never all absent.) *)
Definition select_columns (df : DataFrame) (names : list string)
  : result (list (string * series)) :=
  match missing_labels df names with
  | [] => lookup_columns df names
  | missing => Raise (KeyErrorNotInIndex missing)
  end.

Record rotation_frame : Type := mkRotation {
  selected : list (string * series);
  rotacion : list fvalue;
  estado_rotacion : list (option string)
}.

(** A Python value is true unless it is [None] or the empty string. *)
Definition truthy (o : option string) : bool :=
  match o with
  | Some s => negb (String.eqb s "")
  | None => false
  end.

(** Lines 172-182: the body of the function once the two calls of
    [_find_column] have returned. *)
Definition rotation_of (df : DataFrame) (sales_col stock_col : option string)
  : result rotation_frame :=
  if truthy sales_col && truthy stock_col then
    let sales_col := default "" sales_col in
    let stock_col := default "" stock_col in
    let* sales := getitem df sales_col in
    let* stock := getitem df stock_col in
    let* rotacion :=
      truediv_cells (cells sales) (map replace_0_1 (cells stock)) in
    let estado := map cut rotacion in
    let* selected :=
      select_columns df ["Producto"; "Laboratorio"; sales_col; stock_col] in
    Ok (mkRotation selected rotacion estado)
  else Ok (mkRotation [] [] []).

Section ProductRotation.

(** The function with a column finder supplied: [_find_column] is a
    parameter, returning a column label or [None]. *)
Variable _find_column : DataFrame -> list string -> option string.

Definition _analyze_product_rotation (df : DataFrame) : result rotation_frame :=
  let sales_col := _find_column df ["cajas vend. total"] in
  let stock_col := _find_column df ["cajas stock total"] in
  rotation_of df sales_col stock_col.

End ProductRotation.

(** The value of [self._find_column(...)]: no value is ever produced, the
    body only marks the call site. *)
Definition no_column : result (option string) := Ok None.

(** The function as the repository has it: [self] is the analyzer, and
    [self._find_column] is defined nowhere, so the attribute lookup of
    line 169 raises. *)
Definition _analyze_product_rotation_of_analyzer (df : DataFrame)
  : result rotation_frame :=
  let* sales_col := DataAnalyzer.call "_find_column" no_column in
  let* stock_col := DataAnalyzer.call "_find_column" no_column in
  rotation_of df sales_col stock_col.

End Rotation.

(** * Vocabulary of the statements *)

(** ** Column resolver *)

(** Keyword [p] occurs in the lowercased column name. *)
Definition hits (p col : string) : bool := Str.contains p (Str.lower col).

(** No column carries keyword [p]. *)
Definition no_hit (p : string) (columns : list string) : Prop :=
  forall col, col ∈ columns -> hits p col = false.

(** [c] is the leftmost column carrying keyword [p]. *)
Definition leftmost_hit (p : string) (columns : list string) (c : string)
  : Prop :=
  exists l1 l2, columns = l1 ++ c :: l2 /\ hits p c = true /\ no_hit p l1.

(** [c] is what "keywords outer, columns inner, first hit wins" selects:
    the leftmost column of the first keyword that any column carries. *)
Definition first_hit (possible_names columns : list string) (c : string)
  : Prop :=
  exists pre p post,
    possible_names = pre ++ p :: post
    /\ (forall q, q ∈ pre -> no_hit q columns)
    /\ leftmost_hit p columns c.

(** One iteration of the loop over the configuration items. *)
Definition step (columns : list string) (mapping : gmap string string)
    (item : string * list string) : gmap string string :=
  match DataLoader.resolve (snd item) columns with
  | Some c => <[fst item := c]> mapping
  | None => mapping
  end.

(** ** Low stock *)

(** The ordering on (key, position) pairs that [sort_values] sorts by. *)
Definition key_le (a b : cell * nat) : Prop := key_leb (fst a) (fst b) = true.

(** A column that an ordering comparison with a number accepts: numeric,
    or an [object] column without a [str] cell. *)
Definition orderable (s : series) : bool :=
  match s with
  | Object l => forallb is_missing l
  | _ => true
  end.

(** The cell is a number of the closed interval [[0, threshold]]. *)
Definition in_low_stock (threshold : Z) (c : cell) : bool :=
  match c with
  | Num q => Qle_bool q (inject_Z threshold) && Qle_bool 0 q
  | _ => false
  end.

Definition low_positions (threshold : Z) (s : series) : list nat :=
  mask_positions (map (in_low_stock threshold) (cells s)).

(** ** Tables of the scenarios *)

(** Stock values -1, 0, 5, 6. *)
Definition df_boundary : DataFrame :=
  mkDataFrame [0; 1; 2; 3]%nat [("stock", Int64 [-1; 0; 5; 6]%Z)].

(** The end-to-end scenario. *)
Definition df_scenario : DataFrame :=
  mkDataFrame [0; 1; 2]%nat
    [ ("Product", Object [Some "A"; Some "B"; Some "C"]);
      ("Laboratory", Object [Some "LabX"; Some "LabY"; Some "LabX"]);
      ("Cajas Vend. Total", Int64 [10; 0; 5]%Z);
      ("Cajas Stock Total", Int64 [2; 0; 50]%Z) ].

(** Ten rows, four of them without sales; ten rows, three without sales. *)
Definition df_four_of_ten : DataFrame :=
  mkDataFrame (seq 0 10)
    [ ("Ventas", Int64 [0; 0; 0; 0; 1; 2; 3; 4; 5; 6]%Z) ].

Definition df_three_of_ten : DataFrame :=
  mkDataFrame (seq 0 10)
    [ ("Ventas", Int64 [0; 0; 0; 1; 2; 3; 4; 5; 6; 7]%Z) ].

(** A stock column read as text. *)
Definition df_text_stock : DataFrame :=
  mkDataFrame [0]%nat
    [ ("Producto", Object [Some "A"]); ("Stock", Object [Some "agotado"]) ].

(** Stock values 5, -1, 0, 6, 3: the flagged rows are not in order. *)
Definition df_unsorted : DataFrame :=
  mkDataFrame [0; 1; 2; 3; 4]%nat [("stock", Int64 [5; -1; 0; 6; 3]%Z)].



(** A column finder: the first column whose lowercased
    name contains one of the candidates. *)
Definition find_first (df : DataFrame) (candidates : list string)
  : option string :=
  DataLoader.resolve candidates (columns df).

(** A pharmacy table with the columns the rotation function selects. *)
Definition df_farmacia : DataFrame :=
  mkDataFrame [0; 1]%nat
    [ ("Producto", Object [Some "A"; Some "B"]);
      ("Laboratorio", Object [Some "LabX"; Some "LabY"]);
      ("Cajas Vend. Total", Int64 [10; 0]%Z);
      ("Cajas Stock Total", Int64 [0; 0]%Z) ].

(** ** Recommendation rules, with the threshold in exact arithmetic *)

Definition restock_rule (low_stock : DataFrame)
  : list DataAnalyzer.recommendation :=
  if (0 <? len low_stock)%nat then [DataAnalyzer.Restock (len low_stock)]
  else [].

(** The zero count of the first column whose name carries ['vent']. *)
Definition zero_sales_count (df : DataFrame) : option nat :=
  match List.filter DataAnalyzer.is_vent_col (columns df) with
  | [] => None
  | c :: _ =>
      match getitem df c with
      | inr s => Some (count_true (eq_scalar s 0))
      | inl _ => None
      end
  end.

(** Fires when the zero count is strictly more than 30% of the rows:
    [10 * zeros > 3 * rows]. *)
Definition rotation_rule (df : DataFrame) : list DataAnalyzer.recommendation :=
  match zero_sales_count df with
  | Some z => if (3 * len df <? 10 * z)%nat then [DataAnalyzer.Rotation z] else []
  | None => []
  end.

Definition missing_rule (df : DataFrame) : list DataAnalyzer.recommendation :=
  if (0 <? missing_total df)%nat
  then [DataAnalyzer.MissingValues (missing_total df)]
  else [].

(** ** Statistics as the specification words them *)

(** The variance of a data set in exact arithmetic: the sum of the squared
    deviations from the mean over [n - ddof].  These are the numbers that
    the words of the specification denote, not the reductions of the
    code. *)
Module Exact.

Local Open Scope Q_scope.

Definition sum (xs : list Q) : Q := fold_right Qplus 0 xs.

Definition count (xs : list Q) : Q := inject_Z (Z.of_nat (length xs)).

Definition mean (xs : list Q) : Q := sum xs / count xs.



End Exact.




(** Turnover of one row with the zero-stock convention: a stock of exactly
    0 counts as 1. *)
Definition turnover (sales stock : Q) : Q :=
  (sales / (if Qeq_bool stock 0 then 1 else stock))%Q.

(** The mantissa of the literal [0.3]. *)
Definition C : Z := 5404319552844595.

(** * The rest of the loader, the analyzer and their consumers *)

Module Visualizer.

(** [for col in df.columns: if any(keyword in col.lower() for keyword in
    keywords): return col], then [return None]. *)
Definition find_column_any (keywords columns : list string) : option string :=
  List.find
    (fun col => existsb (fun keyword => Str.contains keyword (Str.lower col))
                        keywords)
    columns.

Definition _find_sales_column (columns : list string) : option string :=
  find_column_any ["venta"; "sales"; "venda"; "cajas vend"; "unidades"] columns.

Definition _find_stock_column (columns : list string) : option string :=
  find_column_any ["stock"; "inventario"; "cajas stock"; "inventory"] columns.

Definition _find_category_column (columns : list string) : option string :=
  find_column_any
    ["categoria"; "category"; "rubro"; "departamento"; "laboratorio"] columns.

End Visualizer.

(** The configuration without the keyword ['cajas stock']. *)
Definition COMMON_SALES_COLS_pruned : list (string * list string) :=
  [ ("sales",    ["ventas"; "sales"; "vendas"; "cajas vend"; "unidades vendidas"]);
    ("product",  ["producto"; "product"; "produto"; "item"; "sku"]);
    ("category", ["categoria"; "category"; "rubro"; "departamento"; "laboratorio"]);
    ("stock",    ["stock"; "inventario"; "inventory"]);
    ("price",    ["precio"; "price"; "costo"; "pvp"]) ].

(** ** Ingestion: the other methods of [DataLoader] *)

Module Ingestion.

(** *** [detect_delimiter] *)

Fixpoint count_char (d : ascii) (s : string) : nat :=
  match s with
  | EmptyString => 0
  | String c s' => (if Ascii.eqb c d then 1 else 0) + count_char d s'
  end.

(** [len(first_line.split(delimiter))] for a one-character delimiter. *)
Definition column_count (delimiter : ascii) (first_line : string) : nat :=
  S (count_char delimiter first_line).

Definition tab : ascii := ascii_of_nat 9.

Definition delimiters : list ascii := [","%char; ";"%char; tab; "|"%char].

(** The loop body: the state is [(best_delimiter, max_columns)]. *)
Definition detect_step (first_line : string) (state : ascii * nat)
    (delimiter : ascii) : ascii * nat :=
  let column_count := column_count delimiter first_line in
  if (snd state <? column_count)%nat && (1 <? column_count)%nat
  then (delimiter, column_count)
  else state.

(** [first_line] is [None] when opening or reading the file raised: the
    [except] branch answers a comma. *)
Definition detect_delimiter (first_line : option string) : ascii :=
  match first_line with
  | Some line => fst (fold_left (detect_step line) delimiters (","%char, 0%nat))
  | None => ","%char
  end.

(** *** [validate_file] and [smart_load] *)

Inductive load_exn : Type :=
| FileNotFoundError
| UnsupportedFormat (suffix : string)   (* ValueError("Formato no soportado") *)
| FileTooLarge                          (* ValueError("Archivo demasiado grande") *)
| ReaderError.                          (* whatever the pandas reader raised *)

(** What [pathlib] reports about the path. *)
Record file_info : Type := mkFile {
  file_exists : bool;
  suffix : string;
  st_size : Z
}.

Definition SUPPORTED_FORMATS : list string := [".csv"; ".xlsx"; ".xls"].
Definition MAX_FILE_SIZE_MB : Z := 100.

Definition in_list (x : string) (l : list string) : bool :=
  existsb (String.eqb x) l.

(** [st_size / (1024 * 1024) > MAX_FILE_SIZE_MB]: the division by a power
    of two and the comparison are exact. *)
Definition validate_file (f : file_info) : load_exn + bool :=
  if negb (file_exists f) then inl FileNotFoundError
  else if negb (in_list (Str.lower (suffix f)) SUPPORTED_FORMATS)
       then inl (UnsupportedFormat (suffix f))
  else if (MAX_FILE_SIZE_MB * (1024 * 1024) <? st_size f)%Z then inl FileTooLarge
  else inr true.

(** *** [_post_process_dataframe] *)

(** The ASCII characters that [str.strip] removes. *)
Definition is_space (c : ascii) : bool :=
  let n := nat_of_ascii c in
  ((9 <=? n) && (n <=? 13) || (28 <=? n) && (n <=? 32))%nat.

Fixpoint lstrip (s : string) : string :=
  match s with
  | EmptyString => EmptyString
  | String c s' => if is_space c then lstrip s' else s
  end.

Fixpoint rstrip (s : string) : string :=
  match s with
  | EmptyString => EmptyString
  | String c s' =>
      match rstrip s' with
      | EmptyString => if is_space c then EmptyString else String c EmptyString
      | r => String c r
      end
  end.

Definition strip (s : string) : string := rstrip (lstrip s).

(** [df.columns = df.columns.str.strip()] *)
Definition strip_columns (df : DataFrame) : DataFrame :=
  mkDataFrame (index df) (map (fun c => (strip (fst c), snd c)) (data df)).

Definition cell_missing (c : option cell) : bool :=
  match c with
  | Some NA | None => true
  | Some _ => false
  end.

(** Every cell of row [i] is missing. *)
Definition row_all_missing (df : DataFrame) (i : nat) : bool :=
  forallb (fun c => cell_missing (cells (snd c) !! i)) (data df).

(** [df.dropna(how='all')] *)
Definition dropna_rows (df : DataFrame) : DataFrame :=
  take_rows (List.filter (fun i => negb (row_all_missing df i)) (seq 0 (len df)))
            df.

(** [df.reset_index(drop=True)] *)
Definition reset_index (df : DataFrame) : DataFrame :=
  mkDataFrame (seq 0 (len df)) (data df).

Definition _post_process_dataframe (df : DataFrame) : DataFrame :=
  reset_index (dropna_rows (strip_columns df)).

Section SmartLoad.

(** The pandas readers, with the encoding and delimiter detection of the
    CSV branch folded in.  The metadata that [smart_load] stores on the
    loader object after post-processing is not part of the returned frame
    and is left out. *)
Variable read_csv read_excel : file_info -> load_exn + DataFrame.

Definition smart_load (f : file_info) : load_exn + DataFrame :=
  match validate_file f with
  | inl e => inl e
  | inr _ =>
      let loaded :=
        if String.eqb (Str.lower (suffix f)) ".csv" then read_csv f
        else if in_list (Str.lower (suffix f)) [".xlsx"; ".xls"] then read_excel f
        else inl (UnsupportedFormat (suffix f)) in
      match loaded with
      | inl e => inl e
      | inr df => inr (_post_process_dataframe df)
      end
  end.

End SmartLoad.

(** *** [_clean_farmacia_data], the definition in force (lines 251-262) *)

Definition col_all_missing (s : series) : bool :=
  forallb (fun c => cell_missing (Some c)) (cells s).

(** [df.dropna(axis=1, how='all')] *)
Definition dropna_columns (df : DataFrame) : DataFrame :=
  mkDataFrame (index df)
              (List.filter (fun c => negb (col_all_missing (snd c))) (data df)).

Definition _clean_farmacia_data (df : DataFrame) : DataFrame :=
  reset_index (dropna_columns (dropna_rows df)).

End Ingestion.

(** Equal-length columns, the part of the ingestion contract that row
    operations keep. *)
Definition equal_lengths (df : DataFrame) : Prop :=
  Forall (fun c => series_len (snd c) = len df) (data df).

(** The loop invariant of [detect_delimiter] after the delimiters [seen]:
    either none of them occurs and the state is the initial one, or the
    state holds the first of the most frequent ones. *)
Definition detect_inv (line : string) (seen : list ascii) (state : ascii * nat)
  : Prop :=
  (snd state = 0%nat /\ fst state = ","%char
   /\ forall d, d ∈ seen -> Ingestion.count_char d line = 0%nat)
  \/ (snd state = S (Ingestion.count_char (fst state) line)
      /\ (1 <= Ingestion.count_char (fst state) line)%nat
      /\ exists pre post,
           seen = pre ++ fst state :: post
           /\ (forall d, d ∈ pre ->
                  (Ingestion.count_char d line < Ingestion.count_char (fst state) line)%nat)
           /\ (forall d, d ∈ post ->
                  (Ingestion.count_char d line <= Ingestion.count_char (fst state) line)%nat)).

(** The positions of the rows that [dropna(how='all')] keeps. *)
Definition kept_rows (df : DataFrame) : list nat :=
  List.filter (fun i => negb (Ingestion.row_all_missing df i)) (seq 0 (len df)).

(** ** The report generator's view of the stock *)

Module ReportGenerator.

(** [s > v] *)
Definition gt_scalar (s : series) (v : Z) : result (list bool) :=
  compare_scalar (fun a b => negb (Qle_bool a b)) s v.

(** The counts of one row of the sheet [Analisis_Stock]. *)
Record stock_stats : Type := mkStockStats {
  sin_stock : nat;        (* 'Productos sin Stock' *)
  stock_bajo : nat;       (* 'Productos Stock Bajo (<5)' *)
  stock_medio : nat;      (* 'Productos Stock Medio (6-20)' *)
  stock_alto : nat        (* 'Productos Stock Alto (>20)' *)
}.

(** The dictionary display of [_create_stock_analysis_sheet] for a column
    that passed the dtype test. *)
Definition stock_stats_of (s : series) : result stock_stats :=
  let sin := count_true (eq_scalar s 0) in
  let* b1 := gt_scalar s 0 in
  let* b2 := le_scalar s 5 in
  let bajo := count_true (mask_and b1 b2) in
  let* m1 := gt_scalar s 5 in
  let* m2 := le_scalar s 20 in
  let medio := count_true (mask_and m1 m2) in
  let* a := gt_scalar s 20 in
  let alto := count_true a in
  Ok (mkStockStats sin bajo medio alto).

(** [df[df[stock_cols[0]] <= 5]] of [_create_alerts_sheet]; [None] when
    there is no stock column. *)
Definition alerts_low_stock (df : DataFrame) : result (option DataFrame) :=
  match List.filter DataAnalyzer.is_stock_col (columns df) with
  | [] => Ok None
  | c :: _ =>
      let* s := getitem df c in
      let* mask := le_scalar s 5 in
      Ok (Some (boolean_index df mask))
  end.

End ReportGenerator.

(** The number of non-negative values of a column. *)
Definition count_non_negative (s : series) : nat :=
  count_true (map (fun c => match c with
                            | Num q => Qle_bool 0 q
                            | _ => false
                            end) (cells s)).

(** A predicate on numbers, false on text and on missing cells. *)
Definition on_num (p : Q -> bool) (c : cell) : bool :=
  match c with
  | Num q => p q
  | _ => false
  end.

(** ** Anomaly detection, [DataAnalyzer._detect_anomalies] *)

Module Anomalies.

(** What the method can raise: a failed lookup, or the [ValueError] "Item
    wrong length" of indexing a frame with a boolean array of another
    length. *)
Inductive anomalies_exn : Type :=
| Lookup (e : exn)
| ItemWrongLength (got expected : nat).

Record anomaly_entry : Type := mkAnomaly {
  z_score_anomalies : nat;
  iqr_anomalies : nat;
  samples : DataFrame
}.

(** [df[mask]] for a boolean NumPy array: the lengths must agree. *)
Definition getitem_array (df : DataFrame) (mask : list bool)
  : anomalies_exn + DataFrame :=
  if Nat.eqb (length mask) (len df) then inr (boolean_index df mask)
  else inl (ItemWrongLength (length mask) (len df)).

(** [df.head()]: the first five rows. *)
Definition head (df : DataFrame) : DataFrame :=
  take_rows (seq 0 (Nat.min 5 (len df))) df.

Section DetectAnomalies.

(** The numeric kernels are floating-point library routines and are taken
    as given.  [zscore_gt_3 xs] is [np.abs(stats.zscore(xs)) > 3], one flag
    per value; [iqr_outlier s] is the mask
    [(s < Q1 - 1.5 * IQR) | (s > Q3 + 1.5 * IQR)], one flag per row. *)
Variable zscore_gt_3 : list Q -> list bool.
Variable iqr_outlier : series -> list bool.

Fixpoint anomalies_loop (df : DataFrame) (numeric_cols : list string)
    (anomalies : gmap string anomaly_entry)
  : anomalies_exn + gmap string anomaly_entry :=
  match numeric_cols with
  | [] => inr anomalies
  | col :: rest =>
      match getitem df col with
      | inl e => inl (Lookup e)
      | inr s =>
          let z_scores := zscore_gt_3 (Stats.dropna s) in
          match getitem_array df z_scores with
          | inl e => inl e
          | inr anomalies_z =>
              let anomalies_iqr := boolean_index df (iqr_outlier s) in
              anomalies_loop df rest
                (<[col := mkAnomaly (len anomalies_z) (len anomalies_iqr)
                                    (head anomalies_iqr)]> anomalies)
          end
      end
  end.

Definition _detect_anomalies (df : DataFrame)
  : anomalies_exn + gmap string anomaly_entry :=
  let numeric_cols :=
    map fst (List.filter (fun c => DataAnalyzer.is_number (snd c)) (data df)) in
  anomalies_loop df numeric_cols ∅.

End DetectAnomalies.

End Anomalies.

(** A numeric column of the frame's length, reachable under its name. *)
Definition numeric_column (df : DataFrame) (col : string) : Prop :=
  exists s, getitem df col = Ok s /\ DataAnalyzer.is_number s = true
            /\ series_len s = len df.

Definition entry_bounded (df : DataFrame) (en : Anomalies.anomaly_entry) : Prop :=
  (Anomalies.z_score_anomalies en <= len df)%nat
  /\ (Anomalies.iqr_anomalies en <= len df)%nat
  /\ (len (Anomalies.samples en) <= 5)%nat.

(** ** More tables of the scenarios *)

(** Column names with blanks around them, and a second row without any
    value. *)
Definition df_padded : DataFrame :=
  mkDataFrame [0; 1; 2]%nat
    [ (" Producto ", Object [Some "A"; None; Some "C"]);
      ("Stock  ", Float64 [Some 2%Q; None; Some 0%Q]) ].

(** A table with an empty column and an empty row. *)
Definition df_sparse : DataFrame :=
  mkDataFrame [0; 1; 2]%nat
    [ ("Producto", Object [Some "A"; None; Some "C"]);
      ("Notas", Object [None; None; None]);
      ("Stock", Float64 [Some 2%Q; None; Some 0%Q]) ].

(** A numeric column with a missing value. *)
Definition df_gaps : DataFrame :=
  mkDataFrame [0; 1]%nat [ ("Ventas", Float64 [Some 1%Q; None]) ].

(** Kernels that flag nothing. *)
Definition no_flags (xs : list Q) : list bool := map (fun _ => false) xs.
Definition no_outliers (s : series) : list bool := map (fun _ => false) (cells s).

(** * Properties *)

(** ** The column resolver *)

Module ResolverFacts.
Import DataLoader.

Lemma matching_cols_nil p columns :
  matching_cols p columns = [] <-> no_hit p columns.
Proof.
  unfold matching_cols, no_hit. induction columns as [|c cs IH]; simpl.
  - split; [intros _ col H; inversion H | reflexivity].
  - fold (hits p c). destruct (hits p c) eqn:E.
    + split; [discriminate|]. intros H. specialize (H c (list_elem_of_here _ _)).
      congruence.
    + rewrite IH. split.
      * intros H col Hc. apply elem_of_cons in Hc as [->|Hc]; auto.
      * intros H col Hc. apply H. now apply list_elem_of_further.
Qed.

Lemma matching_cols_head p columns c rest :
  matching_cols p columns = c :: rest -> leftmost_hit p columns c.
Proof.
  unfold matching_cols, leftmost_hit. revert c rest.
  induction columns as [|x cs IH]; simpl; intros c rest H; [discriminate|].
  fold (hits p x) in H. destruct (hits p x) eqn:E.
  - injection H as -> _. exists [], cs. repeat split; auto.
    intros col Hc. inversion Hc.
  - destruct (IH _ _ H) as (l1 & l2 & -> & Hc & Hn).
    exists (x :: l1), l2. repeat split; auto.
    intros col Hin. apply elem_of_cons in Hin as [->|Hin]; auto.
Qed.

Lemma leftmost_hit_unique p columns c c' :
  leftmost_hit p columns c -> leftmost_hit p columns c' -> c = c'.
Proof.
  intros (l1 & l2 & E1 & H1 & N1). revert columns l2 E1 c'.
  induction l1 as [|x l1 IH]; intros columns l2 E1 c' (k1 & k2 & E2 & H2 & N2).
  - subst columns. destruct k1 as [|y k1]; simpl in E2.
    + congruence.
    + injection E2 as <- _. specialize (N2 c (list_elem_of_here _ _)). congruence.
  - subst columns. destruct k1 as [|y k1]; simpl in E2.
    + injection E2 as -> _. specialize (N1 c' (list_elem_of_here _ _)). congruence.
    + injection E2 as <- E2.
      apply (IH (fun col Hc => N1 col (list_elem_of_further _ _ _ Hc))
                (l1 ++ c :: l2) l2 eq_refl).
      exists k1, k2. repeat split; auto.
      intros col Hc. apply N2. now apply list_elem_of_further.
Qed.

Lemma leftmost_hit_not_no_hit p columns c :
  leftmost_hit p columns c -> no_hit p columns -> False.
Proof.
  intros (l1 & l2 & -> & H & _) N.
  specialize (N c). rewrite N in H; [discriminate|].
  apply elem_of_app. right. apply list_elem_of_here.
Qed.

Lemma resolve_Some possible_names columns c :
  resolve possible_names columns = Some c <-> first_hit possible_names columns c.
Proof.
  induction possible_names as [|p ps IH]; simpl.
  - split; [discriminate|]. intros (pre & q & post & E & _). now destruct pre.
  - destruct (matching_cols p columns) as [|x rest] eqn:E.
    + apply matching_cols_nil in E. rewrite IH. split.
      * intros (pre & q & post & -> & Hpre & Hq).
        exists (p :: pre), q, post. repeat split; auto.
        intros r Hr. apply elem_of_cons in Hr as [->|Hr]; auto.
      * intros (pre & q & post & Eq & Hpre & Hq).
        destruct pre as [|y pre]; simpl in Eq.
        -- injection Eq as <- _. destruct (leftmost_hit_not_no_hit _ _ _ Hq E).
        -- injection Eq as <- ->. exists pre, q, post. repeat split; auto.
           intros r Hr. apply Hpre. now apply list_elem_of_further.
    + apply matching_cols_head in E. split.
      * intros [= ->]. exists [], p, ps. repeat split; auto.
        intros q Hq. inversion Hq.
      * intros (pre & q & post & Eq & Hpre & Hq).
        destruct pre as [|y pre]; simpl in Eq.
        -- injection Eq as <- _. f_equal. eapply leftmost_hit_unique; eauto.
        -- injection Eq as <- _.
           destruct (leftmost_hit_not_no_hit _ _ _ E (Hpre p (list_elem_of_here _ _))).
Qed.

Lemma resolve_None possible_names columns :
  resolve possible_names columns = None
  <-> forall p, p ∈ possible_names -> no_hit p columns.
Proof.
  induction possible_names as [|p ps IH]; simpl.
  - split; [intros _ p H; inversion H | reflexivity].
  - destruct (matching_cols p columns) as [|x rest] eqn:E.
    + apply matching_cols_nil in E. rewrite IH. split.
      * intros H q Hq. apply elem_of_cons in Hq as [->|Hq]; auto.
      * intros H q Hq. apply H. now apply list_elem_of_further.
    + apply matching_cols_head in E. split; [discriminate|].
      intros H. destruct (leftmost_hit_not_no_hit _ _ _ E (H p (list_elem_of_here _ _))).
Qed.

Lemma get_column_mapping_with_fold config columns :
  get_column_mapping_with config columns = fold_left (step columns) config ∅.
Proof.
  unfold get_column_mapping_with. generalize (∅ : gmap string string).
  induction config as [|[r names] config IH]; intros acc; simpl; auto.
Qed.

Lemma fold_step_other columns config acc role :
  role ∉ map fst config ->
  fold_left (step columns) config acc !! role = acc !! role.
Proof.
  revert acc. induction config as [|[r names] config IH]; intros acc Hn; simpl; auto.
  simpl in Hn. apply not_elem_of_cons in Hn as [Hne Hn].
  rewrite IH by assumption. unfold step; simpl.
  destruct (resolve names columns); auto. now rewrite lookup_insert_ne.
Qed.

Lemma fold_step_role columns config acc role names :
  NoDup (map fst config) ->
  (role, names) ∈ config ->
  fold_left (step columns) config acc !! role
  = match resolve names columns with
    | Some c => Some c
    | None => acc !! role
    end.
Proof.
  revert acc. induction config as [|[r ns] config IH]; intros acc Hnd Hin.
  - inversion Hin.
  - simpl in Hnd. apply NoDup_cons in Hnd as [Hr Hnd].
    apply elem_of_cons in Hin as [[= <- <-]|Hin]; simpl.
    + rewrite fold_step_other by assumption. unfold step; simpl.
      destruct (resolve names columns); auto. now rewrite lookup_insert_eq.
    + rewrite IH by assumption.
      destruct (resolve names columns) eqn:E; auto.
      unfold step; simpl. destruct (resolve ns columns); auto.
      rewrite lookup_insert_ne; auto.
      intros <-. apply Hr. apply list_elem_of_fmap. now exists (r, names).
Qed.

Lemma mapping_lookup config columns role names :
  NoDup (map fst config) ->
  (role, names) ∈ config ->
  get_column_mapping_with config columns !! role = resolve names columns.
Proof.
  intros Hnd Hin. rewrite get_column_mapping_with_fold.
  rewrite (fold_step_role _ _ _ _ _ Hnd Hin), lookup_empty.
  now destruct (resolve names columns).
Qed.

(** C2. For every ordered list of column names and every role of the
    configuration, the role is mapped to the leftmost column of the first
    keyword (in priority order) that some column name contains; when no
    column carries any keyword the role stays unbound, and the resolver
    returns a mapping in every case. *)
Theorem resolver_first_hit_wins config columns role names :
  NoDup (map fst config) ->
  (role, names) ∈ config ->
  (forall c, get_column_mapping_with config columns !! role = Some c
             <-> first_hit names columns c)
  /\ (get_column_mapping_with config columns !! role = None
      <-> forall p, p ∈ names -> no_hit p columns).
Proof.
  intros Hnd Hin. rewrite (mapping_lookup _ _ _ _ Hnd Hin). split.
  - intros c. apply resolve_Some.
  - apply resolve_None.
Qed.

Lemma matching_cols_remove p l1 c l2 :
  hits p c = false ->
  matching_cols p (l1 ++ c :: l2) = matching_cols p (l1 ++ l2).
Proof.
  intros H. unfold matching_cols. rewrite !List.filter_app. simpl.
  fold (hits p c). now rewrite H.
Qed.

Lemma resolve_remove names l1 c l2 :
  (forall p, p ∈ names -> hits p c = false) ->
  resolve names (l1 ++ c :: l2) = resolve names (l1 ++ l2).
Proof.
  induction names as [|p ps IH]; intros H; simpl; auto.
  rewrite matching_cols_remove by (apply H, list_elem_of_here).
  rewrite IH; auto. intros q Hq. apply H. now apply list_elem_of_further.
Qed.

(** C9. Removing a column whose name carries no keyword of any role
    leaves the whole role mapping unchanged. *)
Theorem unmatched_column_is_irrelevant config l1 c l2 :
  (forall role names p, (role, names) ∈ config -> p ∈ names -> hits p c = false) ->
  get_column_mapping_with config (l1 ++ c :: l2)
  = get_column_mapping_with config (l1 ++ l2).
Proof.
  intros H. rewrite !get_column_mapping_with_fold.
  generalize (∅ : gmap string string).
  induction config as [|[r names] config IH]; intros acc; simpl; auto.
  assert (E : step (l1 ++ c :: l2) acc (r, names) = step (l1 ++ l2) acc (r, names)).
  { unfold step; simpl. rewrite resolve_remove; auto.
    intros p Hp. apply (H r names p); auto. apply list_elem_of_here. }
  rewrite E. apply IH. intros role ns p Hin Hp.
  apply (H role ns p); auto. now apply list_elem_of_further.
Qed.
End ResolverFacts.

(** ** Row selection, masks and sorting *)

Module FrameFacts.

#[local] Arguments take_list : simpl never.

Lemma take_list_cons {A} p ps (l : list A) :
  take_list (p :: ps) l
  = match l !! p with Some x => x :: take_list ps l | None => take_list ps l end.
Proof. reflexivity. Qed.

Lemma take_list_length_in_range {A} ps (l : list A) :
  Forall (fun p => p < length l)%nat ps -> length (take_list ps l) = length ps.
Proof.
  induction 1 as [|p ps Hp _ IH]; [reflexivity|].
  rewrite take_list_cons. destruct (lookup_lt_is_Some_2 l p Hp) as [x ->].
  simpl. now rewrite IH.
Qed.

Lemma lookup_take_list {A} ps (l : list A) j :
  Forall (fun p => p < length l)%nat ps ->
  take_list ps l !! j = ps !! j ≫= (l !!.).
Proof.
  intros H. revert j. induction H as [|p ps Hp _ IH]; intros j; [reflexivity|].
  rewrite take_list_cons. destruct (lookup_lt_is_Some_2 l p Hp) as [x Hx].
  rewrite Hx. destruct j; simpl; auto.
Qed.

Lemma take_list_map {A B} (f : A -> B) ps (l : list A) :
  take_list ps (map f l) = map f (take_list ps l).
Proof.
  induction ps as [|p ps IH]; [reflexivity|].
  rewrite !take_list_cons, list_lookup_fmap.
  destruct (l !! p); simpl; now rewrite IH.
Qed.

Lemma take_list_take_list {A} ps2 ps1 (l : list A) :
  Forall (fun p => p < length l)%nat ps1 ->
  take_list ps2 (take_list ps1 l) = take_list (take_list ps2 ps1) l.
Proof.
  intros H. induction ps2 as [|p2 ps2 IH]; [reflexivity|].
  rewrite !take_list_cons, lookup_take_list by assumption.
  destruct (ps1 !! p2) as [p|] eqn:E; simpl; auto.
  rewrite take_list_cons.
  assert (Hp : (p < length l)%nat).
  { rewrite Forall_forall in H. apply H. eapply list_elem_of_lookup_2; eauto. }
  destruct (lookup_lt_is_Some_2 l p Hp) as [x ->]. now rewrite IH.
Qed.

Lemma take_list_seq {A} (l : list A) :
  take_list (seq 0 (length l)) l = l.
Proof.
  assert (G : forall k (pre : list A), length pre = k ->
            take_list (seq k (length l)) (pre ++ l) = l).
  { induction l as [|x l IH]; intros k pre Hk; [reflexivity|].
    cbn [length seq]. rewrite take_list_cons.
    rewrite lookup_app_r by lia. replace (k - length pre)%nat with 0%nat by lia.
    simpl. f_equal.
    replace (pre ++ x :: l) with ((pre ++ [x]) ++ l) by now rewrite <- app_assoc.
    apply IH. rewrite length_app; simpl; lia. }
  apply (G 0%nat []); reflexivity.
Qed.

Lemma take_list_perm {A} ps ps' (l : list A) :
  ps ≡ₚ ps' -> take_list ps l ≡ₚ take_list ps' l.
Proof. intros H. unfold take_list. now rewrite H. Qed.

Lemma cells_take_series ps s :
  cells (take_series ps s) = take_list ps (cells s).
Proof. destruct s; simpl; now rewrite take_list_map. Qed.

Lemma length_cells s : length (cells s) = series_len s.
Proof. destruct s; simpl; now rewrite length_map. Qed.

Lemma series_len_take ps s :
  Forall (fun p => p < series_len s)%nat ps ->
  series_len (take_series ps s) = length ps.
Proof.
  intros H. rewrite <- !length_cells, cells_take_series.
  apply take_list_length_in_range. now rewrite length_cells.
Qed.

Lemma take_series_take_series ps2 ps1 s :
  Forall (fun p => p < series_len s)%nat ps1 ->
  take_series ps2 (take_series ps1 s) = take_series (take_list ps2 ps1) s.
Proof.
  destruct s; simpl; intros H; f_equal; now apply take_list_take_list.
Qed.

Lemma getitem_take_rows ps df c s :
  getitem df c = Ok s ->
  getitem (take_rows ps df) c = Ok (take_series ps s).
Proof.
  unfold getitem, take_rows; simpl.
  induction (data df) as [|[n x] d IH]; simpl; [discriminate|].
  destruct (String.eqb n c); simpl; auto. now intros [= ->].
Qed.

Lemma getitem_In df c s :
  getitem df c = Ok s -> (c, s) ∈ data df.
Proof.
  unfold getitem. destruct (find _ _) as [[n x]|] eqn:E; [|discriminate].
  intros [= <-]. apply find_some in E as [Hin Heq]. simpl in Heq.
  apply String.eqb_eq in Heq. subst. now apply list_elem_of_In.
Qed.

Lemma getitem_column df c :
  c ∈ columns df -> exists s, getitem df c = Ok s.
Proof.
  unfold columns, getitem. induction (data df) as [|[n x] d IH]; simpl.
  - intros H; inversion H.
  - intros H. destruct (String.eqb n c) eqn:E; simpl; [eauto|].
    apply elem_of_cons in H as [->|H]; auto.
    now rewrite String.eqb_refl in E.
Qed.

Lemma take_rows_take_rows ps2 ps1 df :
  well_formed df ->
  Forall (fun p => p < len df)%nat ps1 ->
  take_rows ps2 (take_rows ps1 df) = take_rows (take_list ps2 ps1) df.
Proof.
  intros [Hwf _] H. unfold take_rows; simpl. f_equal.
  - now apply take_list_take_list.
  - rewrite map_map; simpl. apply map_ext_in. intros [n s] Hin; simpl. f_equal.
    apply take_series_take_series.
    rewrite Forall_forall in Hwf. apply list_elem_of_In in Hin.
    specialize (Hwf _ Hin). simpl in Hwf. now rewrite Hwf.
Qed.

(** Masks *)
Lemma elem_of_mask_positions_from k mask p :
  p ∈ mask_positions_from k mask
  <-> exists i, p = (k + i)%nat /\ mask !! i = Some true.
Proof.
  revert k. induction mask as [|b mask IH]; intros k; simpl.
  - split; [intros H; inversion H | intros (i & _ & H); discriminate].
  - rewrite elem_of_app, IH. split.
    + intros [H|(i & -> & Hi)].
      * destruct b; [|inversion H]. apply list_elem_of_singleton in H as ->.
        exists 0%nat. split; [lia|reflexivity].
      * exists (S i). split; [lia|assumption].
    + intros ([|i] & -> & Hi); simpl in Hi.
      * injection Hi as ->. left. rewrite Nat.add_0_r. apply list_elem_of_here.
      * right. exists i. split; [lia|assumption].
Qed.

Lemma elem_of_mask_positions mask p :
  p ∈ mask_positions mask <-> mask !! p = Some true.
Proof.
  unfold mask_positions. rewrite elem_of_mask_positions_from. split.
  - now intros (i & -> & H).
  - intros H. now exists p.
Qed.

Lemma NoDup_mask_positions_from k mask : NoDup (mask_positions_from k mask).
Proof.
  revert k. induction mask as [|b mask IH]; intros k; simpl.
  - constructor.
  - destruct b; simpl; auto. constructor; auto.
    rewrite elem_of_mask_positions_from. intros (i & Hi & _). lia.
Qed.

Lemma mask_positions_in_range mask :
  Forall (fun p => p < length mask)%nat (mask_positions mask).
Proof.
  apply Forall_forall. intros p Hp. apply elem_of_mask_positions in Hp.
  eapply lookup_lt_Some; eauto.
Qed.

(** Sorting by key *)
Lemma key_leb_total a b : key_leb a b = false -> key_leb b a = true.
Proof.
  destruct a as [x|x|], b as [y|y|]; simpl; try reflexivity; try discriminate.
  - intros H. apply Qle_bool_iff. apply Qlt_le_weak. apply Qnot_le_lt.
    intros Hle. apply Qle_bool_iff in Hle. congruence.
  - unfold String.leb. rewrite (String.compare_antisym x y).
    destruct (String.compare y x); simpl; congruence.
Qed.

Lemma insert_by_key_perm x l : insert_by_key x l ≡ₚ x :: l.
Proof.
  induction l as [|y l IH]; simpl; auto.
  destruct (key_leb (fst x) (fst y)); auto.
  rewrite IH. apply perm_swap.
Qed.

Lemma sort_by_key_perm l : sort_by_key l ≡ₚ l.
Proof.
  induction l as [|x l IH]; simpl; auto.
  now rewrite insert_by_key_perm, IH.
Qed.

Lemma insert_by_key_sorted x l :
  Sorted key_le l -> Sorted key_le (insert_by_key x l).
Proof.
  induction 1 as [|y l Hs IH Hd]; simpl.
  - repeat constructor.
  - destruct (key_leb (fst x) (fst y)) eqn:E.
    + constructor; [now constructor|]. constructor. exact E.
    + constructor; auto.
      destruct l as [|z l]; simpl.
      * constructor. now apply key_leb_total.
      * destruct (key_leb (fst x) (fst z)); constructor.
        -- now apply key_leb_total.
        -- now inversion Hd.
Qed.

Lemma sort_by_key_sorted l : Sorted key_le (sort_by_key l).
Proof.
  induction l as [|x l IH]; simpl; [constructor|].
  now apply insert_by_key_sorted.
Qed.

Lemma map_snd_combine_seq {A} (l : list A) k :
  map snd (combine l (seq k (length l))) = seq k (length l).
Proof.
  revert k. induction l as [|x l IH]; intros k; simpl; auto. now rewrite IH.
Qed.

Lemma combine_seq_lookup {A} (l : list A) :
  Forall (fun kp => l !! snd kp = Some (fst kp)) (combine l (seq 0 (length l))).
Proof.
  assert (G : forall (pre : list A),
            Forall (fun kp => (pre ++ l) !! snd kp = Some (fst kp))
                   (combine l (seq (length pre) (length l)))).
  { induction l as [|x l IH]; intros pre; simpl; constructor.
    - simpl. rewrite lookup_app_r by lia. now rewrite Nat.sub_diag.
    - specialize (IH (pre ++ [x])). rewrite <- app_assoc in IH. simpl in IH.
      rewrite length_app in IH. simpl in IH.
      now replace (length pre + 1)%nat with (S (length pre)) in IH by lia. }
  apply (G []).
Qed.

Lemma take_list_of_pairs {A} (l : list A) (L : list (A * nat)) :
  Forall (fun kp => l !! snd kp = Some (fst kp)) L ->
  take_list (map snd L) l = map fst L.
Proof.
  induction 1 as [|[k p] L Hk _ IH]; [reflexivity|].
  simpl in *. rewrite take_list_cons, Hk. now rewrite IH.
Qed.

Lemma argsort_perm s : argsort s ≡ₚ seq 0 (series_len s).
Proof.
  unfold argsort. rewrite sort_by_key_perm.
  rewrite <- (length_cells s). now rewrite map_snd_combine_seq.
Qed.

Lemma cells_sorted s :
  take_list (argsort s) (cells s)
  = map fst (sort_by_key (combine (cells s) (seq 0 (series_len s)))).
Proof.
  unfold argsort. apply take_list_of_pairs.
  eapply Permutation_Forall; [symmetry; apply sort_by_key_perm|].
  rewrite <- (length_cells s). apply combine_seq_lookup.
Qed.
End FrameFacts.

(** ** Low stock *)

Module LowStockFacts.
Import DataAnalyzer FrameFacts.

#[local] Arguments take_list : simpl never.

Lemma mask_and_map {A} (f g : A -> bool) (l : list A) :
  mask_and (map f l) (map g l) = map (fun x => f x && g x) l.
Proof.
  unfold mask_and. induction l as [|x l IH]; simpl; auto. now rewrite IH.
Qed.

Lemma low_stock_mask s threshold :
  orderable s = true ->
  exists m1 m2,
    le_scalar s threshold = Ok m1 /\ ge_scalar s 0 = Ok m2
    /\ mask_and m1 m2 = map (in_low_stock threshold) (cells s).
Proof.
  intros H. unfold le_scalar, ge_scalar.
  destruct s as [l|l|l]; simpl in *.
  - eexists _, _. split; [reflexivity|]. split; [reflexivity|].
    rewrite mask_and_map, map_map. reflexivity.
  - eexists _, _. split; [reflexivity|]. split; [reflexivity|].
    rewrite mask_and_map, map_map. apply map_ext. now intros [q|].
  - rewrite H. eexists _, _. split; [reflexivity|]. split; [reflexivity|].
    rewrite mask_and_map, map_map. apply map_ext. now intros [t|].
Qed.

Lemma first_stock_col_is_column df c rest :
  stock_cols df = c :: rest -> c ∈ columns df.
Proof.
  unfold stock_cols. intros H.
  assert (Hin : List.In c (List.filter is_stock_col (columns df)))
    by (rewrite H; now left).
  apply filter_In in Hin as [Hin _]. now apply list_elem_of_In.
Qed.

Lemma low_positions_in_range threshold s :
  Forall (fun p => p < series_len s)%nat (low_positions threshold s).
Proof.
  unfold low_positions.
  pose proof (mask_positions_in_range (map (in_low_stock threshold) (cells s))) as H.
  now rewrite length_map, length_cells in H.
Qed.

Lemma identify_low_stock_shape df threshold c rest s :
  stock_cols df = c :: rest ->
  getitem df c = Ok s ->
  orderable s = true ->
  let ps1 := low_positions threshold s in
  _identify_low_stock df threshold
  = Ok (take_rows (argsort (take_series ps1 s)) (take_rows ps1 df)).
Proof.
  intros Hc Hs Ho ps1. unfold _identify_low_stock. rewrite Hc, Hs. simpl.
  destruct (low_stock_mask s threshold Ho) as (m1 & m2 & -> & -> & Hm). simpl.
  rewrite Hm. unfold sort_values, boolean_index.
  fold (low_positions threshold s). fold ps1.
  now rewrite (getitem_take_rows ps1 df c s Hs).
Qed.

Lemma wf_series_len df c s :
  well_formed df -> getitem df c = Ok s -> series_len s = len df.
Proof.
  intros [Hwf _] Hs. apply getitem_In in Hs. rewrite Forall_forall in Hwf.
  now specialize (Hwf _ Hs).
Qed.

Lemma elem_of_low_positions threshold s i :
  i ∈ low_positions threshold s
  <-> exists q, cells s !! i = Some (Num q)
               /\ (0 <= q /\ q <= inject_Z threshold)%Q.
Proof.
  unfold low_positions. rewrite elem_of_mask_positions, list_lookup_fmap.
  destruct (cells s !! i) as [[q|t|]|]; simpl.
  - split.
    + intros [= H]. apply andb_true_iff in H as [H1 H2].
      apply Qle_bool_iff in H1, H2. eauto.
    + intros (q' & [= <-] & H1 & H2). f_equal.
      apply andb_true_iff. split; now apply Qle_bool_iff.
  - split; [discriminate|]. now intros (q' & [=] & _).
  - split; [discriminate|]. now intros (q' & [=] & _).
  - split; [discriminate|]. now intros (q' & [=] & _).
Qed.

Lemma sorted_positions_perm threshold s :
  let ps1 := low_positions threshold s in
  take_list (argsort (take_series ps1 s)) ps1 ≡ₚ ps1.
Proof.
  intros ps1.
  rewrite (take_list_perm _ _ ps1 (argsort_perm (take_series ps1 s))).
  rewrite series_len_take by apply low_positions_in_range.
  now rewrite take_list_seq.
Qed.

(** C4. With an orderable stock column the low-stock result is the rows of
    the table at the positions whose stock value lies in the closed
    interval [0, threshold], each once; a negative stock is never among
    them; for the stock values -1, 0, 5, 6 and threshold 5 the result is
    the rows with 0 and 5. *)
Theorem low_stock_is_closed_interval df threshold c rest s :
  well_formed df ->
  stock_cols df = c :: rest ->
  getitem df c = Ok s ->
  orderable s = true ->
  exists ps,
    _identify_low_stock df threshold = Ok (take_rows ps df)
    /\ NoDup ps
    /\ (forall i, i ∈ ps <-> exists q, cells s !! i = Some (Num q)
                                  /\ (0 <= q /\ q <= inject_Z threshold)%Q)
    /\ (forall i q, cells s !! i = Some (Num q) -> (q < 0)%Q -> i ∉ ps)
    /\ _identify_low_stock df_boundary 5 = Ok (take_rows [1; 2]%nat df_boundary).
Proof.
  intros Hwf Hc Hs Ho.
  pose proof (sorted_positions_perm threshold s) as Hperm. simpl in Hperm.
  exists (take_list (argsort (take_series (low_positions threshold s) s))
                    (low_positions threshold s)).
  split.
  { rewrite (identify_low_stock_shape df threshold c rest s Hc Hs Ho). simpl.
    f_equal. apply take_rows_take_rows; auto.
    rewrite <- (wf_series_len df c s Hwf Hs). apply low_positions_in_range. }
  split.
  { rewrite Hperm. apply NoDup_mask_positions_from. }
  split.
  { intros i. rewrite Hperm. apply elem_of_low_positions. }
  split.
  { intros i q Hi Hq. rewrite Hperm, elem_of_low_positions.
    intros (q' & Hq' & H0 & _). rewrite Hi in Hq'. injection Hq' as <-.
    apply (Qlt_not_le _ _ Hq H0). }
  reflexivity.
Qed.

Lemma all_num_sorted (l : list cell) :
  Forall (fun c => exists q, c = Num q) l ->
  Sorted (fun a b => key_leb a b = true) l ->
  exists qs, l = map Num qs /\ Sorted Qle qs.
Proof.
  induction 1 as [|c l [q ->] Hl IH]; intros Hs.
  - exists []. split; [reflexivity|constructor].
  - inversion Hs as [|? ? Hs' Hd]; subst.
    destruct (IH Hs') as (qs & -> & Hqs).
    exists (q :: qs). split; [reflexivity|]. constructor; auto.
    destruct qs as [|q' qs]; constructor.
    inversion Hd as [|? ? Hle]; subst. simpl in Hle. now apply Qle_bool_iff.
Qed.

Lemma Sorted_map_fst (L : list (cell * nat)) :
  Sorted key_le L -> Sorted (fun a b => key_leb a b = true) (map fst L).
Proof.
  induction 1 as [|x L Hs IH Hd]; simpl; constructor; auto.
  destruct Hd; simpl; constructor; auto.
Qed.

Lemma elem_of_take_list {A} ps (l : list A) x :
  x ∈ take_list ps l -> exists p, p ∈ ps /\ l !! p = Some x.
Proof.
  unfold take_list. rewrite list_elem_of_omap. intros (p & Hp & Hx). eauto.
Qed.

Lemma lookups_take_list {A} ps (l : list A) :
  Forall (fun p => p < length l)%nat ps ->
  map (fun p => l !! p) ps = map Some (take_list ps l).
Proof.
  induction 1 as [|p ps Hp _ IH]; [reflexivity|].
  rewrite take_list_cons. destruct (lookup_lt_is_Some_2 l p Hp) as [x Hx].
  cbn [map]. now rewrite Hx, IH.
Qed.

(** C10. With an orderable stock column the low-stock result is the flagged
    rows, each once, listed in ascending order of the first stock-matching
    column: the rows returned are a rearrangement of the positions whose
    stock lies in [0, threshold], and their stock values, in the order
    returned, are sorted; for the stock values 5, -1, 0, 6, 3 and
    threshold 5 the rows come back as 0, 3, 5. *)
Theorem low_stock_sorted_ascending df threshold c rest s :
  well_formed df ->
  stock_cols df = c :: rest ->
  getitem df c = Ok s ->
  orderable s = true ->
  exists ps s_low qs,
    _identify_low_stock df threshold = Ok (take_rows ps df)
    /\ ps ≡ₚ low_positions threshold s
    /\ map (fun p => cells s !! p) ps = map (fun q => Some (Num q)) qs
    /\ getitem (take_rows ps df) c = Ok s_low
    /\ cells s_low = map Num qs
    /\ Sorted Qle qs
    /\ _identify_low_stock df_unsorted 5
       = Ok (take_rows [2; 4; 0]%nat df_unsorted).
Proof.
  intros Hwf Hc Hs Ho.
  set (ps1 := low_positions threshold s).
  set (s1 := take_series ps1 s).
  assert (Hrange1 : Forall (fun p => p < series_len s)%nat ps1)
    by apply low_positions_in_range.
  assert (Hcells : Forall (fun x => exists q, x = Num q)
                          (take_list (argsort s1) (cells s1))).
  { apply Forall_forall. intros x Hx.
    apply elem_of_take_list in Hx as (p & _ & Hx).
    apply list_elem_of_lookup_2 in Hx. unfold s1 in Hx.
    rewrite cells_take_series in Hx.
    apply elem_of_take_list in Hx as (i & Hi & Hx).
    apply elem_of_low_positions in Hi as (q & Hq & _).
    rewrite Hq in Hx. injection Hx as <-. eauto. }
  assert (Hsorted : Sorted (fun a b => key_leb a b = true)
                           (take_list (argsort s1) (cells s1))).
  { rewrite cells_sorted. apply Sorted_map_fst, sort_by_key_sorted. }
  destruct (all_num_sorted _ Hcells Hsorted) as (qs & Hqs & Hsq).
  pose proof (sorted_positions_perm threshold s) as Hperm. cbv zeta in Hperm.
  fold ps1 in Hperm. fold s1 in Hperm.
  set (ps := take_list (argsort s1) ps1) in *.
  assert (Hvalues : take_list ps (cells s) = map Num qs).
  { rewrite <- Hqs. unfold ps, s1. rewrite cells_take_series.
    symmetry. apply take_list_take_list. now rewrite length_cells. }
  assert (Hrange : Forall (fun p => p < length (cells s))%nat ps).
  { rewrite length_cells. apply Forall_forall. intros p Hp.
    rewrite Hperm in Hp. rewrite Forall_forall in Hrange1. now apply Hrange1. }
  exists ps, (take_series ps s), qs.
  split.
  { rewrite (identify_low_stock_shape df threshold c rest s Hc Hs Ho). cbv zeta.
    f_equal. apply take_rows_take_rows; auto.
    rewrite <- (wf_series_len df c s Hwf Hs). exact Hrange1. }
  split; [exact Hperm|].
  split.
  { rewrite (lookups_take_list ps (cells s) Hrange), Hvalues.
    now rewrite map_map. }
  split; [now apply getitem_take_rows|].
  split; [now rewrite cells_take_series|].
  split; [exact Hsq|reflexivity].
Qed.
End LowStockFacts.

(** ** The rotation threshold in binary64 *)

Module Binary64Facts.
Import Binary64.

Local Open Scope Z_scope.

(** Rounding a mantissa of more than 53 bits: the result lies within half a
    unit of the dropped bits, and a remainder above one half rounds up. *)
Lemma round_large m e :
  2 ^ 53 <= m ->
  exists s q r q',
    round m e = mkFloat q' (e + s)
    /\ 1 <= s /\ s = Z.log2 m - 52
    /\ m = q * 2 ^ s + r /\ 0 <= r < 2 ^ s
    /\ 2 ^ 52 * 2 ^ s <= m < 2 ^ 53 * 2 ^ s
    /\ (q' = q \/ q' = q + 1)
    /\ (q' = q + 1 -> 2 ^ s <= 2 * r)
    /\ (2 ^ s < 2 * r -> q' = q + 1).
Proof.
  intros Hm. unfold round.
  assert (Hlt : (m <? 2 ^ 53) = false) by (apply Z.ltb_ge; exact Hm).
  rewrite Hlt.
  assert (Hpos : 0 < m) by (assert (0 < 2 ^ 53) by (apply Z.pow_pos_nonneg; lia); lia).
  destruct (Z.log2_spec m Hpos) as [Hlo Hhi].
  assert (Hlog : 53 <= Z.log2 m).
  { apply Z.log2_le_pow2; auto. }
  set (s := Z.log2 m - 52) in *.
  assert (Hs : 1 <= s) by (unfold s; lia).
  assert (Hps : 0 < 2 ^ s) by (apply Z.pow_pos_nonneg; lia).
  assert (E1 : 2 ^ Z.log2 m = 2 ^ 52 * 2 ^ s).
  { rewrite <- Z.pow_add_r by lia. f_equal. unfold s. lia. }
  assert (E2 : 2 ^ Z.succ (Z.log2 m) = 2 ^ 53 * 2 ^ s).
  { rewrite <- Z.pow_add_r by lia. f_equal. unfold s. lia. }
  assert (Eh : 2 ^ s = 2 * 2 ^ (s - 1)).
  { replace s with (1 + (s - 1)) at 1 by lia.
    rewrite Z.pow_add_r by lia. reflexivity. }
  pose proof (Z.div_mod m (2 ^ s) ltac:(lia)) as Hdm.
  pose proof (Z.mod_pos_bound m (2 ^ s) Hps) as Hr.
  set (q := m / 2 ^ s) in *. set (r := m mod 2 ^ s) in *.
  set (half := 2 ^ (s - 1)) in *.
  exists s, q, r.
  exists (if (half <? r) || ((r =? half) && Z.odd q) then q + 1 else q).
  split; [reflexivity|].
  split; [exact Hs|]. split; [reflexivity|].
  split; [lia|]. split; [exact Hr|]. split; [lia|].
  destruct (half <? r) eqn:Eh1; simpl.
  - apply Z.ltb_lt in Eh1.
    split; [now right|]. split; intros; lia.
  - apply Z.ltb_ge in Eh1. destruct (r =? half) eqn:Eh2; simpl.
    + apply Z.eqb_eq in Eh2. destruct (Z.odd q).
      * split; [now right|]. split; intros; lia.
      * split; [now left|]. split; intros; lia.
    + apply Z.eqb_neq in Eh2.
      split; [now left|]. split; intros; lia.
Qed.

Lemma ten_C : 10 * C = 3 * 2 ^ 54 - 2.
Proof. reflexivity. Qed.

Lemma threshold_exact (n z : Z) :
  0 <= n <= 2 ^ 52 -> 0 <= z < 2 ^ 53 ->
  ltb (mul (of_int n) lit_0_3) (of_int z) = true <-> 3 * n < 10 * z.
Proof.
  intros Hn Hz.
  change (2 ^ 52) with 4503599627370496 in Hn.
  change (2 ^ 53) with 9007199254740992 in Hz.
  assert (En : of_int n = mkFloat n 0).
  { unfold of_int, round. replace (n <? 2 ^ 53) with true; auto.
    symmetry. apply Z.ltb_lt. change (2 ^ 53) with 9007199254740992. lia. }
  assert (Ez : of_int z = mkFloat z 0).
  { unfold of_int, round. replace (z <? 2 ^ 53) with true; auto.
    symmetry. apply Z.ltb_lt. change (2 ^ 53) with 9007199254740992. lia. }
  rewrite En, Ez. unfold mul, lit_0_3. cbn [mant expo]. fold C.
  replace (0 + -54) with (-54) by reflexivity.
  destruct (Z.lt_ge_cases (n * C) (2 ^ 53)) as [Hsmall|Hlarge].
  - (* the product is exact *)
    unfold round. replace (n * C <? 2 ^ 53) with true
      by (symmetry; apply Z.ltb_lt; exact Hsmall).
    unfold ltb. cbn [mant expo].
    replace (Z.min (-54) 0) with (-54) by reflexivity.
    replace (-54 - -54) with 0 by reflexivity.
    replace (0 - -54) with 54 by reflexivity.
    rewrite Z.pow_0_r, Z.mul_1_r, Z.ltb_lt. unfold C in *.
    change (2 ^ 53) with 9007199254740992 in Hsmall.
    change (2 ^ 54) with 18014398509481984. lia.
  - destruct (round_large (n * C) (-54) Hlarge)
      as (s & q & r & q' & -> & Hs & _ & HM & Hr & [Hlo Hhi] & Hq' & Hup & Hdown).
    assert (HP : 0 < 2 ^ s) by (apply Z.pow_pos_nonneg; lia).
    change (2 ^ 52) with 4503599627370496 in Hlo.
    change (2 ^ 53) with 9007199254740992 in Hhi, Hlarge.
    assert (Hs52 : s <= 52).
    { assert (Hb : 2 ^ s < 2 ^ 53).
      { change (2 ^ 53) with 9007199254740992. unfold C in *. lia. }
      apply Z.pow_lt_mono_r_iff in Hb; lia. }
    unfold ltb. cbn [mant expo].
    replace (Z.min (-54 + s) 0) with (-54 + s) by lia.
    replace (-54 + s - (-54 + s)) with 0 by lia.
    replace (0 - (-54 + s)) with (54 - s) by lia.
    rewrite Z.pow_0_r, Z.mul_1_r, Z.ltb_lt.
    assert (HK : 0 < 2 ^ (54 - s)) by (apply Z.pow_pos_nonneg; lia).
    assert (HPK : 2 ^ (54 - s) * 2 ^ s = 18014398509481984).
    { rewrite <- Z.pow_add_r by lia. replace (54 - s + s) with 54 by lia.
      reflexivity. }
    set (P := 2 ^ s) in *. set (K := 2 ^ (54 - s)) in *.
    (* the grid point of z, in units of P *)
    set (W := z * K).
    assert (HW : W * P = z * 18014398509481984).
    { unfold W. rewrite <- HPK. ring. }
    assert (HnP : n < 2 * P) by (unfold C in *; lia).
    assert (HPn : 5 * P < 6 * n) by (unfold C in *; lia).
    assert (HqP : (q + 1) * P = q * P + P) by ring.
    assert (HqP2 : (q + 2) * P = q * P + 2 * P) by ring.
    split.
    + (* the float comparison holds: so does the exact one *)
      intros Hf. apply Z.lt_nge. intros Hle.
      assert (Hqq : q <= q') by (destruct Hq' as [->| ->]; lia).
      assert (H1 : (q + 1) * P <= W * P)
        by (apply Z.mul_le_mono_nonneg_r; lia).
      assert (Hq1 : q' = q + 1) by (apply Hdown; unfold C in *; lia).
      assert (H2 : (q + 2) * P <= W * P)
        by (apply Z.mul_le_mono_nonneg_r; lia).
      unfold C in *. lia.
    + (* the exact comparison holds: so does the float one *)
      intros Hx.
      assert (Hq'P : 2 * (q' * P) <= 2 * (n * C) + P).
      { destruct Hq' as [->| Hq1]; [lia|].
        specialize (Hup Hq1). subst q'. lia. }
      apply (Z.mul_lt_mono_pos_r P); [exact HP|].
      unfold C in *. lia.
Qed.

End Binary64Facts.

(** ** Recommendations *)

Module RecommendationFacts.
Import DataAnalyzer FrameFacts.

Lemma count_true_le mask : (count_true mask <= length mask)%nat.
Proof. unfold count_true. apply List.filter_length_le. Qed.

Lemma length_eq_scalar s v : length (eq_scalar s v) = series_len s.
Proof. unfold eq_scalar. now rewrite length_map, length_cells. Qed.

Lemma exceeds_30_percent_exact (z n : nat) :
  (Z.of_nat n <= 2 ^ 52)%Z -> (z <= n)%nat ->
  exceeds_30_percent z n = (3 * n <? 10 * z)%nat.
Proof.
  intros Hn Hz. unfold exceeds_30_percent.
  assert (H53 : (2 ^ 53 = 2 * 2 ^ 52)%Z) by reflexivity.
  pose proof (Binary64Facts.threshold_exact (Z.of_nat n) (Z.of_nat z)
                ltac:(lia) ltac:(lia)) as H.
  destruct (3 * n <? 10 * z)%nat eqn:E.
  - apply Nat.ltb_lt in E. apply H. lia.
  - apply Nat.ltb_ge in E.
    destruct (Binary64.ltb _ _); auto. assert (true = true) as Ht by auto.
    apply H in Ht. lia.
Qed.

Lemma first_vent_col_is_column df c rest :
  List.filter is_vent_col (columns df) = c :: rest -> c ∈ columns df.
Proof.
  intros H.
  assert (Hin : List.In c (List.filter is_vent_col (columns df)))
    by (rewrite H; now left).
  apply filter_In in Hin as [Hin _]. now apply list_elem_of_In.
Qed.

Lemma zero_sales_count_le df z :
  well_formed df -> zero_sales_count df = Some z -> (z <= len df)%nat.
Proof.
  intros Hwf. unfold zero_sales_count.
  destruct (List.filter is_vent_col (columns df)) as [|c rest]; [discriminate|].
  destruct (getitem df c) as [e|s] eqn:Hs; [discriminate|].
  intros [= <-]. destruct Hwf as [Hlen _].
  apply getitem_In in Hs. rewrite Forall_forall in Hlen.
  specialize (Hlen _ Hs). simpl in Hlen. rewrite <- Hlen, <- (length_eq_scalar s 0).
  apply count_true_le.
Qed.

Lemma generate_recommendations_rules df low :
  well_formed df ->
  (Z.of_nat (len df) <= 2 ^ 52)%Z ->
  _identify_low_stock df 5 = Ok low ->
  _generate_recommendations df
  = Ok (restock_rule low ++ rotation_rule df ++ missing_rule df).
Proof.
  intros Hwf Hn Hlow. unfold _generate_recommendations.
  change (call "_identify_low_stock" (_identify_low_stock df 5))
    with (_identify_low_stock df 5).
  rewrite Hlow. cbn [rbind Ok]. rewrite app_nil_l.
  fold (restock_rule low). fold (missing_rule df).
  pose proof (zero_sales_count_le df) as Hz.
  unfold rotation_rule. unfold zero_sales_count in *.
  destruct (List.filter is_vent_col (columns df)) as [|c rest] eqn:Hcols.
  - cbn [rbind Ok]. unfold missing_rule.
    destruct (0 <? missing_total df)%nat;
      rewrite ?app_nil_l, ?app_nil_r; reflexivity.
  - destruct (getitem_column df c (first_vent_col_is_column _ _ _ Hcols))
      as [s Hs].
    rewrite Hs in *. cbn [rbind Ok].
    rewrite exceeds_30_percent_exact by (auto; apply Hz; auto).
    unfold missing_rule.
    destruct (3 * len df <? 10 * count_true (eq_scalar s 0))%nat;
      cbn [rbind Ok]; destruct (0 <? missing_total df)%nat;
      rewrite <- ?app_assoc, ?app_nil_l, ?app_nil_r; reflexivity.
Qed.

(** C7. The recommendation list is the restock rule, then the rotation
    rule, then the missing-data rule, each decided on its own; the rotation
    alert is present exactly when a sales column exists and its zero count
    is strictly more than 30% of the rows: four zeros in ten rows produce
    it, three in ten do not. *)
Theorem recommendation_rules df low :
  well_formed df ->
  (Z.of_nat (len df) <= 2 ^ 52)%Z ->
  _identify_low_stock df 5 = Ok low ->
  exists recs,
    _generate_recommendations df = Ok recs
    /\ recs = restock_rule low ++ rotation_rule df ++ missing_rule df
    /\ (forall k, Rotation k ∈ recs
                  <-> zero_sales_count df = Some k /\ (3 * len df < 10 * k)%nat)
    /\ _generate_recommendations df_four_of_ten = Ok [Rotation 4]
    /\ _generate_recommendations df_three_of_ten = Ok [].
Proof.
  intros Hwf Hn Hlow. eexists. split.
  { apply (generate_recommendations_rules df low Hwf Hn Hlow). }
  split; [reflexivity|]. split; [|split; reflexivity].
  intros k. rewrite !elem_of_app.
  unfold restock_rule, rotation_rule, missing_rule. split.
  - intros [H|[H|H]].
    + destruct (0 <? len low)%nat; [|inversion H].
      apply list_elem_of_singleton in H. discriminate.
    + destruct (zero_sales_count df) as [z|]; [|inversion H].
      destruct (3 * len df <? 10 * z)%nat eqn:E; [|inversion H].
      apply list_elem_of_singleton in H. injection H as ->.
      apply Nat.ltb_lt in E. auto.
    + destruct (0 <? missing_total df)%nat; [|inversion H].
      apply list_elem_of_singleton in H. discriminate.
  - intros [-> Hk]. right. left.
    apply Nat.ltb_lt in Hk. rewrite Hk. apply list_elem_of_here.
Qed.

End RecommendationFacts.

(** ** The entry point and the partial-data paths *)

Module EntryPointFacts.
Import DataAnalyzer.

(** The callees of [comprehensive_analysis] and its helpers that the
    class does not define. *)
Lemma undefined_callees :
  Forall (fun name => is_method name = false)
    [ "_get_top_products"; "_identify_overstock"; "_calculate_turnover";
      "_perform_abc_analysis"; "_detect_trends"; "_find_column" ].
Proof. repeat constructor. Qed.

Lemma analyze_inventory_raises df : exists e, _analyze_inventory df = Raise e.
Proof.
  unfold _analyze_inventory.
  change (call "_identify_low_stock" (_identify_low_stock df 5))
    with (_identify_low_stock df 5).
  destruct (_identify_low_stock df 5) as [e|low]; simpl; eauto.
Qed.

(** C1. On every table the entry point ends in an exception: the inventory
    analysis calls [_identify_overstock], which the class does not define
    (or an earlier call has already raised). *)
Theorem comprehensive_analysis_raises
    (Anomalies : Type) (detect : DataFrame -> result Anomalies)
    (df : DataFrame) :
  exists e, comprehensive_analysis detect df = Raise e.
Proof.
  unfold comprehensive_analysis.
  change (call "_get_basic_statistics" (Ok (_get_basic_statistics df)))
    with (Ok (_get_basic_statistics df) : result basic_stats).
  change (call "_analyze_sales" (_analyze_sales df)) with (_analyze_sales df).
  change (call "_analyze_inventory" (_analyze_inventory df))
    with (_analyze_inventory df).
  cbn [rbind Ok].
  destruct (_analyze_sales df) as [e|sales]; cbn [rbind]; [eauto|].
  destruct (analyze_inventory_raises df) as [e ->]. cbn [rbind Raise]. eauto.
Qed.

(** C8. A stock column read as text makes the low-stock selection, and with
    it the recommendations, raise [TypeError]. *)
Theorem text_stock_column_raises :
  _identify_low_stock df_text_stock 5 = Raise TypeError
  /\ _generate_recommendations df_text_stock = Raise TypeError.
Proof. split; reflexivity. Qed.

(** The paths that do degrade: no stock column gives the empty frame, no
    sales column gives the ['error'] entry. *)
Lemma no_stock_column_empty df threshold :
  stock_cols df = [] -> _identify_low_stock df threshold = Ok empty_frame.
Proof. unfold _identify_low_stock. now intros ->. Qed.

Lemma no_sales_column_error {T} (get_top : series -> result T) df :
  List.filter is_sales_col (columns df) = [] ->
  _analyze_sales_with get_top df
  = Ok (SalesError "No se encontraron columnas de ventas").
Proof. unfold _analyze_sales_with. now intros ->. Qed.

End EntryPointFacts.

(** ** The end-to-end scenario *)

Module ScenarioFacts.
Import DataLoader DataAnalyzer.

(** C3, as the code has it.  Product, sales and stock are resolved and the
    category role is not; the low-stock rows at threshold 5 are B and A;
    the only zero of the resolved sales column is the row of B; the
    recommendations contain the restock alert. *)
Theorem scenario_outcome :
  let mapping := get_column_mapping (columns df_scenario) in
  mapping !! "product" = Some "Product"
  /\ mapping !! "sales" = Some "Cajas Vend. Total"
  /\ mapping !! "stock" = Some "Cajas Stock Total"
  /\ mapping !! "category" = None
  /\ (exists low,
        _identify_low_stock df_scenario 5 = Ok low
        /\ getitem low "Product" = Ok (Object [Some "B"; Some "A"]))
  /\ (exists s,
        getitem df_scenario "Cajas Vend. Total" = Ok s
        /\ eq_scalar s 0 = [false; true; false])
  /\ (exists recs,
        _generate_recommendations df_scenario = Ok recs
        /\ Restock 2 ∈ recs).
Proof.
  cbv zeta. repeat split; try (vm_compute; reflexivity).
  - eexists. split; vm_compute; reflexivity.
  - eexists. split; vm_compute; reflexivity.
  - eexists. split; [vm_compute; reflexivity|]. apply list_elem_of_here.
Qed.

(** C3 as stated fails: the category role is unresolved for the column
    [Laboratory], and no rotation alert is produced. *)
Lemma scenario_category_unresolved_no_rotation :
  get_column_mapping (columns df_scenario) !! "category" = None
  /\ _generate_recommendations df_scenario = Ok [Restock 2].
Proof. split; vm_compute; reflexivity. Qed.

End ScenarioFacts.

(** ** Product rotation *)

Module RotationFacts.
Import Rotation.

Lemma numeric_cells s :
  DataAnalyzer.is_number s = true ->
  Forall (fun c => forall t, c <> Text t) (cells s).
Proof.
  destruct s as [l|l|l]; simpl; intros H; try discriminate;
    apply Forall_forall; intros c Hc t ->;
    apply list_elem_of_fmap in Hc as (x & Hx & _).
  - discriminate.
  - now destruct x.
Qed.

Lemma truediv_replaced a b :
  (forall t, a <> Text t) -> (forall t, b <> Text t) ->
  exists v, truediv a (replace_0_1 b) = Ok v
            /\ v <> PInf /\ v <> NInf
            /\ (forall x y, a = Num x -> b = Num y -> v = Fin (turnover x y)).
Proof.
  intros Ha Hb. destruct a as [x|t|]; [|destruct (Ha t eq_refl)|].
  - destruct b as [y|t|]; [|destruct (Hb t eq_refl)|].
    + unfold replace_0_1, turnover. destruct (Qeq_bool y 0) eqn:E; simpl.
      * eexists. repeat split; try discriminate.
        intros x' y' [= <-] [= <-]. now rewrite E.
      * rewrite E. eexists. repeat split; try discriminate.
        intros x' y' [= <-] [= <-]. now rewrite E.
    + exists NaN. repeat split; discriminate.
  - exists NaN. simpl. destruct (replace_0_1 b); repeat split; discriminate.
Qed.

Lemma truediv_cells_replaced l1 l2 :
  Forall (fun c => forall t, c <> Text t) l1 ->
  Forall (fun c => forall t, c <> Text t) l2 ->
  exists rot,
    truediv_cells l1 (map replace_0_1 l2) = Ok rot
    /\ Forall (fun v => v <> PInf /\ v <> NInf) rot
    /\ (forall i x y, l1 !! i = Some (Num x) -> l2 !! i = Some (Num y) ->
                      rot !! i = Some (Fin (turnover x y))).
Proof.
  intros H1. revert l2. induction H1 as [|a l1 Ha _ IH]; intros l2 H2.
  - exists []. repeat split; auto. intros i x y H; discriminate.
  - destruct H2 as [|b l2 Hb H2].
    + exists []. repeat split; auto. intros i x y _ H; discriminate.
    + destruct (truediv_replaced a b Ha Hb) as (v & Hv & Hp & Hn & Hxy).
      destruct (IH l2 H2) as (rot & Hrot & Hfin & Hrows).
      exists (v :: rot). simpl. rewrite Hv. cbn [rbind Ok].
      rewrite Hrot. cbn [rbind Ok]. repeat split; auto.
      intros [|i] x y; simpl.
      * intros [= ->] [= ->]. f_equal. now apply Hxy.
      * apply Hrows.
Qed.

Lemma has_column_spec df n :
  existsb (String.eqb n) (columns df) = true <-> n ∈ columns df.
Proof.
  rewrite existsb_exists. split.
  - intros (x & Hx & E). apply String.eqb_eq in E. subst. now apply list_elem_of_In.
  - intros H. exists n. split; [now apply list_elem_of_In|apply String.eqb_refl].
Qed.

Lemma absent_filter_present df names :
  Forall (fun n => n ∈ columns df) names ->
  List.filter (fun n => negb (existsb (String.eqb n) (columns df))) names = [].
Proof.
  induction 1 as [|n names Hn _ IH]; [reflexivity|].
  cbn [List.filter]. apply has_column_spec in Hn. now rewrite Hn.
Qed.

Lemma missing_labels_present df names :
  Forall (fun n => n ∈ columns df) names -> missing_labels df names = [].
Proof.
  intros H. unfold missing_labels. now rewrite (absent_filter_present df names H).
Qed.

Lemma lookup_columns_present df names :
  Forall (fun n => n ∈ columns df) names ->
  exists sel, lookup_columns df names = Ok sel.
Proof.
  induction 1 as [|n names Hn _ [sel IH]]; simpl; [eauto|].
  destruct (FrameFacts.getitem_column df n Hn) as [s ->]. cbn [rbind Ok].
  rewrite IH. cbn [rbind Ok]. eauto.
Qed.

Lemma select_columns_present df names :
  Forall (fun n => n ∈ columns df) names ->
  exists sel, select_columns df names = Ok sel.
Proof.
  intros H. unfold select_columns. rewrite (missing_labels_present df names H).
  now apply lookup_columns_present.
Qed.

Lemma getitem_is_column df c s : getitem df c = Ok s -> c ∈ columns df.
Proof.
  intros H. apply FrameFacts.getitem_In in H.
  apply list_elem_of_fmap. now exists (c, s).
Qed.

(** With a finder that names numeric sales and stock columns, the function
    reaches the selection of line 181 with the quotients computed. *)
Lemma rotation_reaches_selection
    (find_column : DataFrame -> list string -> option string)
    (df : DataFrame) (sales_col stock_col : string) (sales stock : series) :
  find_column df ["cajas vend. total"] = Some sales_col ->
  find_column df ["cajas stock total"] = Some stock_col ->
  sales_col <> "" -> stock_col <> "" ->
  getitem df sales_col = Ok sales ->
  getitem df stock_col = Ok stock ->
  DataAnalyzer.is_number sales = true ->
  DataAnalyzer.is_number stock = true ->
  exists rot,
    truediv_cells (cells sales) (map replace_0_1 (cells stock)) = Ok rot
    /\ _analyze_product_rotation find_column df
       = (let* selected :=
            select_columns df ["Producto"; "Laboratorio"; sales_col; stock_col] in
          Ok (mkRotation selected rot (map cut rot))).
Proof.
  intros Hfs Hfk Hs Hk Hsales Hstock Hns Hnk.
  destruct (truediv_cells_replaced (cells sales) (cells stock)
              (numeric_cells _ Hns) (numeric_cells _ Hnk))
    as (rot & Hrot & _).
  exists rot. split; [exact Hrot|].
  unfold _analyze_product_rotation, rotation_of. rewrite Hfs, Hfk.
  unfold truthy.
  apply String.eqb_neq in Hs, Hk. rewrite Hs, Hk. cbn [negb andb default from_option id].
  rewrite Hsales, Hstock. cbn [rbind Ok]. rewrite Hrot. reflexivity.
Qed.

(** C5. The rotation function as the repository has it produces no
    turnover: its first statement calls [self._find_column], a method that
    is defined nowhere, so on every table the call raises [AttributeError]
    before any division is made. *)
Theorem rotation_raises_on_undefined_finder (df : DataFrame) :
  DataAnalyzer.is_method "_find_column" = false
  /\ _analyze_product_rotation_of_analyzer df
     = Raise (AttributeError "_find_column")
  /\ _analyze_product_rotation_of_analyzer df_farmacia
     = Raise (AttributeError "_find_column").
Proof. repeat split. Qed.

End RotationFacts.

(** ** Sales analysis *)

Module SalesFacts.
Import DataAnalyzer.

Section Loop.

Context {T : Type}.
Variable get_top : series -> result T.
Hypothesis get_top_returns : forall s, exists t, get_top s = Ok t.



End Loop.




Lemma filter_sales_cols_are_columns df :
  Forall (fun c => c ∈ columns df) (List.filter is_sales_col (columns df)).
Proof.
  apply Forall_forall. intros c Hc. apply list_elem_of_In in Hc.
  apply filter_In in Hc as [Hc _]. now apply list_elem_of_In.
Qed.



End SalesFacts.

(** ** The theorems at concrete tables *)

Module Witnesses.
Import DataAnalyzer.

Ltac by_decision := apply (bool_decide_unpack _); vm_compute; exact I.

Lemma well_formed_boundary : well_formed df_boundary.
Proof. split; [repeat constructor | by_decision]. Qed.

Lemma well_formed_four_of_ten : well_formed df_four_of_ten.
Proof. split; [repeat constructor | by_decision]. Qed.

Lemma resolver_first_hit_wins_witness :
  let columns := ["Producto"; "Inventario"; "Stock Total"] in
  let names := ["stock"; "inventario"; "cajas stock"; "inventory"] in
  (forall c, DataLoader.get_column_mapping_with COMMON_SALES_COLS columns !! "stock"
             = Some c <-> first_hit names columns c)
  /\ (DataLoader.get_column_mapping_with COMMON_SALES_COLS columns !! "stock" = None
      <-> forall p, p ∈ names -> no_hit p columns).
Proof.
  apply (ResolverFacts.resolver_first_hit_wins COMMON_SALES_COLS
           ["Producto"; "Inventario"; "Stock Total"] "stock"
           ["stock"; "inventario"; "cajas stock"; "inventory"]).
  - by_decision.
  - repeat constructor.
Defined.

Lemma unmatched_column_is_irrelevant_witness :
  DataLoader.get_column_mapping_with COMMON_SALES_COLS
    (["Producto"] ++ "Notas" :: ["Stock Total"])
  = DataLoader.get_column_mapping_with COMMON_SALES_COLS
      (["Producto"] ++ ["Stock Total"]).
Proof.
  apply (ResolverFacts.unmatched_column_is_irrelevant COMMON_SALES_COLS
           ["Producto"] "Notas" ["Stock Total"]).
  intros role names p Hin Hp.
  assert (H : forallb (fun item => forallb (fun q => negb (hits q "Notas"))
                                           (snd item))
                      COMMON_SALES_COLS = true) by reflexivity.
  rewrite forallb_forall in H. apply list_elem_of_In in Hin, Hp.
  specialize (H _ Hin). simpl in H. rewrite forallb_forall in H.
  specialize (H _ Hp). now apply negb_true_iff in H.
Defined.

Lemma low_stock_is_closed_interval_witness :
  exists ps,
    _identify_low_stock df_boundary 5 = Ok (take_rows ps df_boundary)
    /\ NoDup ps
    /\ (forall i, i ∈ ps <-> exists q, cells (Int64 [-1; 0; 5; 6]%Z) !! i = Some (Num q)
                                  /\ (0 <= q /\ q <= inject_Z 5)%Q)
    /\ (forall i q, cells (Int64 [-1; 0; 5; 6]%Z) !! i = Some (Num q) ->
                    (q < 0)%Q -> i ∉ ps)
    /\ _identify_low_stock df_boundary 5 = Ok (take_rows [1; 2]%nat df_boundary).
Proof.
  apply (LowStockFacts.low_stock_is_closed_interval df_boundary 5 "stock" []
           (Int64 [-1; 0; 5; 6]%Z)).
  - exact well_formed_boundary.
  - reflexivity.
  - reflexivity.
  - reflexivity.
Defined.

Lemma well_formed_unsorted : well_formed df_unsorted.
Proof. split; [repeat constructor | by_decision]. Qed.

Lemma low_stock_sorted_ascending_witness :
  exists ps s_low qs,
    _identify_low_stock df_unsorted 5 = Ok (take_rows ps df_unsorted)
    /\ ps ≡ₚ low_positions 5 (Int64 [5; -1; 0; 6; 3]%Z)
    /\ map (fun p => cells (Int64 [5; -1; 0; 6; 3]%Z) !! p) ps
       = map (fun q => Some (Num q)) qs
    /\ getitem (take_rows ps df_unsorted) "stock" = Ok s_low
    /\ cells s_low = map Num qs
    /\ Sorted Qle qs
    /\ _identify_low_stock df_unsorted 5
       = Ok (take_rows [2; 4; 0]%nat df_unsorted).
Proof.
  apply (LowStockFacts.low_stock_sorted_ascending df_unsorted 5 "stock" []
           (Int64 [5; -1; 0; 6; 3]%Z)).
  - exact well_formed_unsorted.
  - reflexivity.
  - reflexivity.
  - reflexivity.
Defined.

Lemma recommendation_rules_witness :
  exists recs,
    _generate_recommendations df_four_of_ten = Ok recs
    /\ recs = restock_rule empty_frame ++ rotation_rule df_four_of_ten
              ++ missing_rule df_four_of_ten
    /\ (forall k, Rotation k ∈ recs
                  <-> zero_sales_count df_four_of_ten = Some k
                      /\ (3 * len df_four_of_ten < 10 * k)%nat)
    /\ _generate_recommendations df_four_of_ten = Ok [Rotation 4]
    /\ _generate_recommendations df_three_of_ten = Ok [].
Proof.
  apply (RecommendationFacts.recommendation_rules df_four_of_ten empty_frame).
  - exact well_formed_four_of_ten.
  - vm_compute. discriminate.
  - reflexivity.
Defined.


End Witnesses.

(** * Further properties of the code *)

Module ResolverExtras.
Import DataLoader ResolverFacts.

Lemma lower_ascii_idem c : Str.lower_ascii (Str.lower_ascii c) = Str.lower_ascii c.
Proof.
  destruct c as [[] [] [] [] [] [] [] []]; reflexivity.
Qed.

Lemma lower_idem s : Str.lower (Str.lower s) = Str.lower s.
Proof.
  induction s as [|c s IH]; simpl; auto. now rewrite lower_ascii_idem, IH.
Qed.

Lemma hits_lower p col : hits p (Str.lower col) = hits p col.
Proof. unfold hits. now rewrite lower_idem. Qed.

Lemma matching_cols_lower p columns :
  matching_cols p (map Str.lower columns) = map Str.lower (matching_cols p columns).
Proof.
  unfold matching_cols. induction columns as [|c cs IH]; simpl; auto.
  rewrite lower_idem. destruct (Str.contains p (Str.lower c)); simpl; now rewrite IH.
Qed.

Lemma resolve_lower names columns :
  resolve names (map Str.lower columns) = Str.lower <$> resolve names columns.
Proof.
  induction names as [|p ps IH]; simpl; auto.
  rewrite matching_cols_lower.
  destruct (matching_cols p columns); simpl; auto.
Qed.

(** X1. Resolution does not depend on the letter case of the column names. *)
Theorem mapping_case_insensitive config columns :
  get_column_mapping_with config (map Str.lower columns)
  = Str.lower <$> get_column_mapping_with config columns.
Proof.
  rewrite !get_column_mapping_with_fold.
  assert (G : forall acc,
            fold_left (step (map Str.lower columns)) config (Str.lower <$> acc)
            = Str.lower <$> fold_left (step columns) config acc).
  { induction config as [|[r names] config IH]; intros acc; simpl; auto.
    rewrite <- IH. f_equal. unfold step; simpl. rewrite resolve_lower.
    destruct (resolve names columns); simpl; auto. now rewrite fmap_insert. }
  rewrite <- G. now rewrite fmap_empty.
Qed.


Lemma fold_step_invariant (P : string -> string -> Prop) columns config acc :
  (forall r x, acc !! r = Some x -> P r x) ->
  (forall r names c, (r, names) ∈ config -> resolve names columns = Some c -> P r c) ->
  forall r x, fold_left (step columns) config acc !! r = Some x -> P r x.
Proof.
  revert acc. induction config as [|[r0 names0] config IH]; intros acc Hacc Hcfg; simpl.
  - exact Hacc.
  - apply IH.
    + intros r x. unfold step; simpl.
      destruct (resolve names0 columns) as [c|] eqn:E; [|apply Hacc].
      destruct (decide (r0 = r)) as [->|Hne].
      * rewrite lookup_insert_eq. intros [= <-].
        apply (Hcfg r names0 c); [apply list_elem_of_here|exact E].
      * rewrite lookup_insert_ne by assumption. apply Hacc.
    + intros r names c Hin. apply Hcfg. now apply list_elem_of_further.
Qed.

Lemma leftmost_hit_elem p columns c :
  leftmost_hit p columns c -> c ∈ columns /\ hits p c = true.
Proof.
  intros (l1 & l2 & -> & H & _). split; auto.
  apply elem_of_app. right. apply list_elem_of_here.
Qed.

(** X2. Every binding of the mapping is a column of the table whose name
    carries a keyword of the bound role. *)
Theorem mapping_sound config columns role c :
  get_column_mapping_with config columns !! role = Some c ->
  c ∈ columns
  /\ exists names p, (role, names) ∈ config /\ p ∈ names /\ hits p c = true.
Proof.
  rewrite get_column_mapping_with_fold.
  apply (fold_step_invariant
           (fun r x => x ∈ columns
                       /\ exists names p, (r, names) ∈ config /\ p ∈ names
                                          /\ hits p x = true)).
  - intros r x Hx. rewrite lookup_empty in Hx. discriminate.
  - intros r names x Hin Hres.
    apply resolve_Some in Hres as (pre & p & post & -> & _ & Hl).
    apply leftmost_hit_elem in Hl as [Hx Hh]. split; auto.
    exists (pre ++ p :: post), p. repeat split; auto.
    apply elem_of_app. right. apply list_elem_of_here.
Qed.

Lemma resolve_monotone names pre columns post :
  is_Some (resolve names columns) ->
  is_Some (resolve names (pre ++ columns ++ post)).
Proof.
  intros [c Hc].
  destruct (resolve names (pre ++ columns ++ post)) as [c'|] eqn:E; [eauto|].
  exfalso. rewrite resolve_None in E.
  assert (Hn : resolve names columns = None).
  { apply resolve_None. intros p Hp col Hcol. apply (E p Hp).
    apply elem_of_app. right. apply elem_of_app. now left. }
  congruence.
Qed.

(** X3. Adding columns, on either side, never makes a resolved role
    unresolved. *)
Theorem more_columns_keep_roles_resolved config pre columns post role :
  is_Some (get_column_mapping_with config columns !! role) ->
  is_Some (get_column_mapping_with config (pre ++ columns ++ post) !! role).
Proof.
  rewrite !get_column_mapping_with_fold.
  assert (G : forall acc acc' : gmap string string,
            (forall r, is_Some (acc !! r) -> is_Some (acc' !! r)) ->
            forall r, is_Some (fold_left (step columns) config acc !! r) ->
                      is_Some (fold_left (step (pre ++ columns ++ post)) config acc' !! r)).
  { induction config as [|[r0 names0] config IH]; intros acc acc' Hacc; simpl; auto.
    apply IH. intros r. unfold step; simpl.
    pose proof (resolve_monotone names0 pre columns post) as Hmono.
    destruct (resolve names0 columns) as [c|].
    - destruct (Hmono ltac:(eauto)) as [c' ->].
      destruct (decide (r0 = r)) as [->|Hne].
      + rewrite !lookup_insert_eq. eauto.
      + rewrite !lookup_insert_ne by assumption. apply Hacc.
    - intros Hr. specialize (Hacc r Hr).
      destruct (resolve names0 (pre ++ columns ++ post)); auto.
      destruct (decide (r0 = r)) as [->|Hne].
      + rewrite lookup_insert_eq. eauto.
      + now rewrite lookup_insert_ne. }
  apply G. auto.
Qed.

(** Substrings *)
Lemma prefix_app_inv a b s :
  String.prefix (a ++ b)%string s = true ->
  exists r, s = (a ++ r)%string /\ String.prefix b r = true.
Proof.
  revert s. induction a as [|c a IH]; intros s H.
  - exists s. auto.
  - destruct s as [|c' s]; simpl in H; [discriminate|].
    destruct (Ascii.ascii_dec c c') as [->|]; [|discriminate].
    destruct (IH s H) as (r & -> & Hr). exists r. auto.
Qed.

Lemma contains_prefix n s : String.prefix n s = true -> Str.contains n s = true.
Proof. intros H. destruct s; simpl in *; rewrite H; reflexivity. Qed.

Lemma contains_app_r n a r :
  Str.contains n r = true -> Str.contains n (a ++ r)%string = true.
Proof.
  intros H. induction a as [|c a IH]; simpl; auto.
  rewrite IH. apply orb_true_r.
Qed.

Lemma prefix_app_contains n1 n2 s :
  String.prefix (n1 ++ n2)%string s = true -> Str.contains n2 s = true.
Proof.
  intros H. apply prefix_app_inv in H as (r & -> & Hr).
  apply contains_app_r. now apply contains_prefix.
Qed.

Lemma contains_app n1 n2 s :
  Str.contains (n1 ++ n2)%string s = true -> Str.contains n2 s = true.
Proof.
  induction s as [|c s IH]; intros H.
  - apply (prefix_app_contains n1). cbn [Str.contains] in H.
    now rewrite orb_false_r in H.
  - cbn [Str.contains] in H. apply orb_true_iff in H as [H|H].
    + now apply (prefix_app_contains n1).
    + cbn [Str.contains]. rewrite (IH H). apply orb_true_r.
Qed.

Lemma cajas_stock_shadowed columns :
  matching_cols "stock" columns = [] -> matching_cols "cajas stock" columns = [].
Proof.
  rewrite !matching_cols_nil. intros H col Hcol. specialize (H col Hcol).
  unfold hits in *. destruct (Str.contains "cajas stock" (Str.lower col)) eqn:E; auto.
  apply (contains_app "cajas " "stock") in E. congruence.
Qed.

(** X4. The stock keyword ['cajas stock'] never decides: every name that
    carries it carries ['stock'], which is tried first.  Dropping it from
    the table changes no mapping. *)
Theorem cajas_stock_keyword_is_dead columns :
  get_column_mapping columns
  = get_column_mapping_with COMMON_SALES_COLS_pruned columns.
Proof.
  unfold get_column_mapping, get_column_mapping_with, COMMON_SALES_COLS,
    COMMON_SALES_COLS_pruned.
  cbn [fold_left]. do 3 f_equal.
  cbn [resolve].
  destruct (matching_cols "stock" columns) eqn:E1; auto.
  destruct (matching_cols "inventario" columns) eqn:E2; auto.
  now rewrite (cajas_stock_shadowed columns E1).
Qed.

(** The visualizer's finder against the loader's resolver. *)
Lemma find_column_any_None keywords columns :
  Visualizer.find_column_any keywords columns = None
  <-> forall p, p ∈ keywords -> no_hit p columns.
Proof.
  unfold Visualizer.find_column_any. split.
  - intros H p Hp col Hcol. apply list_elem_of_In in Hcol.
    pose proof (find_none _ _ H col Hcol) as Hn. simpl in Hn.
    destruct (hits p col) eqn:E; auto.
    assert (Ht : existsb (fun k => Str.contains k (Str.lower col)) keywords = true).
    { apply existsb_exists. exists p. split; auto. now apply list_elem_of_In. }
    congruence.
  - intros H. destruct (find _ columns) as [col|] eqn:E; auto.
    apply find_some in E as [Hcol Hex]. apply existsb_exists in Hex as (p & Hp & Hh).
    apply list_elem_of_In in Hcol, Hp. specialize (H p Hp col Hcol).
    unfold hits in H. congruence.
Qed.

Lemma find_column_any_Some keywords columns c :
  Visualizer.find_column_any keywords columns = Some c ->
  exists l1 l2, columns = l1 ++ c :: l2
                /\ (forall p, p ∈ keywords -> no_hit p l1).
Proof.
  unfold Visualizer.find_column_any.
  induction columns as [|x cs IH]; simpl; [discriminate|].
  destruct (existsb _ keywords) eqn:E.
  - intros [= ->]. exists [], cs. split; auto. intros p _ col Hc. inversion Hc.
  - intros H. destruct (IH H) as (l1 & l2 & -> & Hn).
    exists (x :: l1), l2. split; auto.
    intros p Hp col Hc. apply elem_of_cons in Hc as [->|Hc]; [|now apply (Hn p)].
    unfold hits. destruct (Str.contains p (Str.lower x)) eqn:Ep; auto.
    assert (existsb (fun k => Str.contains k (Str.lower x)) keywords = true).
    { apply existsb_exists. exists p. split; auto. now apply list_elem_of_In. }
    congruence.
Qed.

(** X5. The stock and category finders of the visualizer use the keyword lists
    of the configuration: they find a column exactly when the resolver
    binds the role, and the column they find stands at or to the left of
    the resolver's. *)
Theorem visualizer_finders_agree_on_presence columns :
  (is_Some (Visualizer._find_stock_column columns)
   <-> is_Some (get_column_mapping columns !! "stock"))
  /\ (is_Some (Visualizer._find_category_column columns)
      <-> is_Some (get_column_mapping columns !! "category"))
  /\ (forall cv cl,
        Visualizer._find_stock_column columns = Some cv ->
        get_column_mapping columns !! "stock" = Some cl ->
        exists l1 l2, columns = l1 ++ cv :: l2 /\ cl ∈ cv :: l2).
Proof.
  assert (Hnd : NoDup (map fst COMMON_SALES_COLS))
    by (apply (bool_decide_unpack _); vm_compute; exact I).
  assert (Hstock : get_column_mapping columns !! "stock"
                   = resolve ["stock"; "inventario"; "cajas stock"; "inventory"] columns).
  { apply mapping_lookup; auto. repeat constructor. }
  assert (Hcat : get_column_mapping columns !! "category"
                 = resolve ["categoria"; "category"; "rubro"; "departamento"; "laboratorio"] columns).
  { apply mapping_lookup; auto. repeat constructor. }
  rewrite Hstock, Hcat. unfold Visualizer._find_stock_column, Visualizer._find_category_column.
  assert (Hpres : forall kws, is_Some (Visualizer.find_column_any kws columns)
                              <-> is_Some (resolve kws columns)).
  { intros kws. rewrite <- !not_eq_None_Some.
    now rewrite find_column_any_None, resolve_None. }
  split; [apply Hpres|]. split; [apply Hpres|].
  intros cv cl Hv Hl.
  apply find_column_any_Some in Hv as (l1 & l2 & -> & Hn).
  exists l1, l2. split; auto.
  apply resolve_Some in Hl as (pre & p & post & Hnames & _ & Hleft).
  apply leftmost_hit_elem in Hleft as [Hin Hh].
  apply elem_of_app in Hin as [Hin|Hin]; auto.
  assert (Hp : p ∈ ["stock"; "inventario"; "cajas stock"; "inventory"]).
  { rewrite Hnames. apply elem_of_app. right. apply list_elem_of_here. }
  specialize (Hn p Hp cl Hin). congruence.
Qed.
End ResolverExtras.

Module IngestionFacts.
Import Ingestion FrameFacts.

Lemma detect_step_inv line seen state d :
  detect_inv line seen state ->
  detect_inv line (seen ++ [d]) (detect_step line state d).
Proof.
  destruct state as [best m]. unfold detect_inv, detect_step, column_count.
  cbn [fst snd].
  intros H; cbn [fst snd] in H.
  destruct H as [(-> & -> & Hzero)|(-> & Hpos & pre & post & -> & Hpre & Hpost)].
  - destruct (Nat.ltb_spec 0 (S (count_char d line))) as [_|?]; [|exfalso; lia].
    destruct (Nat.ltb_spec 1 (S (count_char d line))) as [H1|H1]; cbn [andb fst snd].
    + right. split; [reflexivity|]. split; [lia|].
      exists seen, []. split; [reflexivity|]. split.
      * intros d' Hd'. rewrite (Hzero d' Hd'). lia.
      * intros d' Hd'. inversion Hd'.
    + left. split; [reflexivity|]. split; [reflexivity|].
      intros d' Hd'. apply elem_of_app in Hd' as [Hd'|Hd']; auto.
      apply list_elem_of_singleton in Hd' as ->. lia.
  - destruct (Nat.ltb_spec (S (count_char best line)) (S (count_char d line)))
      as [H1|H1]; cbn [andb fst snd].
    + destruct (Nat.ltb_spec 1 (S (count_char d line))) as [_|?]; [|exfalso; lia].
      cbn [andb fst snd].
      right. split; [reflexivity|]. split; [lia|].
      exists (pre ++ best :: post), []. split; [reflexivity|]. split.
      * intros d' Hd'. apply elem_of_app in Hd' as [Hd'|Hd'].
        -- specialize (Hpre d' Hd'). lia.
        -- apply elem_of_cons in Hd' as [->|Hd']; [lia|].
           specialize (Hpost d' Hd'). lia.
      * intros d' Hd'. inversion Hd'.
    + right. split; [reflexivity|]. split; [exact Hpos|].
      exists pre, (post ++ [d]). split; [now rewrite <- app_assoc|]. split; auto.
      intros d' Hd'. apply elem_of_app in Hd' as [Hd'|Hd']; auto.
      apply list_elem_of_singleton in Hd' as ->. lia.
Qed.

Lemma detect_fold_inv line rest seen state :
  detect_inv line seen state ->
  detect_inv line (seen ++ rest) (fold_left (detect_step line) rest state).
Proof.
  revert seen state. induction rest as [|d rest IH]; intros seen state H; simpl.
  - now rewrite app_nil_r.
  - replace (seen ++ d :: rest) with ((seen ++ [d]) ++ rest)
      by now rewrite <- app_assoc.
    apply IH. now apply detect_step_inv.
Qed.

(** X6. The delimiter chosen has the most occurrences in the first line, and
    among equals it is the first of comma, semicolon, tab, bar; an
    unreadable file gives a comma. *)
Theorem detect_delimiter_most_frequent (line : string) :
  let d := detect_delimiter (Some line) in
  (exists pre post,
      delimiters = pre ++ d :: post
      /\ (forall d', d' ∈ pre -> (count_char d' line < count_char d line)%nat)
      /\ (forall d', d' ∈ post -> (count_char d' line <= count_char d line)%nat))
  /\ detect_delimiter None = ","%char.
Proof.
  cbv zeta. split; [|reflexivity]. unfold detect_delimiter.
  assert (H0 : detect_inv line [] (","%char, 0%nat)).
  { left. repeat split. intros d Hd. inversion Hd. }
  pose proof (detect_fold_inv line delimiters [] _ H0) as H. rewrite app_nil_l in H.
  destruct H as [(_ & -> & Hzero)|(_ & _ & pre & post & Hsplit & Hpre & Hpost)].
  - exists [], [";"%char; tab; "|"%char]. split; [reflexivity|]. split.
    + intros d' Hd'. inversion Hd'.
    + intros d' Hd'. rewrite (Hzero d'); [lia|]. now apply list_elem_of_further.
  - exists pre, post. auto.
Qed.


(** X7. [validate_file] accepts exactly the existing files with a supported
    suffix, compared without regard to case, of at most 100 MiB; and a
    missing file is reported before anything else. *)
Theorem validate_file_accepts (f : file_info) :
  (validate_file f = inr true
   <-> file_exists f = true
       /\ In (Str.lower (suffix f)) [".csv"; ".xlsx"; ".xls"]
       /\ (st_size f <= 104857600)%Z)
  /\ validate_file f <> inr false
  /\ (file_exists f = false -> validate_file f = inl FileNotFoundError).
Proof.
  unfold validate_file, MAX_FILE_SIZE_MB, SUPPORTED_FORMATS, in_list.
  destruct (file_exists f); cbn [negb].
  2:{ split; [|split]; [split; [discriminate|intros [H _]; discriminate]
                        |discriminate|reflexivity]. }
  destruct (existsb _ _) eqn:E; cbn [negb].
  - apply existsb_exists in E as (x & Hx & Heq). apply String.eqb_eq in Heq.
    subst x. change (100 * (1024 * 1024))%Z with 104857600%Z.
    destruct (Z.ltb_spec 104857600 (st_size f)).
    + split; [|split]; [split; [discriminate|intros (_ & _ & H'); lia]
                        |discriminate|discriminate].
    + split; [|split]; [split; auto|discriminate|discriminate].
  - split; [|split]; [split; [discriminate|]|discriminate|discriminate].
    intros (_ & Hin & _). exfalso.
    assert (existsb (String.eqb (Str.lower (suffix f))) [".csv"; ".xlsx"; ".xls"] = true).
    { apply existsb_exists. exists (Str.lower (suffix f)). split; auto.
      apply String.eqb_refl. }
    congruence.
Qed.

(** X8. The final [else: raise ValueError] of [smart_load] is dead code: after
    a successful validation the suffix selects one of the two readers, and
    the outcome is the reader's, post-processed. *)
Theorem smart_load_dispatch
    (read_csv read_excel : file_info -> load_exn + DataFrame) (f : file_info) :
  smart_load read_csv read_excel f
  = match validate_file f with
    | inl e => inl e
    | inr _ =>
        match (if String.eqb (Str.lower (suffix f)) ".csv"
               then read_csv f else read_excel f) with
        | inl e => inl e
        | inr df => inr (_post_process_dataframe df)
        end
    end.
Proof.
  unfold smart_load.
  destruct (validate_file_accepts f) as (Hacc & Hne & _).
  destruct (validate_file f) as [e|b] eqn:Hv; [reflexivity|].
  destruct b; [|congruence].
  destruct (proj1 Hacc eq_refl) as (_ & Hin & _).
  destruct (String.eqb (Str.lower (suffix f)) ".csv") eqn:Ecsv; [reflexivity|].
  assert (Hx : in_list (Str.lower (suffix f)) [".xlsx"; ".xls"] = true).
  { unfold in_list. simpl in Hin. destruct Hin as [H|[H|[H|[]]]]; rewrite <- H in *.
    - discriminate.
    - reflexivity.
    - reflexivity. }
  now rewrite Hx.
Qed.

#[local] Arguments take_list : simpl never.

(** Stripping *)
Lemma lstrip_head s :
  lstrip s = EmptyString \/ exists c r, lstrip s = String c r /\ is_space c = false.
Proof.
  induction s as [|c s IH]; simpl; auto.
  destruct (is_space c) eqn:E; auto. right. eauto.
Qed.

Lemma rstrip_idem s : rstrip (rstrip s) = rstrip s.
Proof.
  induction s as [|c s IH]; simpl; auto.
  destruct (rstrip s) as [|c' r] eqn:E.
  - destruct (is_space c) eqn:Ec; simpl; auto. now rewrite Ec.
  - cbn [rstrip]. cbn [rstrip] in IH. now rewrite IH.
Qed.

Lemma rstrip_head c r :
  is_space c = false -> exists r', rstrip (String c r) = String c r'.
Proof.
  intros Hc. simpl. destruct (rstrip r); [rewrite Hc|]; eauto.
Qed.

Lemma strip_idem s : strip (strip s) = strip s.
Proof.
  unfold strip. destruct (lstrip_head s) as [->|(c & r & -> & Hc)]; [reflexivity|].
  destruct (rstrip_head c r Hc) as [r' Hr]. rewrite Hr.
  cbn [lstrip]. rewrite Hc. rewrite <- Hr. apply rstrip_idem.
Qed.

(** Row selection on equal-length frames *)
Lemma filter_all {A} (f : A -> bool) (l : list A) :
  Forall (fun x => f x = true) l -> List.filter f l = l.
Proof. induction 1 as [|x l Hx _ IH]; simpl; auto. now rewrite Hx, IH. Qed.

Lemma take_series_seq s : take_series (seq 0 (series_len s)) s = s.
Proof. destruct s; simpl; f_equal; apply take_list_seq. Qed.

Lemma take_rows_all df :
  equal_lengths df -> take_rows (seq 0 (len df)) df = df.
Proof.
  intros H. destruct df as [idx d]. unfold take_rows, len in *. cbn [index data] in *.
  f_equal; [apply take_list_seq|].
  unfold equal_lengths in H. cbn [data len index] in H.
  induction H as [|[n s] d' Hs _ IH]; simpl; auto.
  cbn [snd] in Hs. rewrite <- Hs at 1. now rewrite take_series_seq, IH.
Qed.

Lemma take_rows_len ps df :
  Forall (fun p => p < len df)%nat ps -> len (take_rows ps df) = length ps.
Proof. intros H. unfold len, take_rows. cbn [index]. now apply take_list_length_in_range. Qed.

Lemma take_rows_equal_lengths ps df :
  equal_lengths df ->
  Forall (fun p => p < len df)%nat ps ->
  equal_lengths (take_rows ps df).
Proof.
  intros H Hps. unfold equal_lengths. rewrite take_rows_len by assumption.
  unfold take_rows. cbn [data]. apply Forall_forall. intros [n s] Hin.
  apply list_elem_of_fmap in Hin as ([n' s'] & [= -> ->] & Hin). cbn [snd].
  unfold equal_lengths in H. rewrite Forall_forall in H. specialize (H _ Hin).
  cbn [snd] in H. apply series_len_take. now rewrite H.
Qed.

Lemma row_all_missing_take ps df j p :
  equal_lengths df ->
  Forall (fun p => p < len df)%nat ps ->
  ps !! j = Some p ->
  row_all_missing (take_rows ps df) j = row_all_missing df p.
Proof.
  intros H Hps Hj. unfold row_all_missing, take_rows. cbn [data].
  unfold equal_lengths in H.
  induction H as [|[n s] d Hs _ IH]; simpl; auto.
  cbn [snd] in Hs. rewrite IH. f_equal.
  rewrite cells_take_series, lookup_take_list, Hj; [reflexivity|].
  now rewrite length_cells, Hs.
Qed.

Lemma kept_rows_in_range df : Forall (fun p => p < len df)%nat (kept_rows df).
Proof.
  apply Forall_forall. intros p Hp. apply list_elem_of_In, filter_In in Hp as [Hp _].
  apply in_seq in Hp. lia.
Qed.

Lemma kept_rows_not_missing df p :
  p ∈ kept_rows df -> row_all_missing df p = false.
Proof.
  intros Hp. apply list_elem_of_In, filter_In in Hp as [_ Hp].
  now apply negb_true_iff in Hp.
Qed.

Lemma dropna_rows_no_missing_row df i :
  equal_lengths df -> (i < len (dropna_rows df))%nat ->
  row_all_missing (dropna_rows df) i = false.
Proof.
  intros H Hi. unfold dropna_rows in *. fold (kept_rows df) in *.
  rewrite take_rows_len in Hi by apply kept_rows_in_range.
  destruct (lookup_lt_is_Some_2 _ _ Hi) as [p Hp].
  rewrite (row_all_missing_take _ _ _ p H (kept_rows_in_range df) Hp).
  apply kept_rows_not_missing. eapply list_elem_of_lookup_2; eauto.
Qed.

Lemma dropna_rows_equal_lengths df :
  equal_lengths df -> equal_lengths (dropna_rows df).
Proof.
  intros H. apply take_rows_equal_lengths; auto. apply kept_rows_in_range.
Qed.

Lemma dropna_rows_id df :
  equal_lengths df ->
  (forall i, (i < len df)%nat -> row_all_missing df i = false) ->
  dropna_rows df = df.
Proof.
  intros H Hrows. unfold dropna_rows. rewrite filter_all; [now apply take_rows_all|].
  apply Forall_forall. intros i Hi. apply list_elem_of_In, in_seq in Hi.
  rewrite Hrows by lia. reflexivity.
Qed.

Lemma dropna_rows_shorter df : (len (dropna_rows df) <= len df)%nat.
Proof.
  unfold dropna_rows. rewrite take_rows_len by apply kept_rows_in_range.
  etransitivity; [apply List.filter_length_le|]. now rewrite length_seq.
Qed.

Lemma reset_index_facts df :
  len (reset_index df) = len df
  /\ data (reset_index df) = data df
  /\ (forall i, row_all_missing (reset_index df) i = row_all_missing df i)
  /\ (equal_lengths df -> equal_lengths (reset_index df)).
Proof.
  unfold reset_index, len, row_all_missing, equal_lengths, len; cbn [index data].
  rewrite length_seq. auto.
Qed.

Lemma strip_columns_facts df :
  len (strip_columns df) = len df
  /\ (forall i, row_all_missing (strip_columns df) i = row_all_missing df i)
  /\ (equal_lengths df -> equal_lengths (strip_columns df)).
Proof.
  unfold strip_columns, len, row_all_missing, equal_lengths, len; cbn [index data].
  split; [reflexivity|]. split.
  - intros i. induction (data df) as [|c d IH]; simpl; auto. now rewrite IH.
  - intros H. apply Forall_forall. intros c Hc.
    apply list_elem_of_fmap in Hc as (c' & -> & Hc'). cbn [snd].
    rewrite Forall_forall in H. now apply H.
Qed.

Lemma kept_rows_strip df : kept_rows (strip_columns df) = kept_rows df.
Proof.
  unfold kept_rows. destruct (strip_columns_facts df) as (-> & Hr & _).
  apply filter_ext. intros i. now rewrite Hr.
Qed.

(** X9. Post-processing of a loaded table with equal-length columns: the
    column names are stripped, the rows without any value are gone and the
    others keep their order under a fresh index 0..n-1; the columns stay of
    equal length; and a second pass changes nothing. *)
Theorem post_process_normalises (df : DataFrame) :
  equal_lengths df ->
  let r := _post_process_dataframe df in
  columns r = map strip (columns df)
  /\ data r = data (take_rows (kept_rows df) (strip_columns df))
  /\ index r = seq 0 (len r)
  /\ (len r <= len df)%nat
  /\ equal_lengths r
  /\ (forall i, (i < len r)%nat -> row_all_missing r i = false)
  /\ _post_process_dataframe r = r.
Proof.
  intros H. cbv zeta. unfold _post_process_dataframe.
  destruct (strip_columns_facts df) as (Hl1 & Hr1 & He1). specialize (He1 H).
  set (d1 := strip_columns df) in *.
  pose proof (dropna_rows_equal_lengths d1 He1) as He2.
  pose proof (dropna_rows_no_missing_row d1) as Hr2.
  pose proof (dropna_rows_shorter d1) as Hs2.
  set (d2 := dropna_rows d1) in *.
  destruct (reset_index_facts d2) as (Hl3 & Hd3 & Hr3 & He3). specialize (He3 He2).
  set (d3 := reset_index d2) in *.
  assert (Hcols : columns d3 = map strip (columns df)).
  { unfold columns. rewrite Hd3. unfold d2, dropna_rows, take_rows, d1, strip_columns.
    cbn [data]. rewrite !map_map. reflexivity. }
  assert (Hrows : forall i, (i < len d3)%nat -> row_all_missing d3 i = false).
  { intros i Hi. rewrite Hr3. apply Hr2; auto. now rewrite <- Hl3. }
  repeat split; auto.
  - rewrite Hd3. unfold d2, dropna_rows. fold (kept_rows d1). unfold d1.
    now rewrite kept_rows_strip.
  - unfold d3, reset_index, len. cbn [index]. now rewrite length_seq.
  - lia.
  - (* a second pass *)
    assert (Hstrip : strip_columns d3 = d3).
    { unfold strip_columns. destruct d3 as [idx dat] eqn:Ed3. cbn [index data]. f_equal.
      assert (Hc : Forall (fun c => strip (fst c) = fst c) dat).
      { assert (Hcc : map fst dat = map strip (columns df)) by exact Hcols.
        clear -Hcc. revert Hcc. generalize (columns df) as names.
        induction dat as [|c dat IH]; intros names Hcc; constructor.
        - destruct names as [|n names]; [discriminate|]. simpl in Hcc.
          injection Hcc as -> _. apply strip_idem.
        - destruct names as [|n names]; [discriminate|]. simpl in Hcc.
          injection Hcc as _ Hcc. eapply IH; eauto. }
      clear -Hc. induction Hc as [|[n x] dat Hn _ IH]; simpl; auto.
      cbn [fst] in Hn. now rewrite Hn, IH. }
    rewrite Hstrip. rewrite (dropna_rows_id d3 He3 Hrows).
    unfold d3, reset_index, len. cbn [data index]. now rewrite length_seq.
Qed.

(** Column removal *)
Lemma dropna_columns_facts df :
  len (dropna_columns df) = len df
  /\ (equal_lengths df -> equal_lengths (dropna_columns df))
  /\ Forall (fun c => col_all_missing (snd c) = false) (data (dropna_columns df)).
Proof.
  unfold dropna_columns, len, equal_lengths, len; cbn [index data].
  split; [reflexivity|]. split.
  - intros H. apply Forall_forall. intros c Hc.
    apply list_elem_of_In, filter_In in Hc as [Hc _].
    rewrite Forall_forall in H. apply H. now apply list_elem_of_In.
  - apply Forall_forall. intros c Hc.
    apply list_elem_of_In, filter_In in Hc as [_ Hc]. now apply negb_true_iff in Hc.
Qed.

Lemma cell_present_col s i :
  cell_missing (cells s !! i) = false -> col_all_missing s = false.
Proof.
  unfold col_all_missing. intros H.
  destruct (cells s !! i) as [c|] eqn:E; [|discriminate].
  destruct (forallb _ (cells s)) eqn:F; auto.
  rewrite forallb_forall in F.
  apply list_elem_of_lookup_2, list_elem_of_In in E. specialize (F c E). congruence.
Qed.

Lemma dropna_columns_rows df i :
  row_all_missing (dropna_columns df) i = row_all_missing df i.
Proof.
  unfold row_all_missing, dropna_columns. cbn [data].
  induction (data df) as [|c d IH]; simpl; auto.
  destruct (col_all_missing (snd c)) eqn:E; simpl.
  - rewrite IH. destruct (cell_missing (cells (snd c) !! i)) eqn:M; auto.
    apply cell_present_col in M. congruence.
  - now rewrite IH.
Qed.

(** X10. Cleaning of a pharmacy table with equal-length columns: afterwards no
    row and no column is entirely missing, the index is 0..n-1, the
    columns are of equal length; and cleaning again changes nothing. *)
Theorem clean_farmacia_data_normalises (df : DataFrame) :
  equal_lengths df ->
  let r := _clean_farmacia_data df in
  index r = seq 0 (len r)
  /\ equal_lengths r
  /\ (forall i, (i < len r)%nat -> row_all_missing r i = false)
  /\ Forall (fun c => col_all_missing (snd c) = false) (data r)
  /\ _clean_farmacia_data r = r.
Proof.
  intros H. cbv zeta. unfold _clean_farmacia_data.
  pose proof (dropna_rows_equal_lengths df H) as He1.
  pose proof (fun i => dropna_rows_no_missing_row df i H) as Hr1.
  set (d1 := dropna_rows df) in *.
  destruct (dropna_columns_facts d1) as (Hl2 & He2 & Hc2). specialize (He2 He1).
  pose proof (dropna_columns_rows d1) as Hr2.
  set (d2 := dropna_columns d1) in *.
  destruct (reset_index_facts d2) as (Hl3 & Hd3 & Hr3 & He3). specialize (He3 He2).
  set (d3 := reset_index d2) in *.
  assert (Hrows : forall i, (i < len d3)%nat -> row_all_missing d3 i = false).
  { intros i Hi. rewrite Hr3, Hr2. apply Hr1. lia. }
  assert (Hcols : Forall (fun c => col_all_missing (snd c) = false) (data d3))
    by now rewrite Hd3.
  repeat split; auto.
  - unfold d3, reset_index, len. cbn [index]. now rewrite length_seq.
  - rewrite (dropna_rows_id d3 He3 Hrows).
    assert (Hdc : dropna_columns d3 = d3).
    { unfold dropna_columns. destruct d3 as [idx dat]. cbn [index data] in *. f_equal.
      apply filter_all. eapply Forall_impl; [exact Hcols|].
      intros c Hc. simpl in Hc. now rewrite Hc. }
    rewrite Hdc. unfold d3, reset_index, len. cbn [data index]. now rewrite length_seq.
Qed.
End IngestionFacts.

Module AnalyzerExtras.
Import DataAnalyzer FrameFacts LowStockFacts.

#[local] Arguments take_list : simpl never.

Lemma not_orderable_text s :
  orderable s = false <-> exists l t, s = Object l /\ Some t ∈ l.
Proof.
  split.
  - destruct s as [l|l|l]; simpl; try discriminate. intros H.
    exists l. induction l as [|[t|] l IH]; simpl in H; try discriminate.
    + exists t. split; auto. apply list_elem_of_here.
    + destruct (IH H) as (t & _ & Ht). exists t. split; auto.
      now apply list_elem_of_further.
  - intros (l & t & -> & Ht). simpl.
    destruct (forallb is_missing l) eqn:E; auto.
    rewrite forallb_forall in E. apply list_elem_of_In in Ht.
    specialize (E _ Ht). discriminate.
Qed.

Lemma identify_low_stock_text df threshold c rest s :
  stock_cols df = c :: rest ->
  getitem df c = Ok s ->
  orderable s = false ->
  _identify_low_stock df threshold = Raise TypeError.
Proof.
  intros Hc Hs Ho. unfold _identify_low_stock. rewrite Hc, Hs. cbn [rbind Ok].
  destruct s as [l|l|l]; simpl in Ho; try discriminate.
  unfold le_scalar, compare_scalar. now rewrite Ho.
Qed.

(** X11. The low-stock selection raises only [TypeError], and exactly when the
    first stock-matching column is an [object] column with a text cell. *)
Theorem identify_low_stock_raises_iff df threshold e :
  _identify_low_stock df threshold = Raise e
  <-> e = TypeError
      /\ exists c rest l t,
           stock_cols df = c :: rest
           /\ getitem df c = Ok (Object l) /\ Some t ∈ l.
Proof.
  destruct (stock_cols df) as [|c rest] eqn:Hc.
  - rewrite (EntryPointFacts.no_stock_column_empty df threshold Hc). split.
    + discriminate.
    + intros (_ & c & rest & l & t & H & _). discriminate.
  - destruct (getitem_column df c (first_stock_col_is_column df c rest Hc)) as [s Hs].
    destruct (orderable s) eqn:Ho.
    + rewrite (identify_low_stock_shape df threshold c rest s Hc Hs Ho). split.
      * discriminate.
      * intros (_ & c' & rest' & l & t & [= <- <-] & Hs' & Ht).
        rewrite Hs in Hs'. injection Hs' as ->.
        assert (orderable (Object l) = false)
          by (apply not_orderable_text; eauto).
        congruence.
    + rewrite (identify_low_stock_text df threshold c rest s Hc Hs Ho). split.
      * intros [= <-]. split; auto.
        apply not_orderable_text in Ho as (l & t & -> & Ht).
        exists c, rest, l, t. auto.
      * now intros [-> _].
Qed.

(** The rows selected, for a table that passes the comparison. *)
Lemma identify_low_stock_rows df threshold c rest s :
  well_formed df ->
  stock_cols df = c :: rest ->
  getitem df c = Ok s ->
  orderable s = true ->
  exists ps,
    _identify_low_stock df threshold = Ok (take_rows ps df)
    /\ ps ≡ₚ low_positions threshold s.
Proof.
  intros Hwf Hc Hs Ho.
  exists (take_list (argsort (take_series (low_positions threshold s) s))
                    (low_positions threshold s)).
  split; [|apply sorted_positions_perm].
  rewrite (identify_low_stock_shape df threshold c rest s Hc Hs Ho). cbv zeta.
  f_equal. apply take_rows_take_rows; auto.
  rewrite <- (wf_series_len df c s Hwf Hs). apply low_positions_in_range.
Qed.

(** X12. Raising the threshold only adds rows: every row that is low stock at
    [t1] is low stock at any [t2 >= t1]; below zero nothing is. *)
Theorem low_stock_monotone df t1 t2 c rest s :
  well_formed df ->
  stock_cols df = c :: rest ->
  getitem df c = Ok s ->
  orderable s = true ->
  (t1 <= t2)%Z ->
  exists ps1 ps2,
    _identify_low_stock df t1 = Ok (take_rows ps1 df)
    /\ _identify_low_stock df t2 = Ok (take_rows ps2 df)
    /\ ps1 ⊆ ps2
    /\ ((t1 < 0)%Z -> ps1 = []).
Proof.
  intros Hwf Hc Hs Ho Ht.
  destruct (identify_low_stock_rows df t1 c rest s Hwf Hc Hs Ho) as (ps1 & H1 & P1).
  destruct (identify_low_stock_rows df t2 c rest s Hwf Hc Hs Ho) as (ps2 & H2 & P2).
  exists ps1, ps2. repeat split; auto.
  - intros i Hi. rewrite P1 in Hi. rewrite P2.
    apply elem_of_low_positions in Hi as (q & Hq & H0 & Hle).
    apply elem_of_low_positions. exists q. repeat split; auto.
    eapply Qle_trans; [exact Hle|]. rewrite <- Zle_Qle. exact Ht.
  - intros Hneg. destruct ps1 as [|p ps1]; auto. exfalso.
    assert (Hp : p ∈ low_positions t1 s) by (rewrite <- P1; apply list_elem_of_here).
    apply elem_of_low_positions in Hp as (q & _ & H0 & Hle).
    assert (Hq : (0 <= inject_Z t1)%Q) by (eapply Qle_trans; eauto).
    change 0%Q with (inject_Z 0) in Hq. rewrite <- Zle_Qle in Hq. lia.
Qed.


Lemma columns_take_rows ps df : columns (take_rows ps df) = columns df.
Proof. unfold columns, take_rows. cbn [data]. now rewrite map_map. Qed.

Lemma take_rows_well_formed ps df :
  well_formed df ->
  Forall (fun p => p < len df)%nat ps ->
  well_formed (take_rows ps df).
Proof.
  intros [Hlen Hnd] Hps. split.
  - unfold len, take_rows. cbn [index data].
    rewrite take_list_length_in_range by assumption.
    apply Forall_forall. intros [n s] Hin.
    apply list_elem_of_fmap in Hin as ([n' s'] & [= -> ->] & Hin). cbn [snd].
    rewrite Forall_forall in Hlen. specialize (Hlen _ Hin). cbn [snd] in Hlen.
    apply series_len_take. now rewrite Hlen.
  - now rewrite columns_take_rows.
Qed.

(** X13. The frame returned by the low-stock selection of a well-formed table
    is well formed and has at most as many rows; with a stock column it has
    the columns of the table, without one it is the empty frame without any
    column. *)
Theorem low_stock_frame_invariants df threshold low :
  well_formed df ->
  _identify_low_stock df threshold = Ok low ->
  well_formed low
  /\ (len low <= len df)%nat
  /\ (stock_cols df <> [] -> columns low = columns df)
  /\ (stock_cols df = [] -> low = empty_frame).
Proof.
  intros Hwf Hlow.
  destruct (stock_cols df) as [|c rest] eqn:Hc.
  - rewrite (EntryPointFacts.no_stock_column_empty df threshold Hc) in Hlow.
    injection Hlow as <-.
    split; [split; constructor|]. split; [unfold len; simpl; lia|].
    split; [congruence|reflexivity].
  - destruct (getitem_column df c (first_stock_col_is_column df c rest Hc)) as [s Hs].
    destruct (orderable s) eqn:Ho.
    2:{ rewrite (identify_low_stock_text df threshold c rest s Hc Hs Ho) in Hlow.
        discriminate. }
    destruct (identify_low_stock_rows df threshold c rest s Hwf Hc Hs Ho)
      as (ps & Hps & Hperm).
    rewrite Hps in Hlow. injection Hlow as <-.
    assert (Hrange : Forall (fun p => p < len df)%nat ps).
    { rewrite Hperm, <- (wf_series_len df c s Hwf Hs). apply low_positions_in_range. }
    split; [apply take_rows_well_formed; auto|].
    split; [|split].
    + unfold len at 1, take_rows. cbn [index].
      rewrite take_list_length_in_range by assumption.
      rewrite Hperm. unfold low_positions.
      pose proof (NoDup_mask_positions_from 0 (map (in_low_stock threshold) (cells s))) as Hnd.
      fold (mask_positions (map (in_low_stock threshold) (cells s))) in Hnd.
      pose proof (mask_positions_in_range (map (in_low_stock threshold) (cells s))) as Hr.
      rewrite length_map, length_cells, (wf_series_len df c s Hwf Hs) in Hr.
      set (l := mask_positions _) in *.
      assert (Hsub : l ⊆ seq 0 (len df)).
      { intros p Hp. rewrite Forall_forall in Hr. specialize (Hr p Hp).
        apply list_elem_of_In, in_seq. lia. }
      pose proof (submseteq_length _ _ (NoDup_submseteq _ _ Hnd Hsub)) as Hle.
      now rewrite length_seq in Hle.
    + intros _. apply columns_take_rows.
    + discriminate.
Qed.

Lemma getitem_vent_col df c rest :
  List.filter is_vent_col (columns df) = c :: rest ->
  exists s, getitem df c = Ok s.
Proof.
  intros H. apply getitem_column.
  now apply (RecommendationFacts.first_vent_col_is_column df c rest).
Qed.

(** X14. The recommendations fail exactly as the low-stock selection at
    threshold 5 fails, with its exception; otherwise they are at most
    three, and none of the other two rules can raise. *)
Theorem recommendations_fail_as_low_stock df :
  (forall e, _generate_recommendations df = Raise e
             <-> _identify_low_stock df 5 = Raise e)
  /\ (forall recs, _generate_recommendations df = Ok recs -> (length recs <= 3)%nat).
Proof.
  unfold _generate_recommendations.
  change (call "_identify_low_stock" (_identify_low_stock df 5))
    with (_identify_low_stock df 5).
  destruct (_identify_low_stock df 5) as [e0|low]; cbn [rbind Ok].
  - split; [|intros recs H; discriminate].
    intros e. unfold Raise. split; intros [= ->]; reflexivity.
  - rewrite app_nil_l.
    destruct (List.filter is_vent_col (columns df)) as [|c rest] eqn:Hcols;
      cbn [rbind Ok].
    + split.
      * intros e. split; intros H; [|discriminate].
        destruct (0 <? missing_total df)%nat; discriminate.
      * intros recs H.
        destruct (0 <? len low)%nat; destruct (0 <? missing_total df)%nat;
          injection H as <-; simpl; lia.
    + destruct (getitem_vent_col df c rest Hcols) as [s ->]. cbn [rbind Ok].
      split.
      * intros e. split; intros H; [|discriminate].
        destruct (exceeds_30_percent _ _); cbn [rbind Ok] in H;
          destruct (0 <? missing_total df)%nat; discriminate.
      * intros recs H.
        destruct (exceeds_30_percent _ _); cbn [rbind Ok] in H;
          destruct (0 <? len low)%nat; destruct (0 <? missing_total df)%nat;
          injection H as <-; simpl; lia.
Qed.

(** The loop of [_analyze_sales] with the class's undefined callee. *)
Lemma sales_loop_undefined df cols acc :
  Forall (fun c => c ∈ columns df) cols ->
  (sales_loop (fun _ => call "_get_top_products" undefined) df cols acc
   = Raise (AttributeError "_get_top_products")
   /\ exists col s, col ∈ cols /\ getitem df col = Ok s
                    /\ is_int64_or_float64 s = true)
  \/ (sales_loop (fun _ => call "_get_top_products" undefined) df cols acc = Ok acc
      /\ forall col s, col ∈ cols -> getitem df col = Ok s ->
                        is_int64_or_float64 s = false).
Proof.
  induction 1 as [|c cols Hc _ IH].
  - right. split; [reflexivity|]. intros col s Hin. inversion Hin.
  - cbn [sales_loop]. destruct (getitem_column df c Hc) as [s Hs].
    rewrite Hs. cbn [rbind Ok]. destruct (is_int64_or_float64 s) eqn:Hnum.
    + left. split; [reflexivity|]. exists c, s. split; auto. apply list_elem_of_here.
    + destruct IH as [(-> & col & s' & Hin & Hs' & Hn)|(-> & Hall)].
      * left. split; auto. exists col, s'. split; auto. now apply list_elem_of_further.
      * right. split; auto. intros col s' Hin Hs'.
        apply elem_of_cons in Hin as [->|Hin]; [|eauto].
        rewrite Hs in Hs'. now injection Hs' as <-.
Qed.

(** X15. The sales analysis of the class as written raises [AttributeError]
    exactly when some sales-like column has dtype int64 or float64;
    otherwise it returns the ['error'] entry (no sales-like column) or an
    empty dictionary (only non-numeric ones). *)
Theorem analyze_sales_fails_on_numeric_column df :
  (forall e, _analyze_sales df = Raise e
             <-> e = AttributeError "_get_top_products"
                 /\ exists col s, is_sales_col col = true
                                  /\ getitem df col = Ok s
                                  /\ is_int64_or_float64 s = true)
  /\ (forall r, _analyze_sales df = Ok r ->
        (r = SalesError "No se encontraron columnas de ventas"
         /\ List.filter is_sales_col (columns df) = [])
        \/ (r = SalesByColumn ∅ /\ List.filter is_sales_col (columns df) <> [])).
Proof.
  unfold _analyze_sales, _analyze_sales_with.
  pose proof (SalesFacts.filter_sales_cols_are_columns df) as Hcols.
  assert (Hmem : forall col, col ∈ List.filter is_sales_col (columns df)
                             <-> col ∈ columns df /\ is_sales_col col = true).
  { intros col. rewrite !list_elem_of_In. apply filter_In. }
  destruct (List.filter is_sales_col (columns df)) as [|c rest] eqn:Hf.
  - split.
    + intros e. split; [discriminate|].
      intros (_ & col & s & Hsales & Hs & _). exfalso.
      assert (Hin : col ∈ @nil string).
      { apply Hmem. split; auto. apply getitem_In in Hs.
        apply list_elem_of_fmap. now exists (col, s). }
      inversion Hin.
    + intros r [= <-]. left. auto.
  - destruct (sales_loop_undefined df (c :: rest) ∅ Hcols)
      as [(-> & col & s & Hin & Hs & Hn)|(-> & Hall)]; cbn [rbind Ok].
    + split.
      * intros e. split.
        -- intros [= <-]. split; auto. exists col, s. repeat split; auto.
           now apply Hmem in Hin.
        -- now intros [-> _].
      * intros r H. discriminate.
    + split.
      * intros e. split; [discriminate|].
        intros (_ & col & s & Hsales & Hs & Hn). exfalso.
        assert (Hin : col ∈ c :: rest).
        { apply Hmem. split; auto. apply getitem_In in Hs.
          apply list_elem_of_fmap. now exists (col, s). }
        rewrite (Hall col s Hin Hs) in Hn. discriminate.
      * intros r [= <-]. right. split; auto.
Qed.
End AnalyzerExtras.


Module BasicStatsFacts.
Import DataAnalyzer FrameFacts.

Lemma isnull_sum_le s : (isnull_sum s <= series_len s)%nat.
Proof.
  unfold isnull_sum. rewrite <- length_cells. apply List.filter_length_le.
Qed.

Lemma missing_total_le df :
  equal_lengths df -> (missing_total df <= len df * length (columns df))%nat.
Proof.
  unfold equal_lengths, missing_total, columns. rewrite length_map.
  induction 1 as [|c d Hc _ IH]; simpl; [lia|].
  pose proof (isnull_sum_le (snd c)). rewrite Hc in H. lia.
Qed.

Lemma count_duplicated_le seen rs : (count_duplicated seen rs <= length rs)%nat.
Proof.
  revert seen. induction rs as [|r rs IH]; intros seen; simpl; [lia|].
  specialize (IH (r :: seen)). destruct (existsb _ seen); lia.
Qed.

Lemma filter_partition_le {A} (f g : A -> bool) (l : list A) :
  (forall x, f x = true -> g x = true -> False) ->
  (length (List.filter f l) + length (List.filter g l) <= length l)%nat.
Proof.
  intros H. induction l as [|x l IH]; simpl; [lia|].
  destruct (f x) eqn:Ef, (g x) eqn:Eg; simpl; try lia.
  destruct (H x Ef Eg).
Qed.

(** X17. The basic statistics of a table with equal-length columns: the
    missing values are at most rows times columns, the duplicated rows are
    fewer than the rows (the first row is never a duplicate), and the
    numeric and the categorical columns together are at most all columns. *)
Theorem basic_statistics_bounds df :
  equal_lengths df ->
  let st := _get_basic_statistics df in
  (missing_values st <= total_rows st * total_columns st)%nat
  /\ ((0 < total_rows st)%nat -> (duplicate_rows st < total_rows st)%nat)
  /\ (total_rows st = 0%nat -> duplicate_rows st = 0%nat)
  /\ (numeric_columns st + categorical_columns st <= total_columns st)%nat.
Proof.
  intros H. cbv zeta. unfold _get_basic_statistics.
  cbn [missing_values total_rows total_columns duplicate_rows numeric_columns
       categorical_columns].
  assert (Hrows : length (rows df) = len df)
    by (unfold rows; now rewrite length_map, length_seq).
  split; [now apply missing_total_le|]. split; [|split].
  - intros Hpos. destruct (rows df) as [|r rs] eqn:E; simpl in Hrows; [lia|].
    cbn [count_duplicated existsb]. pose proof (count_duplicated_le [r] rs). lia.
  - intros H0. destruct (rows df) as [|r rs] eqn:E; simpl in Hrows; [reflexivity|lia].
  - unfold columns. rewrite length_map. apply filter_partition_le.
    intros [n s]; destruct s; simpl; discriminate.
Qed.

End BasicStatsFacts.

Module ReportFacts.
Import DataAnalyzer FrameFacts ReportGenerator.

Lemma compare_scalar_numeric op s v :
  is_int64_or_float64 s = true ->
  compare_scalar op s v = Ok (map (on_num (fun q => op q (inject_Z v))) (cells s)).
Proof.
  destruct s as [l|l|l]; simpl; try discriminate; intros _; f_equal.
  - now rewrite map_map.
  - rewrite map_map. apply map_ext. now intros [q|].
Qed.

Lemma eq_scalar_on_num s v :
  eq_scalar s v = map (on_num (fun q => Qeq_bool q (inject_Z v))) (cells s).
Proof. reflexivity. Qed.

Lemma count_true_cons b l :
  count_true (b :: l) = ((if b then 1 else 0) + count_true l)%nat.
Proof. unfold count_true. simpl. now destruct b. Qed.

Lemma Qle_bool_false a b : Qle_bool a b = false -> (b < a)%Q.
Proof.
  intros H. apply Qnot_le_lt. intros Hle. apply Qle_bool_iff in Hle. congruence.
Qed.

Ltac q_cases :=
  repeat match goal with
         | |- context [Qle_bool ?a ?b] =>
             let E := fresh "E" in
             destruct (Qle_bool a b) eqn:E;
             [apply Qle_bool_iff in E | apply Qle_bool_false in E]
         | |- context [Qeq_bool ?a ?b] =>
             let E := fresh "E" in
             destruct (Qeq_bool a b) eqn:E;
             [apply Qeq_bool_iff in E | apply Qeq_bool_neq in E]
         end.

Lemma stock_classes_cell (q : Q) :
  ((if Qeq_bool q (inject_Z 0) then 1 else 0)
   + (if negb (Qle_bool q (inject_Z 0)) && Qle_bool q (inject_Z 5) then 1 else 0)
   + (if negb (Qle_bool q (inject_Z 5)) && Qle_bool q (inject_Z 20) then 1 else 0)
   + (if negb (Qle_bool q (inject_Z 20)) then 1 else 0)
   = if Qle_bool 0 q then 1 else 0)%nat
  /\ ((if Qle_bool q (inject_Z 5) && Qle_bool 0 q then 1 else 0)
      = (if Qeq_bool q (inject_Z 0) then 1 else 0)
        + (if negb (Qle_bool q (inject_Z 0)) && Qle_bool q (inject_Z 5) then 1 else 0))%nat.
Proof.
  change (inject_Z 0) with 0%Q.
  assert (H5 : (inject_Z 5 == 5)%Q) by reflexivity.
  assert (H20 : (inject_Z 20 == 20)%Q) by reflexivity.
  q_cases; cbn [negb andb]; split; try reflexivity; exfalso;
    rewrite ?H5, ?H20 in *; try lra;
    match goal with H : ~ (_ == _)%Q |- _ => apply H; lra end.
Qed.

(** X18. The four stock classes of the sheet [Analisis_Stock] (none, low,
    medium, high) count each non-negative value of a numeric column once;
    and the analyzer's low stock at threshold 5 is the classes none and low
    together. *)
Theorem stock_classes_partition (s : series) :
  is_int64_or_float64 s = true ->
  exists st,
    stock_stats_of s = Ok st
    /\ (sin_stock st + stock_bajo st + stock_medio st + stock_alto st
        = count_non_negative s)%nat
    /\ (length (low_positions 5 s) = sin_stock st + stock_bajo st)%nat.
Proof.
  intros Hnum. unfold stock_stats_of, gt_scalar, le_scalar.
  rewrite !(compare_scalar_numeric _ s _ Hnum). cbn [rbind Ok].
  eexists. split; [reflexivity|]. cbn [sin_stock stock_bajo stock_medio stock_alto].
  rewrite !LowStockFacts.mask_and_map, eq_scalar_on_num.
  unfold count_non_negative, low_positions.
  assert (Hpos : forall mask, length (mask_positions mask) = count_true mask).
  { intros mask. unfold mask_positions. generalize 0%nat.
    induction mask as [|b mask IH]; intros k; [reflexivity|].
    cbn [mask_positions_from]. rewrite length_app, IH, count_true_cons.
    now destruct b. }
  rewrite Hpos.
  induction (cells s) as [|c l [IH1 IH2]]; [split; reflexivity|].
  cbn [map]. rewrite !count_true_cons.
  destruct c as [q|t|]; cbn [on_num in_low_stock andb]; try (split; lia).
  destruct (stock_classes_cell q) as [H1 H2]. split; lia.
Qed.


(** X19. The alert sheet compares the stock with [<= 5] only: for a table whose
    stock column is numeric it lists the analyzer's low-stock rows and, in
    addition, exactly the rows with a negative stock. *)
Theorem alerts_include_negative_stock df c rest s :
  stock_cols df = c :: rest ->
  getitem df c = Ok s ->
  is_int64_or_float64 s = true ->
  exists ps,
    alerts_low_stock df = Ok (Some (take_rows ps df))
    /\ forall i, i ∈ ps
                 <-> i ∈ low_positions 5 s
                     \/ exists q, cells s !! i = Some (Num q) /\ (q < 0)%Q.
Proof.
  intros Hc Hs Hnum. unfold alerts_low_stock. fold (stock_cols df).
  rewrite Hc, Hs. cbn [rbind Ok]. unfold le_scalar.
  rewrite (compare_scalar_numeric _ s _ Hnum). cbn [rbind Ok].
  eexists. split; [reflexivity|]. intros i.
  rewrite elem_of_mask_positions, list_lookup_fmap, LowStockFacts.elem_of_low_positions.
  destruct (cells s !! i) as [[q|t|]|]; cbn [fmap option_fmap option_map on_num].
  - split.
    + intros [= H]. apply Qle_bool_iff in H.
      destruct (Qlt_le_dec q 0) as [Hneg|Hpos]; [right|left]; eauto.
    + intros [(q' & [= <-] & _ & H)|(q' & [= <-] & H)]; f_equal; apply Qle_bool_iff; auto.
      apply Qlt_le_weak. eapply Qlt_le_trans; [exact H|]. discriminate.
  - split; [discriminate|]. intros [(q' & [=] & _)|(q' & [=] & _)].
  - split; [discriminate|]. intros [(q' & [=] & _)|(q' & [=] & _)].
  - split; [discriminate|]. intros [(q' & [=] & _)|(q' & [=] & _)].
Qed.

End ReportFacts.

Module RotationExtras.
Import Rotation RotationFacts.

Lemma missing_labels_absent df names :
  Forall (fun n => n ∈ columns df) names ->
  forall pre, missing_labels df (pre ++ names) = missing_labels df pre.
Proof.
  intros H pre. unfold missing_labels. rewrite List.filter_app.
  rewrite (absent_filter_present df names H). now rewrite app_nil_r.
Qed.

Lemma elem_of_unique l x : x ∈ unique l <-> x ∈ l.
Proof.
  rewrite !list_elem_of_In.
  induction l as [|a l IH]; [reflexivity|].
  cbn [unique In]. rewrite filter_In, IH, negb_true_iff. split.
  - intros [->|[H _]]; auto.
  - intros [->|H]; [now left|].
    destruct (String.eqb_spec a x) as [->|Hne]; [now left|right; auto].
Qed.

Lemma elem_of_missing_labels df names n :
  n ∈ missing_labels df names <-> n ∈ names /\ n ∉ columns df.
Proof.
  unfold missing_labels. rewrite elem_of_unique.
  rewrite !list_elem_of_In, filter_In, negb_true_iff.
  rewrite <- !list_elem_of_In, <- has_column_spec.
  destruct (existsb (String.eqb n) (columns df)); intuition congruence.
Qed.

(** X20. With a column finder supplied that names numeric sales and stock
    columns, the function selects the columns [Producto] and [Laboratorio]
    by their exact names: on a table without a column named [Producto] the
    selection of line 181 raises one [KeyError] that names every absent
    label of the two, [Producto] among them, even though the quotients
    were computed; and with a finder that finds nothing the result is the
    empty frame. *)
Theorem rotation_needs_producto_column
    (find_column : DataFrame -> list string -> option string)
    (df : DataFrame) (sales_col stock_col : string) (sales stock : series) :
  find_column df ["cajas vend. total"] = Some sales_col ->
  find_column df ["cajas stock total"] = Some stock_col ->
  sales_col <> "" -> stock_col <> "" ->
  getitem df sales_col = Ok sales ->
  getitem df stock_col = Ok stock ->
  DataAnalyzer.is_number sales = true ->
  DataAnalyzer.is_number stock = true ->
  "Producto" ∉ columns df ->
  _analyze_product_rotation find_column df
  = Raise (KeyErrorNotInIndex (missing_labels df ["Producto"; "Laboratorio"]))
  /\ (forall n, n ∈ missing_labels df ["Producto"; "Laboratorio"]
                <-> (n = "Producto" \/ n = "Laboratorio") /\ n ∉ columns df)
  /\ _analyze_product_rotation (fun _ _ => None) df = Ok (mkRotation [] [] []).
Proof.
  intros Hfs Hfk Hs Hk Hsales Hstock Hns Hnk Hp.
  split; [|split; [|reflexivity]].
  - destruct (rotation_reaches_selection find_column df sales_col stock_col
                sales stock Hfs Hfk Hs Hk Hsales Hstock Hns Hnk)
      as (rot & _ & ->).
    unfold select_columns.
    assert (Hpresent : Forall (fun n => n ∈ columns df) [sales_col; stock_col]).
    { repeat constructor; eauto using getitem_is_column. }
    change ["Producto"; "Laboratorio"; sales_col; stock_col]
      with (["Producto"; "Laboratorio"] ++ [sales_col; stock_col]).
    rewrite (missing_labels_absent df _ Hpresent).
    assert (Hin : "Producto" ∈ missing_labels df ["Producto"; "Laboratorio"]).
    { apply elem_of_missing_labels. split; [apply list_elem_of_here|exact Hp]. }
    destruct (missing_labels df ["Producto"; "Laboratorio"]) as [|m ms];
      [inversion Hin|reflexivity].
  - intros n. rewrite elem_of_missing_labels.
    rewrite elem_of_cons, list_elem_of_singleton. reflexivity.
Qed.

Lemma cut_non_negative q :
  (0 <= q)%Q ->
  exists label, cut (Fin q) = Some label
                /\ ((q == 0)%Q -> label = "Sin ventas")
                /\ ((5 < q)%Q -> label = "Muy Alta").
Proof.
  intros H. unfold cut.
  destruct (Qle_bool q (-1)) eqn:E1.
  { apply Qle_bool_iff in E1. exfalso. lra. }
  destruct (Qle_bool q (1 # 10)) eqn:E2.
  { apply Qle_bool_iff in E2. eexists. split; [reflexivity|]. split; auto.
    intros H5. exfalso. lra. }
  apply ReportFacts.Qle_bool_false in E2.
  destruct (Qle_bool q (1 # 2)) eqn:E3.
  { apply Qle_bool_iff in E3. eexists. split; [reflexivity|].
    split; intros H'; exfalso; [rewrite H' in E2|]; lra. }
  destruct (Qle_bool q 1) eqn:E4.
  { apply Qle_bool_iff in E4. eexists. split; [reflexivity|].
    split; intros H'; exfalso; [rewrite H' in E2|]; lra. }
  destruct (Qle_bool q 5) eqn:E5.
  { apply Qle_bool_iff in E5. eexists. split; [reflexivity|].
    split; intros H'; exfalso; [rewrite H' in E2|]; lra. }
  eexists. split; [reflexivity|]. split; auto.
  intros H'. exfalso. rewrite H' in E2. lra.
Qed.

Lemma turnover_non_negative x y : (0 <= x)%Q -> (0 <= y)%Q -> (0 <= turnover x y)%Q.
Proof.
  intros Hx Hy. unfold turnover.
  destruct (Qeq_bool y 0) eqn:E.
  - apply Qle_shift_div_l; [reflexivity|]. lra.
  - apply Qeq_bool_neq in E. apply Qle_shift_div_l; [|lra].
    destruct (Qle_lt_or_eq _ _ Hy) as [H|H]; auto. exfalso. apply E. now symmetry.
Qed.

(** X21. Every row with non-negative sales and stock gets a rotation label: a
    row without sales is ['Sin ventas'], and a row out of stock that sold
    more than five boxes is ['Muy Alta']. *)
Theorem rotation_labels
    (find_column : DataFrame -> list string -> option string)
    (df : DataFrame) (sales_col stock_col : string) (sales stock : series) :
  find_column df ["cajas vend. total"] = Some sales_col ->
  find_column df ["cajas stock total"] = Some stock_col ->
  sales_col <> "" -> stock_col <> "" ->
  getitem df sales_col = Ok sales ->
  getitem df stock_col = Ok stock ->
  DataAnalyzer.is_number sales = true ->
  DataAnalyzer.is_number stock = true ->
  "Producto" ∈ columns df -> "Laboratorio" ∈ columns df ->
  exists r,
    _analyze_product_rotation find_column df = Ok r
    /\ forall i x y,
         cells sales !! i = Some (Num x) -> cells stock !! i = Some (Num y) ->
         (0 <= x)%Q -> (0 <= y)%Q ->
         exists label,
           estado_rotacion r !! i = Some (Some label)
           /\ ((x == 0)%Q -> label = "Sin ventas")
           /\ ((y == 0)%Q -> (5 < x)%Q -> label = "Muy Alta").
Proof.
  intros Hfs Hfk Hs Hk Hsales Hstock Hns Hnk Hp Hl.
  destruct (truediv_cells_replaced (cells sales) (cells stock)
              (numeric_cells _ Hns) (numeric_cells _ Hnk)) as (rot & Hrot & _ & Hrows).
  assert (Hcols : Forall (fun n => n ∈ columns df)
                    ["Producto"; "Laboratorio"; sales_col; stock_col]).
  { repeat constructor; auto.
    - apply FrameFacts.getitem_In in Hsales.
      apply list_elem_of_fmap. now exists (sales_col, sales).
    - apply FrameFacts.getitem_In in Hstock.
      apply list_elem_of_fmap. now exists (stock_col, stock). }
  destruct (select_columns_present df _ Hcols) as [sel Hsel].
  exists (mkRotation sel rot (map cut rot)). split.
  { unfold _analyze_product_rotation, rotation_of. rewrite Hfs, Hfk. unfold truthy.
    apply String.eqb_neq in Hs, Hk. rewrite Hs, Hk.
    cbn [negb andb default from_option id].
    rewrite Hsales, Hstock. cbn [rbind Ok]. rewrite Hrot. cbn [rbind Ok].
    rewrite Hsel. reflexivity. }
  intros i x y Hx Hy Hx0 Hy0. cbn [estado_rotacion].
  rewrite list_lookup_fmap, (Hrows i x y Hx Hy). cbn [fmap option_fmap option_map].
  destruct (cut_non_negative (turnover x y) (turnover_non_negative x y Hx0 Hy0))
    as (label & Hcut & Hzero & Hhigh).
  exists label. split; [now rewrite Hcut|]. split.
  - intros E. apply Hzero. unfold turnover. rewrite E. unfold Qdiv. ring.
  - intros E H5. apply Hhigh. unfold turnover.
    assert (Eb : Qeq_bool y 0 = true) by now apply Qeq_bool_iff.
    rewrite Eb. assert (E1 : (x / 1 == x)%Q) by (unfold Qdiv; change (/ 1)%Q with 1%Q; ring).
    now rewrite E1.
Qed.

(** X24. The zero-stock convention of line 174, with a column finder
    supplied that names numeric sales and stock columns: in every row whose
    stock is exactly 0 the rotation is the sales value of the row (sales
    10 give 10, sales 0 give 0; the value is taken within the range in
    which an [int64] is a [float64] without rounding), and no rotation is
    infinite. *)
Theorem zero_stock_counts_as_one
    (find_column : DataFrame -> list string -> option string)
    (df : DataFrame) (sales_col stock_col : string) (sales stock : series) :
  find_column df ["cajas vend. total"] = Some sales_col ->
  find_column df ["cajas stock total"] = Some stock_col ->
  sales_col <> "" -> stock_col <> "" ->
  getitem df sales_col = Ok sales ->
  getitem df stock_col = Ok stock ->
  DataAnalyzer.is_number sales = true ->
  DataAnalyzer.is_number stock = true ->
  "Producto" ∈ columns df -> "Laboratorio" ∈ columns df ->
  exists r,
    _analyze_product_rotation find_column df = Ok r
    /\ (forall i x y,
          cells sales !! i = Some (Num x) -> cells stock !! i = Some (Num y) ->
          (y == 0)%Q ->
          (- inject_Z (2 ^ 53) <= x)%Q -> (x <= inject_Z (2 ^ 53))%Q ->
          exists v, rotacion r !! i = Some (Fin v) /\ (v == x)%Q)
    /\ Forall (fun v => v <> PInf /\ v <> NInf) (rotacion r).
Proof.
  intros Hfs Hfk Hs Hk Hsales Hstock Hns Hnk Hp Hl.
  destruct (truediv_cells_replaced (cells sales) (cells stock)
              (numeric_cells _ Hns) (numeric_cells _ Hnk))
    as (rot & Hrot & Hfin & Hrows).
  assert (Hcols : Forall (fun n => n ∈ columns df)
                    ["Producto"; "Laboratorio"; sales_col; stock_col]).
  { repeat constructor; eauto using getitem_is_column. }
  destruct (select_columns_present df _ Hcols) as [sel Hsel].
  destruct (rotation_reaches_selection find_column df sales_col stock_col
              sales stock Hfs Hfk Hs Hk Hsales Hstock Hns Hnk)
    as (rot' & Hrot' & Hrun).
  rewrite Hrot in Hrot'. injection Hrot' as <-.
  exists (mkRotation sel rot (map cut rot)).
  split; [rewrite Hrun, Hsel; reflexivity|].
  split; [|exact Hfin].
  intros i x y Hx Hy Hzero _ _. cbn [rotacion].
  exists (turnover x y). split; [now apply Hrows|].
  unfold turnover.
  assert (Eb : Qeq_bool y 0 = true) by now apply Qeq_bool_iff.
  rewrite Eb. unfold Qdiv. change (/ 1)%Q with 1%Q. ring.
Qed.
End RotationExtras.

Module AnomaliesFacts.
Import Anomalies FrameFacts.

#[local] Arguments take_list : simpl never.

Lemma dropna_plus_isnull s :
  DataAnalyzer.is_number s = true ->
  (length (Stats.dropna s) + isnull_sum s = series_len s)%nat.
Proof.
  intros H. unfold Stats.dropna, isnull_sum. rewrite <- length_cells.
  pose proof (RotationFacts.numeric_cells s H) as Hn.
  induction Hn as [|c l Hc _ IH]; [reflexivity|].
  cbn [omap list_omap List.filter length].
  destruct c as [q|t|]; cbn [length]; [lia|destruct (Hc t eq_refl)|lia].
Qed.

Lemma take_list_length_le {A} ps (l : list A) :
  (length (take_list ps l) <= length ps)%nat.
Proof.
  induction ps as [|p ps IH]; [reflexivity|].
  rewrite take_list_cons. destruct (l !! p); cbn [length]; lia.
Qed.

Lemma mask_positions_length mask : length (mask_positions mask) = count_true mask.
Proof.
  unfold mask_positions. generalize 0%nat.
  induction mask as [|b mask IH]; intros k; [reflexivity|].
  cbn [mask_positions_from]. rewrite length_app, IH, ReportFacts.count_true_cons.
  now destruct b.
Qed.


Lemma boolean_index_len_le df mask :
  length mask = len df -> (len (boolean_index df mask) <= len df)%nat.
Proof.
  intros H. unfold boolean_index, len at 1, take_rows. cbn [index].
  etransitivity; [apply take_list_length_le|].
  rewrite mask_positions_length, <- H. apply RecommendationFacts.count_true_le.
Qed.

Lemma head_len_le df : (len (head df) <= 5)%nat.
Proof.
  unfold head, len at 1, take_rows. cbn [index].
  etransitivity; [apply take_list_length_le|]. rewrite length_seq. lia.
Qed.

Lemma getitem_of_pair df c s :
  NoDup (columns df) -> (c, s) ∈ data df -> getitem df c = Ok s.
Proof.
  unfold columns, getitem. induction (data df) as [|[n x] d IH]; intros Hnd Hin.
  - inversion Hin.
  - cbn [map fst] in Hnd. apply NoDup_cons in Hnd as [Hn Hnd].
    cbn [find fst]. apply elem_of_cons in Hin as [[= <- <-]|Hin].
    + now rewrite String.eqb_refl.
    + destruct (String.eqb n c) eqn:E.
      * apply String.eqb_eq in E. subst n. exfalso. apply Hn.
        apply list_elem_of_fmap. now exists (c, s).
      * now apply IH.
Qed.

Section Loop.

Variable zscore_gt_3 : list Q -> list bool.
Variable iqr_outlier : series -> list bool.
Hypothesis zscore_length : forall xs, length (zscore_gt_3 xs) = length xs.
Hypothesis iqr_length : forall s, length (iqr_outlier s) = series_len s.

Lemma anomalies_loop_spec df cols acc :
  Forall (numeric_column df) cols ->
  (forall col en, acc !! col = Some en -> entry_bounded df en) ->
  ((exists got, anomalies_loop zscore_gt_3 iqr_outlier df cols acc
                = inl (ItemWrongLength got (len df)) /\ (got < len df)%nat)
   /\ exists col s, col ∈ cols /\ getitem df col = Ok s /\ (0 < isnull_sum s)%nat)
  \/ ((exists m, anomalies_loop zscore_gt_3 iqr_outlier df cols acc = inr m
                  /\ forall col en, m !! col = Some en -> entry_bounded df en)
      /\ forall col s, col ∈ cols -> getitem df col = Ok s -> isnull_sum s = 0%nat).
Proof.
  intros H. revert acc. induction H as [|c cols (s & Hs & Hnum & Hlen) _ IH]; intros acc Hacc.
  - right. split; [exists acc; auto|]. intros col s Hin. inversion Hin.
  - cbn [anomalies_loop]. rewrite Hs. unfold Ok. cbv iota beta zeta.
    unfold getitem_array. rewrite zscore_length.
    pose proof (dropna_plus_isnull s Hnum) as Hsum. rewrite Hlen in Hsum.
    destruct (Nat.eqb_spec (length (Stats.dropna s)) (len df)) as [E|E].
    + set (en := mkAnomaly _ _ _).
      assert (Hen : entry_bounded df en).
      { unfold en, entry_bounded. cbn [z_score_anomalies iqr_anomalies samples].
        split; [|split].
        - apply boolean_index_len_le. now rewrite zscore_length.
        - apply boolean_index_len_le. now rewrite iqr_length.
        - apply head_len_le. }
      destruct (IH (<[c:=en]> acc)) as [[Hfail (col & s' & Hin & Hs' & Hnull)]|[Hok Hall]].
      * intros col en'. destruct (decide (c = col)) as [->|Hne].
        -- rewrite lookup_insert_eq. now intros [= <-].
        -- rewrite lookup_insert_ne by assumption. apply Hacc.
      * left. split; [exact Hfail|]. exists col, s'. split; auto.
        now apply list_elem_of_further.
      * right. split; [exact Hok|]. intros col s' Hin Hs'.
        apply elem_of_cons in Hin as [->|Hin]; [|eauto].
        rewrite Hs in Hs'. injection Hs' as <-. lia.
    + left. split.
      * exists (length (Stats.dropna s)). split; [reflexivity|]. lia.
      * exists c, s. split; [apply list_elem_of_here|]. split; auto. lia.
Qed.

End Loop.

(** X22. On a well-formed table the anomaly detection raises exactly when a
    numeric column has a missing value: the z-score flags of the remaining
    values are then too few to index the table, and the error is "Item
    wrong length".  When it returns, every entry counts at most as many
    outliers as there are rows, and carries at most five sample rows. *)
Theorem detect_anomalies_fails_on_missing_values
    (zscore_gt_3 : list Q -> list bool) (iqr_outlier : series -> list bool)
    (df : DataFrame) :
  (forall xs, length (zscore_gt_3 xs) = length xs) ->
  (forall s, length (iqr_outlier s) = series_len s) ->
  well_formed df ->
  ((exists e, _detect_anomalies zscore_gt_3 iqr_outlier df = inl e)
   <-> exists col s, (col, s) ∈ data df /\ DataAnalyzer.is_number s = true
                     /\ (0 < isnull_sum s)%nat)
  /\ (forall e, _detect_anomalies zscore_gt_3 iqr_outlier df = inl e ->
                exists got, e = ItemWrongLength got (len df) /\ (got < len df)%nat)
  /\ (forall m col en,
        _detect_anomalies zscore_gt_3 iqr_outlier df = inr m ->
        m !! col = Some en ->
        (z_score_anomalies en <= len df)%nat
        /\ (iqr_anomalies en <= len df)%nat
        /\ (len (samples en) <= 5)%nat).
Proof.
  intros Hz Hi [Hlen Hnd]. unfold _detect_anomalies.
  set (cols := map fst (List.filter (fun c => DataAnalyzer.is_number (snd c)) (data df))).
  assert (Hmem : forall col, col ∈ cols
                   <-> exists s, (col, s) ∈ data df /\ DataAnalyzer.is_number s = true).
  { intros col. unfold cols. rewrite list_elem_of_fmap. split.
    - intros ([n s] & -> & Hin). apply list_elem_of_In, filter_In in Hin as [Hin Hn].
      exists s. split; auto. now apply list_elem_of_In.
    - intros (s & Hin & Hn). exists (col, s). split; auto.
      apply list_elem_of_In, filter_In. split; auto. now apply list_elem_of_In. }
  assert (Hcols : Forall (numeric_column df) cols).
  { apply Forall_forall. intros col Hcol. apply Hmem in Hcol as (s & Hin & Hn).
    exists s. split; [now apply getitem_of_pair|]. split; auto.
    rewrite Forall_forall in Hlen. now specialize (Hlen _ Hin). }
  destruct (anomalies_loop_spec zscore_gt_3 iqr_outlier Hz Hi df cols ∅ Hcols)
    as [[(got & -> & Hgot) (col & s & Hin & Hs & Hnull)]|[(m & -> & Hm) Hall]].
  { intros col en H. rewrite lookup_empty in H. discriminate. }
  - split; [|split].
    + split; [|eauto]. intros _.
      apply Hmem in Hin as (s' & Hin' & Hn').
      rewrite (getitem_of_pair df col s' Hnd Hin') in Hs. injection Hs as ->.
      eauto.
    + intros e [= <-]. eauto.
    + intros m col' en H. discriminate.
  - split; [|split].
    + split; [intros [e H]; discriminate|].
      intros (col & s & Hin & Hn & Hnull). exfalso.
      assert (Hc : col ∈ cols) by (apply Hmem; eauto).
      rewrite (Hall col s Hc (getitem_of_pair df col s Hnd Hin)) in Hnull. lia.
    + intros e H. discriminate.
    + intros m' col en [= <-] Hen. apply (Hm col en Hen).
Qed.

End AnomaliesFacts.

(** ** The further properties at concrete tables *)

Module ExtraWitnesses.
Import DataAnalyzer.

Ltac decided := apply (bool_decide_unpack _); vm_compute; exact I.

Lemma mapping_sound_witness :
  "Stock Total" ∈ ["Producto"; "Stock Total"]
  /\ exists names p, ("stock", names) ∈ COMMON_SALES_COLS /\ p ∈ names
                     /\ hits p "Stock Total" = true.
Proof.
  apply (ResolverExtras.mapping_sound COMMON_SALES_COLS
           ["Producto"; "Stock Total"] "stock" "Stock Total").
  vm_compute. reflexivity.
Defined.

Lemma more_columns_keep_roles_resolved_witness :
  is_Some (DataLoader.get_column_mapping_with COMMON_SALES_COLS
             (["Id"] ++ ["Stock"] ++ ["Notas"]) !! "stock").
Proof.
  apply (ResolverExtras.more_columns_keep_roles_resolved COMMON_SALES_COLS
           ["Id"] ["Stock"] ["Notas"] "stock").
  exists "Stock". vm_compute. reflexivity.
Defined.

Lemma post_process_normalises_witness :
  let r := Ingestion._post_process_dataframe df_padded in
  columns r = map Ingestion.strip (columns df_padded)
  /\ data r = data (take_rows (kept_rows df_padded) (Ingestion.strip_columns df_padded))
  /\ index r = seq 0 (len r)
  /\ (len r <= len df_padded)%nat
  /\ equal_lengths r
  /\ (forall i, (i < len r)%nat -> Ingestion.row_all_missing r i = false)
  /\ Ingestion._post_process_dataframe r = r.
Proof.
  apply (IngestionFacts.post_process_normalises df_padded).
  repeat constructor.
Defined.

Lemma clean_farmacia_data_normalises_witness :
  let r := Ingestion._clean_farmacia_data df_sparse in
  index r = seq 0 (len r)
  /\ equal_lengths r
  /\ (forall i, (i < len r)%nat -> Ingestion.row_all_missing r i = false)
  /\ Forall (fun c => Ingestion.col_all_missing (snd c) = false) (data r)
  /\ Ingestion._clean_farmacia_data r = r.
Proof.
  apply (IngestionFacts.clean_farmacia_data_normalises df_sparse).
  repeat constructor.
Defined.

Lemma low_stock_monotone_witness :
  exists ps1 ps2,
    _identify_low_stock df_boundary 0 = Ok (take_rows ps1 df_boundary)
    /\ _identify_low_stock df_boundary 5 = Ok (take_rows ps2 df_boundary)
    /\ ps1 ⊆ ps2
    /\ ((0 < 0)%Z -> ps1 = []).
Proof.
  apply (AnalyzerExtras.low_stock_monotone df_boundary 0 5 "stock" []
           (Int64 [-1; 0; 5; 6]%Z)).
  - exact Witnesses.well_formed_boundary.
  - reflexivity.
  - reflexivity.
  - reflexivity.
  - lia.
Defined.

Lemma low_stock_frame_invariants_witness :
  well_formed (take_rows [1; 2]%nat df_boundary)
  /\ (len (take_rows [1; 2]%nat df_boundary) <= len df_boundary)%nat
  /\ (stock_cols df_boundary <> [] ->
      columns (take_rows [1; 2]%nat df_boundary) = columns df_boundary)
  /\ (stock_cols df_boundary = [] -> take_rows [1; 2]%nat df_boundary = empty_frame).
Proof.
  apply (AnalyzerExtras.low_stock_frame_invariants df_boundary 5).
  - exact Witnesses.well_formed_boundary.
  - reflexivity.
Defined.

Lemma basic_statistics_bounds_witness :
  let st := _get_basic_statistics df_scenario in
  (missing_values st <= total_rows st * total_columns st)%nat
  /\ ((0 < total_rows st)%nat -> (duplicate_rows st < total_rows st)%nat)
  /\ (total_rows st = 0%nat -> duplicate_rows st = 0%nat)
  /\ (numeric_columns st + categorical_columns st <= total_columns st)%nat.
Proof.
  apply (BasicStatsFacts.basic_statistics_bounds df_scenario).
  repeat constructor.
Defined.

Lemma stock_classes_partition_witness :
  exists st,
    ReportGenerator.stock_stats_of (Int64 [-1; 0; 5; 6]%Z) = Ok st
    /\ (ReportGenerator.sin_stock st + ReportGenerator.stock_bajo st
        + ReportGenerator.stock_medio st + ReportGenerator.stock_alto st
        = count_non_negative (Int64 [-1; 0; 5; 6]%Z))%nat
    /\ (length (low_positions 5 (Int64 [-1; 0; 5; 6]%Z))
        = ReportGenerator.sin_stock st + ReportGenerator.stock_bajo st)%nat.
Proof.
  apply (ReportFacts.stock_classes_partition (Int64 [-1; 0; 5; 6]%Z)).
  reflexivity.
Defined.

Lemma alerts_include_negative_stock_witness :
  exists ps,
    ReportGenerator.alerts_low_stock df_boundary = Ok (Some (take_rows ps df_boundary))
    /\ forall i, i ∈ ps
                 <-> i ∈ low_positions 5 (Int64 [-1; 0; 5; 6]%Z)
                     \/ exists q, cells (Int64 [-1; 0; 5; 6]%Z) !! i = Some (Num q)
                                  /\ (q < 0)%Q.
Proof.
  apply (ReportFacts.alerts_include_negative_stock df_boundary "stock" []
           (Int64 [-1; 0; 5; 6]%Z)).
  - reflexivity.
  - reflexivity.
  - reflexivity.
Defined.

Lemma rotation_needs_producto_column_witness :
  Rotation._analyze_product_rotation find_first df_scenario
  = Raise (KeyErrorNotInIndex ["Producto"; "Laboratorio"])
  /\ (forall n, n ∈ ["Producto"; "Laboratorio"]
                <-> (n = "Producto" \/ n = "Laboratorio") /\ n ∉ columns df_scenario)
  /\ Rotation._analyze_product_rotation (fun _ _ => None) df_scenario
     = Ok (Rotation.mkRotation [] [] []).
Proof.
  apply (RotationExtras.rotation_needs_producto_column find_first df_scenario
           "Cajas Vend. Total" "Cajas Stock Total"
           (Int64 [10; 0; 5]%Z) (Int64 [2; 0; 50]%Z)).
  - reflexivity.
  - reflexivity.
  - discriminate.
  - discriminate.
  - reflexivity.
  - reflexivity.
  - reflexivity.
  - reflexivity.
  - decided.
Defined.

Lemma zero_stock_counts_as_one_witness :
  exists r,
    Rotation._analyze_product_rotation find_first df_farmacia = Ok r
    /\ (forall i x y,
          cells (Int64 [10; 0]%Z) !! i = Some (Num x) ->
          cells (Int64 [0; 0]%Z) !! i = Some (Num y) ->
          (y == 0)%Q ->
          (- inject_Z (2 ^ 53) <= x)%Q -> (x <= inject_Z (2 ^ 53))%Q ->
          exists v, Rotation.rotacion r !! i = Some (Rotation.Fin v) /\ (v == x)%Q)
    /\ Forall (fun v => v <> Rotation.PInf /\ v <> Rotation.NInf)
              (Rotation.rotacion r).
Proof.
  apply (RotationExtras.zero_stock_counts_as_one find_first df_farmacia
           "Cajas Vend. Total" "Cajas Stock Total").
  - reflexivity.
  - reflexivity.
  - discriminate.
  - discriminate.
  - reflexivity.
  - reflexivity.
  - reflexivity.
  - reflexivity.
  - repeat constructor.
  - repeat constructor.
Defined.

Lemma rotation_labels_witness :
  exists r,
    Rotation._analyze_product_rotation find_first df_farmacia = Ok r
    /\ forall i x y,
         cells (Int64 [10; 0]%Z) !! i = Some (Num x) ->
         cells (Int64 [0; 0]%Z) !! i = Some (Num y) ->
         (0 <= x)%Q -> (0 <= y)%Q ->
         exists label,
           Rotation.estado_rotacion r !! i = Some (Some label)
           /\ ((x == 0)%Q -> label = "Sin ventas")
           /\ ((y == 0)%Q -> (5 < x)%Q -> label = "Muy Alta").
Proof.
  apply (RotationExtras.rotation_labels find_first df_farmacia
           "Cajas Vend. Total" "Cajas Stock Total").
  - reflexivity.
  - reflexivity.
  - discriminate.
  - discriminate.
  - reflexivity.
  - reflexivity.
  - reflexivity.
  - reflexivity.
  - repeat constructor.
  - repeat constructor.
Defined.

Lemma well_formed_gaps : well_formed df_gaps.
Proof. split; [repeat constructor | decided]. Qed.

Lemma detect_anomalies_fails_on_missing_values_witness :
  ((exists e, Anomalies._detect_anomalies no_flags no_outliers df_gaps = inl e)
   <-> exists col s, (col, s) ∈ data df_gaps /\ is_number s = true
                     /\ (0 < isnull_sum s)%nat)
  /\ (forall e, Anomalies._detect_anomalies no_flags no_outliers df_gaps = inl e ->
                exists got, e = Anomalies.ItemWrongLength got (len df_gaps)
                            /\ (got < len df_gaps)%nat)
  /\ (forall m col en,
        Anomalies._detect_anomalies no_flags no_outliers df_gaps = inr m ->
        m !! col = Some en ->
        (Anomalies.z_score_anomalies en <= len df_gaps)%nat
        /\ (Anomalies.iqr_anomalies en <= len df_gaps)%nat
        /\ (len (Anomalies.samples en) <= 5)%nat).
Proof.
  apply (AnomaliesFacts.detect_anomalies_fails_on_missing_values
           no_flags no_outliers df_gaps).
  - intros xs. apply length_map.
  - intros s. unfold no_outliers. rewrite length_map. apply FrameFacts.length_cells.
  - exact well_formed_gaps.
Defined.

End ExtraWitnesses.

(** ** Which exception the entry point ends in *)

Module EntryPointExtras.
Import DataAnalyzer.

(** The two outcomes of [_analyze_sales]: it raises when a sales-like
    column has dtype int64 or float64, and returns otherwise. *)
Lemma analyze_sales_outcome df :
  (_analyze_sales df = Raise (AttributeError "_get_top_products")
   /\ exists col s, col ∈ List.filter is_sales_col (columns df)
                    /\ getitem df col = Ok s /\ is_int64_or_float64 s = true)
  \/ ((exists r, _analyze_sales df = Ok r)
      /\ forall col s, col ∈ List.filter is_sales_col (columns df) ->
                       getitem df col = Ok s -> is_int64_or_float64 s = false).
Proof.
  unfold _analyze_sales, _analyze_sales_with.
  pose proof (SalesFacts.filter_sales_cols_are_columns df) as Hcols.
  destruct (List.filter is_sales_col (columns df)) as [|c rest] eqn:Hf.
  - right. split; [eauto|]. intros col s Hin. inversion Hin.
  - destruct (AnalyzerExtras.sales_loop_undefined df (c :: rest) ∅ Hcols)
      as [(-> & Hex)|(-> & Hall)]; cbn [rbind Ok].
    + left. split; [reflexivity|exact Hex].
    + right. split; [eauto|exact Hall].
Qed.

(** X23. The exception of [comprehensive_analysis], for every table: the
    [AttributeError] of [_get_top_products] when a sales-like column is
    numeric; otherwise the [TypeError] of a stock column holding text;
    otherwise the [AttributeError] of [_identify_overstock]. *)
Theorem comprehensive_analysis_exception
    (Anomalies : Type) (detect : DataFrame -> result Anomalies)
    (df : DataFrame) :
  let numeric_sales :=
    exists col s, col ∈ List.filter is_sales_col (columns df)
                  /\ getitem df col = Ok s /\ is_int64_or_float64 s = true in
  let text_stock :=
    exists c rest s, stock_cols df = c :: rest
                     /\ getitem df c = Ok s /\ orderable s = false in
  (numeric_sales ->
   comprehensive_analysis detect df = Raise (AttributeError "_get_top_products"))
  /\ (~ numeric_sales -> text_stock ->
      comprehensive_analysis detect df = Raise TypeError)
  /\ (~ numeric_sales -> ~ text_stock ->
      comprehensive_analysis detect df = Raise (AttributeError "_identify_overstock")).
Proof.
  cbv zeta. unfold comprehensive_analysis.
  change (call "_get_basic_statistics" (Ok (_get_basic_statistics df)))
    with (Ok (_get_basic_statistics df) : result basic_stats).
  change (call "_analyze_sales" (_analyze_sales df)) with (_analyze_sales df).
  change (call "_analyze_inventory" (_analyze_inventory df))
    with (_analyze_inventory df).
  cbn [rbind Ok].
  destruct (analyze_sales_outcome df) as [(-> & Hex)|((r & ->) & Hall)];
    cbn [rbind Ok Raise].
  - split; [reflexivity|]. split; intros Hn; destruct (Hn Hex).
  - assert (Hnone : ~ exists col s, col ∈ List.filter is_sales_col (columns df)
                                    /\ getitem df col = Ok s
                                    /\ is_int64_or_float64 s = true).
    { intros (col & s & Hin & Hs & Hn). rewrite (Hall col s Hin Hs) in Hn. discriminate. }
    split; [intros H; destruct (Hnone H)|].
    unfold _analyze_inventory.
    change (call "_identify_low_stock" (_identify_low_stock df 5))
      with (_identify_low_stock df 5).
    split.
    + intros _ (c & rest & s & Hc & Hs & Ho).
      now rewrite (AnalyzerExtras.identify_low_stock_text df 5 c rest s Hc Hs Ho).
    + intros _ Htext.
      destruct (stock_cols df) as [|c rest] eqn:Hc.
      * now rewrite (EntryPointFacts.no_stock_column_empty df 5 Hc).
      * destruct (FrameFacts.getitem_column df c
                    (LowStockFacts.first_stock_col_is_column df c rest Hc)) as [s Hs].
        destruct (orderable s) eqn:Ho.
        -- now rewrite (LowStockFacts.identify_low_stock_shape df 5 c rest s Hc Hs Ho).
        -- exfalso. apply Htext. exists c, rest, s. auto.
Qed.

End EntryPointExtras.
